(** * github-projects-mcp: tracking store, GitHub client and tool handlers

    A shallow embedding of the server side of the repository:
    - [server/tools/tracking.ts] (the six tracking tools over the two tables of
      [server/schema.ts]),
    - [server/lib/github.ts] (the GraphQL / REST request helper),
    - [server/tools/issues.ts] and [server/tools/projects.ts] (the tool
      handlers that call the helper),
    followed by the properties of the specification, each stated over these
    definitions. *)

From Stdlib Require Import ZArith Ascii String List Lia.
From stdpp Require Import base decidable option list numbers strings pretty.

Set Warnings "-register-all".

Local Open Scope Z_scope.
Local Open Scope string_scope.

(** ** JavaScript values and completions *)

(** A JavaScript [number] that holds an integer, or [NaN].  The embedding is
    exact for integers up to 2^53 in magnitude, where a double represents
    every integer. *)
Inductive JsNumber :=
| Num (z : Z)
| NaN.

(** Values that [JSON.parse] can produce.  An object is its list of entries in
    source order; a property that is [undefined] is an absent entry. *)
Inductive Json :=
| JNull
| JBool (b : bool)
| JNum (z : Z)
| JStr (s : string)
| JArr (items : list Json)
| JObj (entries : list (string * Json)).

(** What an [await] can throw. *)
Inductive Exn :=
| Error (message : string) (retryAfter : option JsNumber)
    (* [new Error(message)], with [retryAfter] when the field was assigned *)
| TypeError      (* raised by the engine: property read on null or undefined *)
| SyntaxError    (* raised by [response.json()] on a body that is not JSON *)
| FetchError     (* [fetch] rejected: no response at all *)
| DriverError (what : string). (* raised by the database driver *)

Inductive Completion (A : Type) :=
| Return (a : A)
| Throw (e : Exn).
Arguments Return {A} a.
Arguments Throw {A} e.

(** An [async] function over a mutable world [S]: it ends in a value or in an
    exception, and leaves the world as it was at that moment. *)
Definition Async (S A : Type) : Type := S -> Completion A * S.

Definition ret {S A} (a : A) : Async S A := fun s => (Return a, s).
Definition throw {S A} (e : Exn) : Async S A := fun s => (Throw e, s).
Definition bind {S A B} (m : Async S A) (k : A -> Async S B) : Async S B :=
  fun s => match m s with
           | (Return a, s') => k a s'
           | (Throw e, s') => (Throw e, s')
           end.
(** [try { m } catch { h }] *)
Definition try_catch {S A} (m : Async S A) (h : Exn -> Async S A) : Async S A :=
  fun s => match m s with
           | (Return a, s') => (Return a, s')
           | (Throw e, s') => h e s'
           end.
Definition get {S} : Async S S := fun s => (Return s, s).
Definition put {S} (s : S) : Async S unit := fun _ => (Return tt, s).

Declare Scope async_scope.
Delimit Scope async_scope with async.
Notation "'await' x <- m ;; k" := (bind m (fun x => k))
  (at level 100, x name, m at next level, k at level 200,
   right associativity) : async_scope.
Notation "'run' m ;; k" := (bind m (fun _ => k))
  (at level 100, m at next level, k at level 200,
   right associativity) : async_scope.
Local Open Scope async_scope.

(** Truthiness of a JSON value ([ToBoolean]). *)
Definition truthy (v : Json) : bool :=
  match v with
  | JNull => false
  | JBool b => b
  | JNum z => negb (z =? 0)%Z
  | JStr s => negb (String.eqb s "")
  | JArr _ | JObj _ => true
  end.

(** Truthiness of a string that may be [null] or [undefined]. *)
Definition truthy_str (o : option string) : bool :=
  match o with
  | Some s => negb (String.eqb s "")
  | None => false
  end.

(** [String(v)], and the rendering in a template literal, of a number that
    holds an integer: its decimal numeral.  Like [JsNumber] this is exact for
    integers up to 2^53 in magnitude (beyond, a double prints the shortest
    digits that read back as itself); every property about the numeral of a
    number the caller chooses assumes that range. *)
Definition String_of_number (z : Z) : string := pretty z.

(** [Array.prototype.join]. *)
Fixpoint join (sep : string) (l : list string) : string :=
  match l with
  | [] => ""
  | [s] => s
  | s :: rest => s +:+ sep +:+ join sep rest
  end.

(** [Array.prototype.find]. *)
Definition find {A} (P : A -> Prop) `{forall x, Decision (P x)} (l : list A)
  : option A :=
  snd <$> list_find P l.

(** A [Date] is its time value, in milliseconds since the epoch;
    [toISOString] renders it, and the rendering is kept symbolic. *)
Definition Date := Z.
Inductive ISOString := toISOString (d : Date).

(** A column [integer(..., { mode: "timestamp" })] holds whole seconds:
    drizzle writes a [Date] as [Math.floor(date.getTime() / 1000)] and reads
    the stored integer back as [new Date(seconds * 1000)]. *)
Definition mapToDriverValue (d : Date) : Z := d / 1000.
Definition mapFromDriverValue (seconds : Z) : Date := seconds * 1000.

(** ** server/schema.ts: the two tables *)

(** A row is what a [select] gives: [createdAt] is the [Date] drizzle makes
    of the stored seconds. *)

Module trackedRepositoriesTable.
Record Row := {
    id : Z;
    owner : string;
    name : string;
    isActive : Z;  (* 1 = active, 0 = inactive *)
    createdAt : Date
  }.
End trackedRepositoriesTable.

Module trackedProjectsTable.
Record Row := {
    id : Z;
    projectId : string;  (* GitHub's project ID, under a unique index *)
    title : string;
    organizationLogin : string;
    isActive : Z;
    createdAt : Date
  }.
End trackedProjectsTable.

Module R := trackedRepositoriesTable.
Module P := trackedProjectsTable.

(** The database behind [getDb(env)]: each table is the list of its rows in
    scan order (the order of a [select] without [orderBy]). *)
Record Database := {
  tracked_repositories : list R.Row;
  tracked_projects : list P.Row
}.

(** *** The drizzle statements the tools issue *)

Section Drizzle.
Context {Row : Type}.

  (** [select().from(t).where(c)] *)
Definition select_where (c : Row -> Prop) `{forall r, Decision (c r)}
    (t : list Row) : list Row := filter c t.

  (** [.limit(n)] *)
Definition limit (n : nat) (rows : list Row) : list Row := take n rows.

  (** [update(t).set(s).where(c)]: the table afterwards. *)
Definition update_where (s : Row -> Row) (c : Row -> Prop)
    `{forall r, Decision (c r)} (t : list Row) : list Row :=
    (fun r => if decide (c r) then s r else r) <$> t.

  (** [.returning()] of that update: the rows it changed, as changed. *)
Definition update_returning (s : Row -> Row) (c : Row -> Prop)
    `{forall r, Decision (c r)} (t : list Row) : list Row :=
    s <$> filter c t.

  (** [delete(t).where(c)] *)
Definition delete_where (c : Row -> Prop) `{forall r, Decision (c r)}
    (t : list Row) : list Row := filter (fun r => ~ c r) t.
End Drizzle.

(** The rowid SQLite gives to a row inserted without one into a table with an
    [integer primary key]: one more than the largest in use, 1 in an empty
    table.  SQLite does so while the largest rowid is below 2^63 - 1, and
    JavaScript reads the new id exactly while it is at most 2^53; the
    property that states the id of an inserted row assumes ids below 2^53
    in magnitude. *)
Definition nextRowid (ids : list Z) : Z :=
  match ids with
  | [] => 1
  | i :: rest => foldr Z.max i rest + 1
  end.

(** ** server/tools/tracking.ts *)

Definition getDb : Async Database Database := get.

(** The shape both [outputSchema]s give to a row. *)
Module Repository.
Record t := {
    id : Z;
    owner : string;
    name : string;
    isActive : bool;
    createdAt : ISOString
  }.
End Repository.

Module Project.
Record t := {
    id : Z;
    projectId : string;
    title : string;
    organizationLogin : string;
    isActive : bool;
    createdAt : ISOString
  }.
End Project.

Definition repository_of (r : R.Row) : Repository.t :=
  {| Repository.id := R.id r;
     Repository.owner := R.owner r;
     Repository.name := R.name r;
     Repository.isActive := (R.isActive r =? 1)%Z;
     Repository.createdAt := toISOString (R.createdAt r) |}.

Definition project_of (p : P.Row) : Project.t :=
  {| Project.id := P.id p;
     Project.projectId := P.projectId p;
     Project.title := P.title p;
     Project.organizationLogin := P.organizationLogin p;
     Project.isActive := (P.isActive p =? 1)%Z;
     Project.createdAt := toISOString (P.createdAt p) |}.

(** [.set({ isActive: v })] on a repository row. *)
Definition R_set_isActive (v : Z) (r : R.Row) : R.Row :=
  {| R.id := R.id r; R.owner := R.owner r; R.name := R.name r;
     R.isActive := v; R.createdAt := R.createdAt r |}.

(** [.set({ isActive: v })] and [.set({ title: t })] on a project row. *)
Definition P_set_isActive (v : Z) (p : P.Row) : P.Row :=
  {| P.id := P.id p; P.projectId := P.projectId p; P.title := P.title p;
     P.organizationLogin := P.organizationLogin p;
     P.isActive := v; P.createdAt := P.createdAt p |}.
Definition P_set_title (t : string) (p : P.Row) : P.Row :=
  {| P.id := P.id p; P.projectId := P.projectId p; P.title := t;
     P.organizationLogin := P.organizationLogin p;
     P.isActive := P.isActive p; P.createdAt := P.createdAt p |}.

(** Writing a table back into the database. *)
Definition with_repositories (t : list R.Row) (db : Database) : Database :=
  {| tracked_repositories := t; tracked_projects := tracked_projects db |}.
Definition with_projects (t : list P.Row) (db : Database) : Database :=
  {| tracked_repositories := tracked_repositories db; tracked_projects := t |}.

(** [db.update(trackedRepositoriesTable).set(s).where(c).returning()] *)
Definition update_repositories (s : R.Row -> R.Row) (c : R.Row -> Prop)
  `{forall r, Decision (c r)} : Async Database (list R.Row) :=
  await db <- get ;;
  run put (with_repositories (update_where s c (tracked_repositories db)) db) ;;
  ret (update_returning s c (tracked_repositories db)).

(** [db.delete(trackedRepositoriesTable).where(c)] *)
Definition delete_repositories (c : R.Row -> Prop) `{forall r, Decision (c r)}
  : Async Database unit :=
  await db <- get ;;
  put (with_repositories (delete_where c (tracked_repositories db)) db).

(** [db.insert(trackedRepositoriesTable).values({owner, name, isActive})
    .returning()]: the id comes from SQLite and [createdAt] from the column's
    [$defaultFn(() => new Date())], which reads the clock, here [now]; the
    column keeps its whole seconds, and [.returning()] reads the row back. *)
Definition insert_repository (owner name : string) (isActive : Z) (now : Date)
  : Async Database (list R.Row) :=
  await db <- get ;;
  let row := {| R.id := nextRowid (R.id <$> tracked_repositories db);
                R.owner := owner; R.name := name;
                R.isActive := isActive;
                R.createdAt := mapFromDriverValue (mapToDriverValue now) |} in
  run put (with_repositories (tracked_repositories db ++ [row]) db) ;;
  ret [row].

Definition update_projects (s : P.Row -> P.Row) (c : P.Row -> Prop)
  `{forall r, Decision (c r)} : Async Database (list P.Row) :=
  await db <- get ;;
  run put (with_projects (update_where s c (tracked_projects db)) db) ;;
  ret (update_returning s c (tracked_projects db)).

Definition delete_projects (c : P.Row -> Prop) `{forall r, Decision (c r)}
  : Async Database unit :=
  await db <- get ;;
  put (with_projects (delete_where c (tracked_projects db)) db).

(** The insert into [tracked_projects] runs under the unique index on
    [project_id]: SQLite refuses a value that is already there. *)
Definition insert_project (projectId title organizationLogin : string)
  (isActive : Z) (now : Date) : Async Database (list P.Row) :=
  await db <- get ;;
  if decide (projectId ∈ P.projectId <$> tracked_projects db) then
    throw (DriverError "UNIQUE constraint failed: tracked_projects.project_id")
  else
    let row := {| P.id := nextRowid (P.id <$> tracked_projects db);
                  P.projectId := projectId; P.title := title;
                  P.organizationLogin := organizationLogin;
                  P.isActive := isActive;
                  P.createdAt := mapFromDriverValue (mapToDriverValue now) |} in
    run put (with_projects (tracked_projects db ++ [row]) db) ;;
    ret [row].

(** [rows[0].field]: reading a field of [undefined] is a [TypeError]. *)
Definition first_row {S A B} (rows : list A) (k : A -> Async S B) : Async S B :=
  match rows with
  | r :: _ => k r
  | [] => throw TypeError
  end.

(** ADD_TRACKED_REPOSITORY *)
Definition createAddTrackedRepository (owner name : string) (now : Date)
  : Async Database Repository.t :=
  await db <- getDb ;;
  (* Check if already exists *)
  let existing :=
    limit 1 (select_where (fun r => R.owner r = owner)
                          (tracked_repositories db)) in
  let matchingRepo := find (fun r => R.name r = name) existing in
  match matchingRepo with
  | Some matchingRepo =>
      if decide (R.isActive matchingRepo = 0) then
        (* If exists but inactive, reactivate it *)
        await updated <- update_repositories (R_set_isActive 1)
                           (fun r => R.id r = R.id matchingRepo) ;;
        first_row updated (fun u => ret (repository_of u))
      else
        (* Already active, return existing *)
        ret (repository_of matchingRepo)
  | None =>
      (* Create new tracked repository *)
      await inserted <- insert_repository owner name 1 now ;;
      first_row inserted (fun i => ret (repository_of i))
  end.

(** LIST_TRACKED_REPOSITORIES *)
Definition createListTrackedRepositories (activeOnly : bool)
  : Async Database (list Repository.t) :=
  await db <- getDb ;;
  let repositories :=
    if activeOnly
    then select_where (fun r => R.isActive r = 1) (tracked_repositories db)
    else tracked_repositories db in
  ret (repository_of <$> repositories).

(** The output of both remove tools. *)
Record Removed := { success : bool; deletedId : Z }.

(** REMOVE_TRACKED_REPOSITORY *)
Definition createRemoveTrackedRepository (id : Z) (hardDelete : bool)
  : Async Database Removed :=
  await db <- getDb ;;
  (* Check if exists *)
  let existing :=
    limit 1 (select_where (fun r => R.id r = id) (tracked_repositories db)) in
  if decide (length existing = 0%nat) then
    throw (Error ("Tracked repository with ID " +:+ String_of_number id
                  +:+ " not found") None)
  else
    run (if hardDelete
         then delete_repositories (fun r => R.id r = id)
         else run update_repositories (R_set_isActive 0)
                    (fun r => R.id r = id) ;; ret tt) ;;
    ret {| success := true; deletedId := id |}.

(** ADD_TRACKED_PROJECT *)
Definition createAddTrackedProject
  (projectId title organizationLogin : string) (now : Date)
  : Async Database Project.t :=
  await db <- getDb ;;
  (* Check if already exists *)
  let existing :=
    limit 1 (select_where (fun p => P.projectId p = projectId)
                          (tracked_projects db)) in
  match existing with
  | project :: _ =>
      if decide (P.isActive project = 0) then
        (* If exists but inactive, reactivate it *)
        await updated <- update_projects
                           (fun p => P_set_title title (P_set_isActive 1 p))
                           (fun p => P.id p = P.id project) ;;
        first_row updated (fun u => ret (project_of u))
      else
        (* Already active, return existing (update title in case it changed) *)
        await updated <- update_projects (P_set_title title)
                           (fun p => P.id p = P.id project) ;;
        first_row updated (fun u => ret (project_of u))
  | [] =>
      (* Create new tracked project *)
      await inserted <- insert_project projectId title organizationLogin 1 now ;;
      first_row inserted (fun i => ret (project_of i))
  end.

(** LIST_TRACKED_PROJECTS *)
Definition createListTrackedProjects (activeOnly : bool)
  : Async Database (list Project.t) :=
  await db <- getDb ;;
  let projects :=
    if activeOnly
    then select_where (fun p => P.isActive p = 1) (tracked_projects db)
    else tracked_projects db in
  ret (project_of <$> projects).

(** REMOVE_TRACKED_PROJECT *)
Definition createRemoveTrackedProject (id : Z) (hardDelete : bool)
  : Async Database Removed :=
  await db <- getDb ;;
  (* Check if exists *)
  let existing :=
    limit 1 (select_where (fun p => P.id p = id) (tracked_projects db)) in
  if decide (length existing = 0%nat) then
    throw (Error ("Tracked project with ID " +:+ String_of_number id
                  +:+ " not found") None)
  else
    run (if hardDelete
         then delete_projects (fun p => P.id p = id)
         else run update_projects (P_set_isActive 0)
                    (fun p => P.id p = id) ;; ret tt) ;;
    ret {| success := true; deletedId := id |}.

(** ** The platform under the client: strings, numbers, HTTP *)

(** Template-literal rendering of a string that may be [null]. *)
Definition String_of_nullable (o : option string) : string :=
  match o with
  | Some s => s
  | None => "null"
  end.

(** [String(v)] of a JSON value, as a template literal renders it. *)
Fixpoint String_of_json (v : Json) : string :=
  match v with
  | JNull => "null"
  | JBool true => "true"
  | JBool false => "false"
  | JNum z => String_of_number z
  | JStr s => s
  | JArr items =>
      join "," ((fun item => match item with
                             | JNull => ""
                             | _ => String_of_json item
                             end) <$> items)
  | JObj _ => "[object Object]"
  end.

(** *** [parseInt(string, 10)] *)

(** White space that [parseInt] skips, among the code units a header value
    can hold: TAB, LF, VT, FF, CR, SP and NBSP. *)
Definition isWhiteSpace (c : ascii) : bool :=
  let n := nat_of_ascii c in
  (Nat.eqb n 9 || Nat.eqb n 10 || Nat.eqb n 11 || Nat.eqb n 12
   || Nat.eqb n 13 || Nat.eqb n 32 || Nat.eqb n 160)%bool.

Fixpoint trimStart (s : string) : string :=
  match s with
  | String c rest => if isWhiteSpace c then trimStart rest else s
  | EmptyString => EmptyString
  end.

Definition digitValue (c : ascii) : option Z :=
  let n := Z.of_nat (nat_of_ascii c) in
  if ((48 <=? n)%Z && (n <=? 57)%Z)%bool then Some (n - 48) else None.

(** The digits of the longest prefix of [s] made of decimal digits. *)
Fixpoint digitPrefix (s : string) : list Z :=
  match s with
  | String c rest =>
      match digitValue c with
      | Some d => d :: digitPrefix rest
      | None => []
      end
  | EmptyString => []
  end.

(** The integer a sequence of decimal digits denotes. *)
Definition digitsToInteger (ds : list Z) : Z :=
  foldl (fun acc d => acc * 10 + d) 0 ds.

Definition parseInt (s : string) : JsNumber :=
  let s1 := trimStart s in
  let '(sign, s2) :=
    match s1 with
    | String "-" rest => (-1, rest)
    | String "+" rest => (1, rest)
    | _ => (1, s1)
    end in
  match digitPrefix s2 with
  | [] => NaN
  | ds => Num (sign * digitsToInteger ds)
  end.

(** [String.prototype.startsWith] *)
Definition startsWith (p s : string) : bool := String.prefix p s.

(** *** Requests and responses *)

(** A request body: [JSON.stringify(v)], kept as the value [v] it
    serialises, or a text the caller supplied. *)
Inductive Body :=
| JSON_stringify (v : Json)
| Text (s : string).

(** An object literal whose properties may be [undefined]. *)
Definition Props := list (string * option Json).

(** What [JSON.stringify] keeps of such an object: the defined properties. *)
Definition defined (ps : Props) : list (string * Json) :=
  omap (fun kv => pair kv.1 <$> kv.2) ps.

(** [{ ...a, ...b }] on string-keyed objects: a key of [b] replaces the value
    of the same key of [a] in place, a new key goes to the end. *)
Fixpoint assign {V} (a : list (string * V)) (k : string) (v : V)
  : list (string * V) :=
  match a with
  | [] => [(k, v)]
  | (k', v') :: rest =>
      if String.eqb k' k then (k', v) :: rest else (k', v') :: assign rest k v
  end.
Definition spread {V} (a b : list (string * V)) : list (string * V) :=
  foldl (fun acc kv => assign acc kv.1 kv.2) a b.

(** What [fetch] is called with.  [headers] lists the properties of the
    headers object in the order they were written; [fetch] reads them by
    name. *)
Record Request := {
  url : string;
  method : option string;
  headers : list (string * string);
  body : option Body
}.

(** [HeadersInit]: a record of header values, an array of name/value pairs,
    or a [Headers] object (given by the entries it holds). *)
Inductive HeadersInit :=
| HeadersRecord (entries : list (string * string))
| HeadersPairs (pairs : list (string * string))
| HeadersObject (entries : list (string * string)).

(** [RequestInit], as far as [restRequest] reads it; [headers] may be
    [undefined]. *)
Record RequestInit := {
  init_method : option string;
  init_headers : option HeadersInit;
  init_body : option Body
}.

(** What [...options.headers] copies into an object literal: the own
    enumerable properties of the value.  A record gives its entries; an
    array of pairs gives its indices, each holding a pair, which [fetch]
    reads as the string [name,value]; a [Headers] object keeps its entries
    out of its properties and gives none, and so does [undefined]. *)
Definition own_properties (h : option HeadersInit) : list (string * string) :=
  match h with
  | Some (HeadersRecord entries) => entries
  | Some (HeadersPairs pairs) =>
      imap (fun i pair => (pretty i, pair.1 +:+ "," +:+ pair.2)) pairs
  | Some (HeadersObject _) | None => []
  end.

(** A response whose body, read by [response.json()], has type [B];
    [json = None] when the body is not JSON. *)
Record Response (B : Type) := {
  status : Z;
  statusText : string;
  headers_get : string -> option string;
  json : option B
}.
Arguments status {B} _.
Arguments statusText {B} _.
Arguments headers_get {B} _ _.
Arguments json {B} _.

(** [response.ok] *)
Definition ok {B} (response : Response B) : bool :=
  ((200 <=? status response)%Z && (status response <=? 299)%Z)%bool.

(** The remote side: what it answers to a request, given the requests sent
    before; [None] when no response arrives. *)
Definition Server (B : Type) := list Request -> Request -> option (Response B).

(** [await fetch(...)]: the world is the list of requests sent so far. *)
Definition fetch {B} (server : Server B) (request : Request)
  : Async (list Request) (Response B) :=
  fun sent =>
    match server sent request with
    | Some response => (Return response, (sent ++ [request])%list)
    | None => (Throw FetchError, (sent ++ [request])%list)
    end.

(** [await response.json()] *)
Definition response_json {S B} (response : Response B) : Async S B :=
  match json response with
  | Some v => ret v
  | None => throw SyntaxError
  end.

(** Reading property [k] of a value that may be [undefined].  The keys read
    are field names of GraphQL payloads, none of which is a property of the
    array, string, number or boolean prototypes. *)
Fixpoint entries_get (k : string) (es : list (string * Json)) : option Json :=
  match es with
  | [] => None
  | (k', v) :: rest =>
      match entries_get k rest with
      | Some w => Some w
      | None => if String.eqb k' k then Some v else None
      end
  end.
Definition get_prop {S} (v : option Json) (k : string)
  : Async S (option Json) :=
  match v with
  | None | Some JNull => throw TypeError
  | Some (JObj es) => ret (entries_get k es)
  | Some _ => ret None
  end.

(** ** server/lib/github.ts *)

Record GraphQLError := {
  message : string;
  type : option string;
  path : option (list string)
}.

(** [GraphQLResponse<T>] at [T = any]: the two members the interface names,
    each optional, and whatever else the parsed object holds. *)
Record GraphQLResponse := {
  data : option Json;
  errors : option (list GraphQLError);
  other : list (string * Json)
}.

Definition GITHUB_API_URL := "https://api.github.com".
Definition GITHUB_GRAPHQL_URL := "https://api.github.com/graphql".

(** The rate-limit branch shared by both request functions. *)
Definition rateLimitError (retryAfter : option string) : Exn :=
  Error ("Rate limit exceeded. Retry after "
         +:+ String_of_nullable retryAfter +:+ " seconds.")
        (Some (if truthy_str retryAfter
               then parseInt (String_of_nullable retryAfter)
               else Num 60)).

(** The GraphQL documents, verbatim from the template literals of
    [server/lib/github.ts], [server/tools/issues.ts] and
    [server/tools/projects.ts], each under its operation name. *)
Module Queries.
Definition GetRepositoryId : string := "
      query GetRepositoryId($owner: String!, $repo: String!) {
        repository(owner: $owner, name: $repo) {
          id
        }
      }
    ".

Definition GetIssueId : string := "
      query GetIssueId($owner: String!, $repo: String!, $issueNumber: Int!) {
        repository(owner: $owner, name: $repo) {
          issue(number: $issueNumber) {
            id
          }
        }
      }
    ".

Definition ListIssues : string := "
        query ListIssues($owner: String!, $repo: String!, $states: [IssueState!], $labels: [String!], $first: Int!) {
          repository(owner: $owner, name: $repo) {
            issues(
              first: $first
              states: $states
              labels: $labels
              orderBy: { field: CREATED_AT, direction: DESC }
            ) {
              totalCount
              nodes {
                id
                number
                title
                body
                state
                url
                createdAt
                updatedAt
                author {
                  login
                }
                labels(first: 10) {
                  nodes {
                    name
                    color
                  }
                }
                assignees(first: 10) {
                  nodes {
                    login
                  }
                }
              }
            }
          }
        }
      ".

Definition GetIssue : string := "
        query GetIssue($owner: String!, $repo: String!, $issueNumber: Int!) {
          repository(owner: $owner, name: $repo) {
            issue(number: $issueNumber) {
              id
              number
              title
              body
              state
              url
              createdAt
              updatedAt
              closedAt
              author {
                login
              }
              labels(first: 50) {
                nodes {
                  name
                  color
                }
              }
              assignees(first: 50) {
                nodes {
                  login
                }
              }
              milestone {
                title
              }
              comments {
                totalCount
              }
            }
          }
        }
      ".

Definition CreateIssue : string := "
        mutation CreateIssue(
          $repositoryId: ID!
          $title: String!
          $body: String
          $assigneeIds: [ID!]
          $labelIds: [ID!]
          $milestoneId: ID
        ) {
          createIssue(
            input: {
              repositoryId: $repositoryId
              title: $title
              body: $body
              assigneeIds: $assigneeIds
              labelIds: $labelIds
              milestoneId: $milestoneId
            }
          ) {
            issue {
              id
              number
              title
              url
            }
          }
        }
      ".

Definition UpdateIssue : string := "
        mutation UpdateIssue(
          $issueId: ID!
          $title: String
          $body: String
          $state: IssueState
        ) {
          updateIssue(
            input: { id: $issueId, title: $title, body: $body, state: $state }
          ) {
            issue {
              id
              number
              title
              url
              state
            }
          }
        }
      ".

Definition CloseIssue : string := "
        mutation CloseIssue($issueId: ID!, $stateReason: IssueClosedStateReason) {
          closeIssue(input: { issueId: $issueId, stateReason: $stateReason }) {
            issue {
              id
              number
              state
              stateReason
            }
          }
        }
      ".

Definition AddComment : string := "
        mutation AddComment($subjectId: ID!, $body: String!) {
          addComment(input: { subjectId: $subjectId, body: $body }) {
            commentEdge {
              node {
                id
                body
                url
                createdAt
              }
            }
          }
        }
      ".

Definition ListComments : string := "
        query ListComments($owner: String!, $repo: String!, $issueNumber: Int!, $first: Int!) {
          repository(owner: $owner, name: $repo) {
            issue(number: $issueNumber) {
              comments(first: $first) {
                nodes {
                  id
                  body
                  url
                  createdAt
                  author {
                    login
                  }
                }
              }
            }
          }
        }
      ".

Definition AddLabels : string := "
        mutation AddLabels($labelableId: ID!, $labelIds: [ID!]!) {
          addLabelsToLabelable(
            input: { labelableId: $labelableId, labelIds: $labelIds }
          ) {
            labelable {
              ... on Issue {
                labels(first: 50) {
                  nodes {
                    name
                    color
                  }
                }
              }
            }
          }
        }
      ".

Definition RemoveLabels : string := "
        mutation RemoveLabels($labelableId: ID!, $labelIds: [ID!]!) {
          removeLabelsFromLabelable(
            input: { labelableId: $labelableId, labelIds: $labelIds }
          ) {
            labelable {
              ... on Issue {
                labels(first: 50) {
                  nodes {
                    name
                    color
                  }
                }
              }
            }
          }
        }
      ".

Definition AssignIssue : string := "
        mutation AssignIssue($assignableId: ID!, $assigneeIds: [ID!]!) {
          addAssigneesToAssignable(
            input: { assignableId: $assignableId, assigneeIds: $assigneeIds }
          ) {
            assignable {
              ... on Issue {
                assignees(first: 50) {
                  nodes {
                    login
                  }
                }
              }
            }
          }
        }
      ".

Definition UnassignIssue : string := "
        mutation UnassignIssue($assignableId: ID!, $assigneeIds: [ID!]!) {
          removeAssigneesFromAssignable(
            input: { assignableId: $assignableId, assigneeIds: $assigneeIds }
          ) {
            assignable {
              ... on Issue {
                assignees(first: 50) {
                  nodes {
                    login
                  }
                }
              }
            }
          }
        }
      ".

Definition ListProjects : string := "
        query ListProjects($login: String!, $first: Int!) {
          organization(login: $login) {
            projectsV2(first: $first) {
              nodes {
                id
                title
                number
                url
              }
            }
          }
        }
      ".

Definition GetProject : string := "
        query GetProject($projectId: ID!) {
          node(id: $projectId) {
            ... on ProjectV2 {
              id
              title
              number
              url
              shortDescription
              readme
              closed
              public
              items {
                totalCount
              }
            }
          }
        }
      ".

Definition GetOrgId : string := "
        query GetOrgId($login: String!) {
          organization(login: $login) {
            id
          }
        }
      ".

Definition CreateProject : string := "
        mutation CreateProject($ownerId: ID!, $title: String!) {
          createProjectV2(input: { ownerId: $ownerId, title: $title }) {
            projectV2 {
              id
              title
              url
              number
            }
          }
        }
      ".

Definition UpdateProject : string := "
        mutation UpdateProject($projectId: ID!, $title: String, $shortDescription: String, $readme: String, $public: Boolean) {
          updateProjectV2(
            input: {
              projectId: $projectId
              title: $title
              shortDescription: $shortDescription
              readme: $readme
              public: $public
            }
          ) {
            projectV2 {
              id
              title
              url
            }
          }
        }
      ".

Definition DeleteProject : string := "
        mutation DeleteProject($projectId: ID!) {
          deleteProjectV2(input: { projectId: $projectId }) {
            projectV2 {
              id
            }
          }
        }
      ".

Definition ListProjectItems : string := "
        query ListProjectItems($projectId: ID!, $first: Int!) {
          node(id: $projectId) {
            ... on ProjectV2 {
              items(first: $first) {
                nodes {
                  id
                  content {
                    __typename
                    ... on Issue {
                      title
                      url
                      state
                      number
                    }
                    ... on PullRequest {
                      title
                      url
                      state
                      number
                    }
                    ... on DraftIssue {
                      title
                    }
                  }
                }
              }
            }
          }
        }
      ".

Definition AddItemToProject : string := "
        mutation AddItemToProject($projectId: ID!, $contentId: ID!) {
          addProjectV2ItemById(
            input: { projectId: $projectId, contentId: $contentId }
          ) {
            item {
              id
            }
          }
        }
      ".
End Queries.

(** [await obj.k1.k2...]: each step reads a property of the previous value. *)
Fixpoint get_path {S} (v : option Json) (ks : list string)
  : Async S (option Json) :=
  match ks with
  | [] => ret v
  | k :: ks' => await w <- get_prop v k ;; get_path w ks'
  end.

Section createGitHubClient.
Variable token : string.
Variable graphql : Server GraphQLResponse.
Variable rest : Server Json.

(** The request [graphqlQuery] hands to [fetch]. *)
Definition graphqlRequest (query : string) (variables : option Props)
  : Request :=
  {| url := GITHUB_GRAPHQL_URL;
     method := Some "POST";
     headers := [("Authorization", "Bearer " +:+ token);
                 ("Content-Type", "application/json");
                 ("User-Agent", "GitHub-Projects-MCP")];
     body := Some (JSON_stringify (JObj (defined
               [("query", Some (JStr query));
                ("variables", (fun vs => JObj (defined vs)) <$> variables)])))
  |}.

(** Execute a GraphQL query against GitHub's API *)
Definition graphqlQuery (query : string) (variables : option Props)
  : Async (list Request) Json :=
  await response <- fetch graphql (graphqlRequest query variables) ;;
  (* Handle rate limiting *)
  if (status response =? 429)%Z then
    throw (rateLimitError (headers_get response "Retry-After"))
  else if negb (ok response) then
    throw (Error ("GitHub API request failed: "
                  +:+ String_of_number (status response) +:+ " "
                  +:+ statusText response) None)
  else
    await result <- response_json response ;;
    (* Handle GraphQL errors *)
    match errors result with
    | Some (e :: es) =>
        throw (Error ("GraphQL errors: "
                      +:+ join ", " (message <$> e :: es)) None)
    | _ =>
        match data result with
        | Some d =>
            if truthy d then ret d
            else throw (Error "GraphQL response missing data" None)
        | None => throw (Error "GraphQL response missing data" None)
        end
    end.

(** The request [restRequest] hands to [fetch]. *)
Definition restRequestInit (endpoint : string) (options : RequestInit)
  : Request :=
  let url :=
    if startsWith "http" endpoint then endpoint
    else GITHUB_API_URL +:+ endpoint in
  {| url := url;
     method := init_method options;
     headers := spread
                  [("Authorization", "Bearer " +:+ token);
                   ("Content-Type", "application/json");
                   ("User-Agent", "GitHub-Projects-MCP");
                   ("Accept", "application/vnd.github+json");
                   ("X-GitHub-Api-Version", "2022-11-28")]
                  (own_properties (init_headers options));
     body := init_body options |}.

(** Execute a REST API request against GitHub *)
Definition restRequest (endpoint : string) (options : RequestInit)
  : Async (list Request) Json :=
  await response <- fetch rest (restRequestInit endpoint options) ;;
  (* Handle rate limiting *)
  if (status response =? 429)%Z then
    throw (rateLimitError (headers_get response "Retry-After"))
  else if negb (ok response) then
    let errorMessage :=
      "GitHub REST API request failed: "
      +:+ String_of_number (status response) +:+ " "
      +:+ statusText response in
    await errorMessage <-
      try_catch
        (await errorBody <- response_json response ;;
         await message <- get_prop (Some errorBody) "message" ;;
         match message with
         | Some m =>
             if truthy m
             then ret (errorMessage +:+ " - " +:+ String_of_json m)
             else ret errorMessage
         | None => ret errorMessage
         end)
        (fun _ => ret errorMessage) (* Ignore JSON parsing errors *) ;;
    throw (Error errorMessage None)
  else if (status response =? 204)%Z then
    (* Handle 204 No Content responses *)
    ret (JObj [])
  else
    response_json response.

(** Helper to get repository node ID from owner/name *)
Definition getRepositoryNodeId (owner repo : string)
  : Async (list Request) (option Json) :=
  await result <- graphqlQuery Queries.GetRepositoryId
    (Some [("owner", Some (JStr owner)); ("repo", Some (JStr repo))]) ;;
  get_path (Some result) ["repository"; "id"].

(** Helper to get issue node ID from owner/repo/number *)
Definition getIssueNodeId (owner repo : string) (issueNumber : Z)
  : Async (list Request) (option Json) :=
  await result <- graphqlQuery Queries.GetIssueId
    (Some [("owner", Some (JStr owner)); ("repo", Some (JStr repo));
           ("issueNumber", Some (JNum issueNumber))]) ;;
  get_path (Some result) ["repository"; "issue"; "id"].

End createGitHubClient.


(** ** The request context of a tool call *)

(** Modelled from the spec: [server/main.ts], which declares [Env] and the
    state schema, is not among the sources.  The specification describes the
    state as a request-scoped configuration value carrying a credential and a
    default organization; the handlers read it as
    [env.DECO_REQUEST_CONTEXT?.state] and [state?.githubToken]. *)
Record State := {
  githubToken : option string;
  defaultOrganization : option string
}.
Record RequestContext := { state : option State }.
Record Env := { DECO_REQUEST_CONTEXT : option RequestContext }.

Definition NO_TOKEN_MESSAGE :=
  "GitHub token not configured. Please configure your app with a GitHub Personal Access Token.".
Definition NO_ORGANIZATION_MESSAGE :=
  "Organization login is required. Provide it in the input or set a default organization in app configuration.".

(** The opening lines of every handler:
    [const state = env.DECO_REQUEST_CONTEXT?.state;
     if (!state?.githubToken) throw new Error(...)];
    what follows runs with the state and its token. *)
Definition withGitHubToken {S A} (env : Env)
  (k : State -> string -> Async S A) : Async S A :=
  let state := DECO_REQUEST_CONTEXT env ≫= state in
  match state with
  | Some st =>
      match githubToken st with
      | Some token =>
          if truthy_str (Some token) then k st token
          else throw (Error NO_TOKEN_MESSAGE None)
      | None => throw (Error NO_TOKEN_MESSAGE None)
      end
  | None => throw (Error NO_TOKEN_MESSAGE None)
  end.

(** [a || b] on strings that may be [undefined]. *)
Definition or_str (a b : option string) : option string :=
  if truthy_str a then a else b.

(** [Math.min(context.first || 20, 100)] *)
Definition pageSize (first : Z) : Z :=
  Z.min (if (first =? 0)%Z then 20 else first) 100.

(** [nodes.map(f)]: a [TypeError] unless [nodes] is an array. *)
Fixpoint mapM {S A B} (f : A -> Async S B) (l : list A) : Async S (list B) :=
  match l with
  | [] => ret []
  | x :: rest =>
      await y <- f x ;;
      await ys <- mapM f rest ;;
      ret (y :: ys)
  end.
Definition array_map {S} (nodes : option Json) (f : Json -> Async S Json)
  : Async S Json :=
  match nodes with
  | Some (JArr items) => await mapped <- mapM f items ;; ret (JArr mapped)
  | _ => throw TypeError
  end.

(** [{ ...v }] inside an object literal: the entries of an object.  The
    handlers spread a value and then read fields of its fields, which throws
    for anything that is not an object, so only that case yields entries. *)
Definition spread_entries (v : option Json) : Props :=
  match v with
  | Some (JObj es) => (fun kv => (kv.1, Some kv.2)) <$> es
  | _ => []
  end.

(** An object literal, as the value the tool returns. *)
Definition object (ps : Props) : Json := JObj (defined ps).

Definition strings (l : list string) : Json := JArr (JStr <$> l).

Inductive IssueState := OPEN | CLOSED.
Definition IssueState_str (s : IssueState) : string :=
  match s with OPEN => "OPEN" | CLOSED => "CLOSED" end.

Inductive StateReason := COMPLETED | NOT_PLANNED.
Definition StateReason_str (s : StateReason) : string :=
  match s with COMPLETED => "COMPLETED" | NOT_PLANNED => "NOT_PLANNED" end.

(** ** server/tools/issues.ts *)

Section IssueTools.
Variable env : Env.
Variable graphql : Server GraphQLResponse.

(** The issue with its label and assignee connections flattened. *)
Definition flatten_issue (issue : option Json) : Async (list Request) Json :=
  await labels <- get_path issue ["labels"; "nodes"] ;;
  await assignees <- get_path issue ["assignees"; "nodes"] ;;
  ret (object (spread (spread_entries issue)
                 [("labels", labels); ("assignees", assignees)])).

(** LIST_ISSUES *)
Definition createListIssues (owner repo : string) (state : option IssueState)
  (labels : option (list string)) (assignee : option string) (first : Z)
  : Async (list Request) Json :=
  withGitHubToken env (fun _ token =>
    await result <- graphqlQuery token graphql Queries.ListIssues
      (Some [("owner", Some (JStr owner));
             ("repo", Some (JStr repo));
             ("states", (fun s => JArr [JStr (IssueState_str s)]) <$> state);
             ("labels", strings <$> labels);
             ("first", Some (JNum (pageSize first)))]) ;;
    await nodes <- get_path (Some result) ["repository"; "issues"; "nodes"] ;;
    await issues <- array_map nodes (fun issue => flatten_issue (Some issue)) ;;
    await totalCount <-
      get_path (Some result) ["repository"; "issues"; "totalCount"] ;;
    ret (object [("issues", Some issues); ("totalCount", totalCount)])).

(** GET_ISSUE *)
Definition createGetIssue (owner repo : string) (issueNumber : Z)
  : Async (list Request) Json :=
  withGitHubToken env (fun _ token =>
    await result <- graphqlQuery token graphql Queries.GetIssue
      (Some [("owner", Some (JStr owner));
             ("repo", Some (JStr repo));
             ("issueNumber", Some (JNum issueNumber))]) ;;
    await issue <- get_path (Some result) ["repository"; "issue"] ;;
    await labels <- get_path issue ["labels"; "nodes"] ;;
    await assignees <- get_path issue ["assignees"; "nodes"] ;;
    await commentsCount <- get_path issue ["comments"; "totalCount"] ;;
    ret (object [("issue", Some (object (spread (spread_entries issue)
                   [("labels", labels); ("assignees", assignees);
                    ("commentsCount", commentsCount)])))])).

(** CREATE_ISSUE *)
Definition createCreateIssue (owner repo title : string) (body : option string)
  (assigneeIds labelIds : option (list string)) (milestoneId : option string)
  : Async (list Request) Json :=
  withGitHubToken env (fun _ token =>
    (* Get repository node ID *)
    await repoId <- getRepositoryNodeId token graphql owner repo ;;
    await result <- graphqlQuery token graphql Queries.CreateIssue
      (Some [("repositoryId", repoId);
             ("title", Some (JStr title));
             ("body", JStr <$> body);
             ("assigneeIds", strings <$> assigneeIds);
             ("labelIds", strings <$> labelIds);
             ("milestoneId", JStr <$> milestoneId)]) ;;
    await issue <- get_path (Some result) ["createIssue"; "issue"] ;;
    ret (object [("issue", issue)])).

(** UPDATE_ISSUE *)
Definition createUpdateIssue (owner repo : string) (issueNumber : Z)
  (title body : option string) (state : option IssueState)
  : Async (list Request) Json :=
  withGitHubToken env (fun _ token =>
    (* Get issue node ID *)
    await issueId <- getIssueNodeId token graphql owner repo issueNumber ;;
    await result <- graphqlQuery token graphql Queries.UpdateIssue
      (Some [("issueId", issueId);
             ("title", JStr <$> title);
             ("body", JStr <$> body);
             ("state", (fun s => JStr (IssueState_str s)) <$> state)]) ;;
    await issue <- get_path (Some result) ["updateIssue"; "issue"] ;;
    ret (object [("issue", issue)])).

(** CLOSE_ISSUE *)
Definition createCloseIssue (owner repo : string) (issueNumber : Z)
  (stateReason : option StateReason) : Async (list Request) Json :=
  withGitHubToken env (fun _ token =>
    await issueId <- getIssueNodeId token graphql owner repo issueNumber ;;
    await result <- graphqlQuery token graphql Queries.CloseIssue
      (Some [("issueId", issueId);
             ("stateReason",
              (fun s => JStr (StateReason_str s)) <$> stateReason)]) ;;
    await issue <- get_path (Some result) ["closeIssue"; "issue"] ;;
    ret (object [("issue", issue)])).

(** ADD_ISSUE_COMMENT *)
Definition createAddIssueComment (owner repo : string) (issueNumber : Z)
  (body : string) : Async (list Request) Json :=
  withGitHubToken env (fun _ token =>
    await issueId <- getIssueNodeId token graphql owner repo issueNumber ;;
    await result <- graphqlQuery token graphql Queries.AddComment
      (Some [("subjectId", issueId); ("body", Some (JStr body))]) ;;
    await comment <-
      get_path (Some result) ["addComment"; "commentEdge"; "node"] ;;
    ret (object [("comment", comment)])).

(** LIST_ISSUE_COMMENTS *)
Definition createListIssueComments (owner repo : string) (issueNumber first : Z)
  : Async (list Request) Json :=
  withGitHubToken env (fun _ token =>
    await result <- graphqlQuery token graphql Queries.ListComments
      (Some [("owner", Some (JStr owner));
             ("repo", Some (JStr repo));
             ("issueNumber", Some (JNum issueNumber));
             ("first", Some (JNum (pageSize first)))]) ;;
    await comments <-
      get_path (Some result) ["repository"; "issue"; "comments"; "nodes"] ;;
    ret (object [("comments", comments)])).

(** ADD_LABELS_TO_ISSUE *)
Definition createAddLabelsToIssue (owner repo : string) (issueNumber : Z)
  (labelIds : list string) : Async (list Request) Json :=
  withGitHubToken env (fun _ token =>
    await issueId <- getIssueNodeId token graphql owner repo issueNumber ;;
    await result <- graphqlQuery token graphql Queries.AddLabels
      (Some [("labelableId", issueId); ("labelIds", Some (strings labelIds))]) ;;
    await labels <- get_path (Some result)
      ["addLabelsToLabelable"; "labelable"; "labels"; "nodes"] ;;
    ret (object [("labels", labels)])).

(** REMOVE_LABELS_FROM_ISSUE *)
Definition createRemoveLabelsFromIssue (owner repo : string) (issueNumber : Z)
  (labelIds : list string) : Async (list Request) Json :=
  withGitHubToken env (fun _ token =>
    await issueId <- getIssueNodeId token graphql owner repo issueNumber ;;
    await result <- graphqlQuery token graphql Queries.RemoveLabels
      (Some [("labelableId", issueId); ("labelIds", Some (strings labelIds))]) ;;
    await labels <- get_path (Some result)
      ["removeLabelsFromLabelable"; "labelable"; "labels"; "nodes"] ;;
    ret (object [("labels", labels)])).

(** ASSIGN_ISSUE *)
Definition createAssignIssue (owner repo : string) (issueNumber : Z)
  (assigneeIds : list string) : Async (list Request) Json :=
  withGitHubToken env (fun _ token =>
    await issueId <- getIssueNodeId token graphql owner repo issueNumber ;;
    await result <- graphqlQuery token graphql Queries.AssignIssue
      (Some [("assignableId", issueId);
             ("assigneeIds", Some (strings assigneeIds))]) ;;
    await assignees <- get_path (Some result)
      ["addAssigneesToAssignable"; "assignable"; "assignees"; "nodes"] ;;
    ret (object [("assignees", assignees)])).

(** UNASSIGN_ISSUE *)
Definition createUnassignIssue (owner repo : string) (issueNumber : Z)
  (assigneeIds : list string) : Async (list Request) Json :=
  withGitHubToken env (fun _ token =>
    await issueId <- getIssueNodeId token graphql owner repo issueNumber ;;
    await result <- graphqlQuery token graphql Queries.UnassignIssue
      (Some [("assignableId", issueId);
             ("assigneeIds", Some (strings assigneeIds))]) ;;
    await assignees <- get_path (Some result)
      ["removeAssigneesFromAssignable"; "assignable"; "assignees"; "nodes"] ;;
    ret (object [("assignees", assignees)])).

End IssueTools.

(** ** server/tools/projects.ts *)

Section ProjectTools.
Variable env : Env.
Variable graphql : Server GraphQLResponse.

(** LIST_GITHUB_PROJECTS *)
Definition createListGitHubProjects (organizationLogin : string) (first : Z)
  : Async (list Request) Json :=
  withGitHubToken env (fun state token =>
    let orgLogin :=
      or_str (Some organizationLogin) (defaultOrganization state) in
    if negb (truthy_str orgLogin) then
      throw (Error NO_ORGANIZATION_MESSAGE None)
    else
      await result <- graphqlQuery token graphql Queries.ListProjects
        (Some [("login", JStr <$> orgLogin);
               ("first", Some (JNum (pageSize first)))]) ;;
      await projects <-
        get_path (Some result) ["organization"; "projectsV2"; "nodes"] ;;
      ret (object [("projects", projects)])).

(** GET_PROJECT_DETAILS *)
Definition createGetProjectDetails (projectId : string)
  : Async (list Request) Json :=
  withGitHubToken env (fun _ token =>
    await result <- graphqlQuery token graphql Queries.GetProject
      (Some [("projectId", Some (JStr projectId))]) ;;
    await node <- get_path (Some result) ["node"] ;;
    await itemsCount <- get_path node ["items"; "totalCount"] ;;
    ret (object [("project", Some (object (spread (spread_entries node)
                   [("itemsCount", itemsCount)])))])).

(** CREATE_PROJECT *)
Definition createCreateProject (organizationLogin title : string)
  (description : option string) : Async (list Request) Json :=
  withGitHubToken env (fun state token =>
    let orgLogin :=
      or_str (Some organizationLogin) (defaultOrganization state) in
    if negb (truthy_str orgLogin) then
      throw (Error NO_ORGANIZATION_MESSAGE None)
    else
      (* First, get the organization node ID *)
      await orgResult <- graphqlQuery token graphql Queries.GetOrgId
        (Some [("login", JStr <$> orgLogin)]) ;;
      await ownerId <- get_path (Some orgResult) ["organization"; "id"] ;;
      (* Create the project *)
      await result <- graphqlQuery token graphql Queries.CreateProject
        (Some [("ownerId", ownerId); ("title", Some (JStr title))]) ;;
      await project <-
        get_path (Some result) ["createProjectV2"; "projectV2"] ;;
      ret (object [("project", project)])).

(** UPDATE_PROJECT *)
Definition createUpdateProject (projectId : string)
  (title shortDescription readme : option string) (public : option bool)
  : Async (list Request) Json :=
  withGitHubToken env (fun _ token =>
    await result <- graphqlQuery token graphql Queries.UpdateProject
      (Some [("projectId", Some (JStr projectId));
             ("title", JStr <$> title);
             ("shortDescription", JStr <$> shortDescription);
             ("readme", JStr <$> readme);
             ("public", JBool <$> public)]) ;;
    await project <- get_path (Some result) ["updateProjectV2"; "projectV2"] ;;
    ret (object [("project", project)])).

(** DELETE_PROJECT *)
Definition createDeleteProject (projectId : string)
  : Async (list Request) Json :=
  withGitHubToken env (fun _ token =>
    await result <- graphqlQuery token graphql Queries.DeleteProject
      (Some [("projectId", Some (JStr projectId))]) ;;
    await deletedProjectId <-
      get_path (Some result) ["deleteProjectV2"; "projectV2"; "id"] ;;
    ret (object [("success", Some (JBool true));
                 ("deletedProjectId", deletedProjectId)])).

(** One item of LIST_PROJECT_ITEMS. *)
Definition project_item (node : option Json) : Async (list Request) Json :=
  await id <- get_path node ["id"] ;;
  await type <- get_path node ["content"; "__typename"] ;;
  await title <- get_path node ["content"; "title"] ;;
  await url <- get_path node ["content"; "url"] ;;
  await state <- get_path node ["content"; "state"] ;;
  await number <- get_path node ["content"; "number"] ;;
  ret (object [("id", id); ("type", type); ("title", title); ("url", url);
               ("state", state); ("number", number)]).

(** LIST_PROJECT_ITEMS *)
Definition createListProjectItems (projectId : string) (first : Z)
  : Async (list Request) Json :=
  withGitHubToken env (fun _ token =>
    await result <- graphqlQuery token graphql Queries.ListProjectItems
      (Some [("projectId", Some (JStr projectId));
             ("first", Some (JNum (pageSize first)))]) ;;
    await nodes <- get_path (Some result) ["node"; "items"; "nodes"] ;;
    await items <- array_map nodes (fun node => project_item (Some node)) ;;
    ret (object [("items", Some items)])).

(** ADD_ITEM_TO_PROJECT *)
Definition createAddItemToProject (projectId contentId : string)
  : Async (list Request) Json :=
  withGitHubToken env (fun _ token =>
    await result <- graphqlQuery token graphql Queries.AddItemToProject
      (Some [("projectId", Some (JStr projectId));
             ("contentId", Some (JStr contentId))]) ;;
    await item <- get_path (Some result) ["addProjectV2ItemById"; "item"] ;;
    ret (object [("item", item)])).

End ProjectTools.

(** ** server/tools/user.ts *)

(** Modelled from the spec: [server/tools/user.ts] is imported by
    [server/tools/index.ts] but is not among the sources.  The specification
    calls a tool "a direct proxy to one GitHub GraphQL query or mutation" and
    has a missing credential "surfaced immediately as a rejected call with a
    descriptive message"; a user operation is therefore the credential check
    followed by one GraphQL call, whatever its document and variables. *)
Definition userTool (env : Env) (graphql : Server GraphQLResponse)
  (query : string) (variables : option Props) : Async (list Request) Json :=
  withGitHubToken env (fun _ token =>
    graphqlQuery token graphql query variables).

(** ** server/tools/index.ts: the GitHub-facing tools, by id *)

Inductive ToolCall :=
| LIST_ISSUES (owner repo : string) (state : option IssueState)
    (labels : option (list string)) (assignee : option string) (first : Z)
| GET_ISSUE (owner repo : string) (issueNumber : Z)
| CREATE_ISSUE (owner repo title : string) (body : option string)
    (assigneeIds labelIds : option (list string)) (milestoneId : option string)
| UPDATE_ISSUE (owner repo : string) (issueNumber : Z)
    (title body : option string) (state : option IssueState)
| CLOSE_ISSUE (owner repo : string) (issueNumber : Z)
    (stateReason : option StateReason)
| ADD_ISSUE_COMMENT (owner repo : string) (issueNumber : Z) (body : string)
| LIST_ISSUE_COMMENTS (owner repo : string) (issueNumber first : Z)
| ADD_LABELS_TO_ISSUE (owner repo : string) (issueNumber : Z)
    (labelIds : list string)
| REMOVE_LABELS_FROM_ISSUE (owner repo : string) (issueNumber : Z)
    (labelIds : list string)
| ASSIGN_ISSUE (owner repo : string) (issueNumber : Z)
    (assigneeIds : list string)
| UNASSIGN_ISSUE (owner repo : string) (issueNumber : Z)
    (assigneeIds : list string)
| LIST_GITHUB_PROJECTS (organizationLogin : string) (first : Z)
| GET_PROJECT_DETAILS (projectId : string)
| CREATE_PROJECT (organizationLogin title : string)
    (description : option string)
| UPDATE_PROJECT (projectId : string)
    (title shortDescription readme : option string) (public : option bool)
| DELETE_PROJECT (projectId : string)
| LIST_PROJECT_ITEMS (projectId : string) (first : Z)
| ADD_ITEM_TO_PROJECT (projectId contentId : string)
| USER_OPERATION (query : string) (variables : option Props).

Definition execute (env : Env) (graphql : Server GraphQLResponse)
  (call : ToolCall) : Async (list Request) Json :=
  match call with
  | LIST_ISSUES owner repo state labels assignee first =>
      createListIssues env graphql owner repo state labels assignee first
  | GET_ISSUE owner repo issueNumber =>
      createGetIssue env graphql owner repo issueNumber
  | CREATE_ISSUE owner repo title body assigneeIds labelIds milestoneId =>
      createCreateIssue env graphql owner repo title body assigneeIds labelIds
        milestoneId
  | UPDATE_ISSUE owner repo issueNumber title body state =>
      createUpdateIssue env graphql owner repo issueNumber title body state
  | CLOSE_ISSUE owner repo issueNumber stateReason =>
      createCloseIssue env graphql owner repo issueNumber stateReason
  | ADD_ISSUE_COMMENT owner repo issueNumber body =>
      createAddIssueComment env graphql owner repo issueNumber body
  | LIST_ISSUE_COMMENTS owner repo issueNumber first =>
      createListIssueComments env graphql owner repo issueNumber first
  | ADD_LABELS_TO_ISSUE owner repo issueNumber labelIds =>
      createAddLabelsToIssue env graphql owner repo issueNumber labelIds
  | REMOVE_LABELS_FROM_ISSUE owner repo issueNumber labelIds =>
      createRemoveLabelsFromIssue env graphql owner repo issueNumber labelIds
  | ASSIGN_ISSUE owner repo issueNumber assigneeIds =>
      createAssignIssue env graphql owner repo issueNumber assigneeIds
  | UNASSIGN_ISSUE owner repo issueNumber assigneeIds =>
      createUnassignIssue env graphql owner repo issueNumber assigneeIds
  | LIST_GITHUB_PROJECTS organizationLogin first =>
      createListGitHubProjects env graphql organizationLogin first
  | GET_PROJECT_DETAILS projectId =>
      createGetProjectDetails env graphql projectId
  | CREATE_PROJECT organizationLogin title description =>
      createCreateProject env graphql organizationLogin title description
  | UPDATE_PROJECT projectId title shortDescription readme public =>
      createUpdateProject env graphql projectId title shortDescription readme
        public
  | DELETE_PROJECT projectId => createDeleteProject env graphql projectId
  | LIST_PROJECT_ITEMS projectId first =>
      createListProjectItems env graphql projectId first
  | ADD_ITEM_TO_PROJECT projectId contentId =>
      createAddItemToProject env graphql projectId contentId
  | USER_OPERATION query variables => userTool env graphql query variables
  end.

(** Variable [k] of the GraphQL request a body serialises. *)
Definition variable (k : string) (request : Request) : option Json :=
  match body request with
  | Some (JSON_stringify (JObj es)) =>
      match entries_get "variables" es with
      | Some (JObj vs) => entries_get k vs
      | _ => None
      end
  | _ => None
  end.

(** [s.includes(sub)] *)
Fixpoint includes (sub s : string) : bool :=
  (String.prefix sub s
   || match s with
      | String _ rest => includes sub rest
      | EmptyString => false
      end)%bool.

(** ** Vocabulary of the properties *)

(** What every duplicate add and every soft remove leaves alone in a row:
    all of a repository but [isActive], all of a project but [isActive] and
    [title].  Where the title must stay as well, it is stated beside the
    frame. *)
Definition R_frame (r r' : R.Row) : Prop :=
  R.id r' = R.id r /\ R.owner r' = R.owner r /\ R.name r' = R.name r
  /\ R.createdAt r' = R.createdAt r.
Definition P_frame (p p' : P.Row) : Prop :=
  P.id p' = P.id p /\ P.projectId p' = P.projectId p
  /\ P.organizationLogin p' = P.organizationLogin p
  /\ P.createdAt p' = P.createdAt p.
Definition frame (db db' : Database) : Prop :=
  (forall i r, tracked_repositories db !! i = Some r ->
     exists r', tracked_repositories db' !! i = Some r' /\ R_frame r r')
  /\ (forall i p, tracked_projects db !! i = Some p ->
     exists p', tracked_projects db' !! i = Some p' /\ P_frame p p').

(** The primary key and the unique index, as the database keeps them. *)
Definition projects_keys (db : Database) : Prop :=
  NoDup (P.id <$> tracked_projects db)
  /\ NoDup (P.projectId <$> tracked_projects db).

(** The token a handler finds in its request context. *)
Definition token_of (env : Env) : option string :=
  (DECO_REQUEST_CONTEXT env ≫= state) ≫= githubToken.

(** [call], run after [sent], sends exactly one request, whose [first]
    variable is [n]. *)
Definition sends_page_size (env : Env) (graphql : Server GraphQLResponse)
  (sent : list Request) (call : ToolCall) (n : Z) : Prop :=
  exists request,
    (execute env graphql call sent).2 = (sent ++ [request])%list
    /\ variable "first" request = Some (JNum n).

(** The four paginated tool calls, with the [first] they are given.
    LIST_GITHUB_PROJECTS gets as far as its request when an organization
    login is given or configured in the state [st]. *)
Inductive paginated (st : State) : ToolCall -> Z -> Prop :=
| paginated_issues owner repo state labels assignee first :
    paginated st (LIST_ISSUES owner repo state labels assignee first) first
| paginated_comments owner repo issueNumber first :
    paginated st (LIST_ISSUE_COMMENTS owner repo issueNumber first) first
| paginated_projects organizationLogin first :
    truthy_str (or_str (Some organizationLogin) (defaultOrganization st))
      = true ->
    paginated st (LIST_GITHUB_PROJECTS organizationLogin first) first
| paginated_items projectId first :
    paginated st (LIST_PROJECT_ITEMS projectId first) first.

(** An [async] computation that sends nothing. *)
Definition quiet {S A} (m : Async S A) : Prop := forall s, (m s).2 = s.

(** ** Vocabulary of the further properties *)

(** An [is_active] column holds 0 or 1. *)
Definition flag (v : Z) : Prop := v = 0 \/ v = 1.

(** What the database and the tools keep true of the two tables: the primary
    keys, the unique index on [project_id], and flags that are 0 or 1. *)
Definition tracking_inv (db : Database) : Prop :=
  NoDup (R.id <$> tracked_repositories db)
  /\ Forall (fun r => flag (R.isActive r)) (tracked_repositories db)
  /\ projects_keys db
  /\ Forall (fun p => flag (P.isActive p)) (tracked_projects db).

(** The value an object holds under key [k]: its first entry with that key
    (the keys of an object are distinct). *)
Fixpoint lookup_first {V} (k : string) (l : list (string * V)) : option V :=
  match l with
  | [] => None
  | (k', v) :: rest => if String.eqb k' k then Some v else lookup_first k rest
  end.

(** The value a list of entries gives key [k] when it is written out as an
    object literal or spread: the last entry with that key. *)
Fixpoint lookup_last {V} (k : string) (l : list (string * V)) : option V :=
  match l with
  | [] => None
  | (k', v) :: rest =>
      match lookup_last k rest with
      | Some w => Some w
      | None => if String.eqb k' k then Some v else None
      end
  end.


(** The first character of [s], if any, is not a decimal digit. *)
Definition no_leading_digit (s : string) : Prop :=
  match s with
  | String c _ => digitValue c = None
  | EmptyString => True
  end.

(** A request as a tool makes it: a POST to the GraphQL endpoint with the
    token as bearer credential. *)
Definition tool_request (token : string) (request : Request) : Prop :=
  url request = GITHUB_GRAPHQL_URL
  /\ method request = Some "POST"
  /\ lookup_first "Authorization" (headers request)
     = Some ("Bearer " +:+ token).

(** [m] sends at most [n] requests, and each of them satisfies [Q]. *)
Definition sends {A} (n : nat) (Q : Request -> Prop)
  (m : Async (list Request) A) : Prop :=
  forall sent, exists new,
    (m sent).2 = (sent ++ new)%list /\ (length new <= n)%nat /\ Forall Q new.

(** The tools that look a node id up before their mutation, with the lookup
    they run and the mutation variable the id goes to. *)
Inductive two_step (token : string) (graphql : Server GraphQLResponse)
  : ToolCall -> Async (list Request) (option Json) -> string -> Prop :=
| two_step_create owner repo title body assigneeIds labelIds milestoneId :
    two_step token graphql
      (CREATE_ISSUE owner repo title body assigneeIds labelIds milestoneId)
      (getRepositoryNodeId token graphql owner repo) "repositoryId"
| two_step_update owner repo issueNumber title body state :
    two_step token graphql
      (UPDATE_ISSUE owner repo issueNumber title body state)
      (getIssueNodeId token graphql owner repo issueNumber) "issueId"
| two_step_close owner repo issueNumber stateReason :
    two_step token graphql (CLOSE_ISSUE owner repo issueNumber stateReason)
      (getIssueNodeId token graphql owner repo issueNumber) "issueId"
| two_step_comment owner repo issueNumber body :
    two_step token graphql (ADD_ISSUE_COMMENT owner repo issueNumber body)
      (getIssueNodeId token graphql owner repo issueNumber) "subjectId"
| two_step_add_labels owner repo issueNumber labelIds :
    two_step token graphql
      (ADD_LABELS_TO_ISSUE owner repo issueNumber labelIds)
      (getIssueNodeId token graphql owner repo issueNumber) "labelableId"
| two_step_remove_labels owner repo issueNumber labelIds :
    two_step token graphql
      (REMOVE_LABELS_FROM_ISSUE owner repo issueNumber labelIds)
      (getIssueNodeId token graphql owner repo issueNumber) "labelableId"
| two_step_assign owner repo issueNumber assigneeIds :
    two_step token graphql (ASSIGN_ISSUE owner repo issueNumber assigneeIds)
      (getIssueNodeId token graphql owner repo issueNumber) "assignableId"
| two_step_unassign owner repo issueNumber assigneeIds :
    two_step token graphql (UNASSIGN_ISSUE owner repo issueNumber assigneeIds)
      (getIssueNodeId token graphql owner repo issueNumber) "assignableId".

(** A project item without content: a null node, or a node whose content is
    missing or null. *)
Definition lacks_content (node : Json) : Prop :=
  node = JNull
  \/ exists entries, node = JObj entries
       /\ (entries_get "content" entries = None
           \/ entries_get "content" entries = Some JNull).

(** [m] changes nothing and either returns or throws a [TypeError]. *)
Definition reads {S A} (m : Async S A) : Prop :=
  forall s, (exists a, m s = (Return a, s)) \/ m s = (Throw TypeError, s).

(** A small database used to run the properties: two repositories of one
    owner, the second inactive, and one inactive project. *)
Definition sample_db : Database :=
  {| tracked_repositories :=
       [{| R.id := 1; R.owner := "deco-cx"; R.name := "deco";
           R.isActive := 1; R.createdAt := 1000 |};
        {| R.id := 2; R.owner := "deco-cx"; R.name := "chat";
           R.isActive := 0; R.createdAt := 2000 |}];
     tracked_projects :=
       [{| P.id := 1; P.projectId := "PVT_kwDOBj_xvs4A_o2I";
           P.title := "Platform"; P.organizationLogin := "deco-cx";
           P.isActive := 0; P.createdAt := 3000 |}] |}.

(** A request context with a token and no default organization. *)
Definition sample_state : State :=
  {| githubToken := Some "ghp_token"; defaultOrganization := None |}.
Definition sample_env : Env :=
  {| DECO_REQUEST_CONTEXT := Some {| state := Some sample_state |} |}.

(** A server that answers every request with status 200 and the given
    payload, and one that answers every request with the given status and
    no body. *)
Definition answers (payload : Json) : Server GraphQLResponse :=
  fun _ _ => Some {| status := 200; statusText := "OK";
                     headers_get := fun _ => None;
                     json := Some {| data := Some payload; errors := None;
                                     other := [] |} |}.
Definition refuses {B} (code : Z) (text : string) : Server B :=
  fun _ _ => Some {| status := code; statusText := text;
                     headers_get := fun _ => None; json := None |}.


(** * Properties *)

(** ** The tables *)

Section DrizzleFacts.
Context {Row : Type}.
Implicit Types (t : list Row) (c : Row -> Prop).

Lemma select_where_none c `{forall r, Decision (c r)} t :
  (forall r, r ∈ t -> ~ c r) -> limit 1 (select_where c t) = [].
Proof.
  intros Hno. unfold limit, select_where.
  induction t as [|r t IH]; [done|].
  rewrite filter_cons_False by (apply Hno; left).
  apply IH. intros r' Hr'. apply Hno. by right.
Qed.

Lemma select_where_some c `{forall r, Decision (c r)} t r :
  r ∈ t -> c r ->
  exists r' rest, select_where c t = r' :: rest /\ c r' /\ r' ∈ t.
Proof.
  intros Hin Hc. unfold select_where.
  destruct (filter c t) as [|r' rest] eqn:E.
  - exfalso. eapply filter_nil_not_elem_of; eauto.
  - exists r', rest. split; [done|].
    assert (r' ∈ filter c t) as Hr' by (rewrite E; left).
    by apply list_elem_of_filter in Hr'.
Qed.

Lemma update_where_lookup (s : Row -> Row) c `{forall r, Decision (c r)} t i :
  update_where s c t !! i
  = (fun r => if decide (c r) then s r else r) <$> t !! i.
Proof. unfold update_where. apply list_lookup_fmap. Qed.

Lemma update_where_length (s : Row -> Row) c `{forall r, Decision (c r)} t :
  length (update_where s c t) = length t.
Proof. unfold update_where. apply length_fmap. Qed.

Lemma delete_where_elem_of c `{forall r, Decision (c r)} t r :
  r ∈ delete_where c t <-> r ∈ t /\ ~ c r.
Proof. unfold delete_where. rewrite list_elem_of_filter. tauto. Qed.
End DrizzleFacts.

Lemma filter_none {A} (Q : A -> Prop) `{forall x, Decision (Q x)} (l : list A) :
  (forall x, x ∈ l -> ~ Q x) -> filter Q l = [].
Proof.
  induction l as [|x l IH]; intros Hno; [done|].
  rewrite filter_cons_False by (apply Hno; left).
  apply IH. intros y Hy. apply Hno. by right.
Qed.

(** A [select] by the value a row has in a unique column returns that row. *)
Lemma select_where_unique {Row K : Type} `{EqDecision K} (col : Row -> K)
  (t : list Row) (r : Row) :
  NoDup (col <$> t) -> r ∈ t ->
  select_where (fun r' => col r' = col r) t = [r].
Proof.
  unfold select_where. induction t as [|x t IH]; intros Hnd Hin.
  - by apply elem_of_nil in Hin.
  - rewrite fmap_cons in Hnd. apply NoDup_cons in Hnd as [Hx Hnd].
    apply elem_of_cons in Hin as [->|Hin].
    + rewrite filter_cons_True by done. f_equal.
      apply filter_none. intros y Hy E. apply Hx. rewrite <- E.
      by apply list_elem_of_fmap_2.
    + rewrite filter_cons_False; [by apply IH|].
      intros E. apply Hx. rewrite E. by apply list_elem_of_fmap_2.
Qed.

Lemma nextRowid_fresh (ids : list Z) : nextRowid ids ∉ ids.
Proof.
  destruct ids as [|i rest]; [apply not_elem_of_nil|].
  unfold nextRowid.
  assert (forall x, x ∈ i :: rest -> x <= foldr Z.max i rest) as Hmax.
  { induction rest as [|y rest IH]; intros x Hx.
    - apply list_elem_of_singleton in Hx. simpl. lia.
    - simpl. apply elem_of_cons in Hx as [->|Hx].
      + assert (i <= foldr Z.max i rest) by (apply IH; left). lia.
      + apply elem_of_cons in Hx as [->|Hx]; [lia|].
        assert (x <= foldr Z.max i rest) by (apply IH; by right). lia. }
  intros Hin. apply Hmax in Hin. lia.
Qed.

Lemma prefix_app_self (sub post : string) : String.prefix sub (sub +:+ post) = true.
Proof.
  induction sub as [|c sub IH].
  - by destruct post.
  - change (String.prefix (String c sub) (String c (sub +:+ post)) = true).
    simpl. destruct (ascii_dec c c); [done|congruence].
Qed.

Lemma includes_prefix (sub s : string) :
  String.prefix sub s = true -> includes sub s = true.
Proof. intros Hp. destruct s; unfold includes; fold includes; by rewrite Hp. Qed.

Lemma includes_app (pre sub post : string) :
  includes sub (pre +:+ sub +:+ post) = true.
Proof.
  induction pre as [|c pre IH].
  - apply includes_prefix, (prefix_app_self sub post).
  - change (includes sub (String c (pre +:+ sub +:+ post)) = true).
    unfold includes; fold includes. rewrite IH. apply orb_true_r.
Qed.

Ltac async := cbv [getDb bind ret throw get put first_row].

(** C7: removing an id that no row has is rejected with a message that names
    the id, and nothing changes.  For an id up to 2^53 in magnitude, where a
    JavaScript number holds the integer and prints its numeral. *)
Theorem remove_tracked_not_found (db : Database) (id : Z) (hardDelete : bool) :
  Z.abs id <= 2 ^ 53 ->
  (id ∉ R.id <$> tracked_repositories db ->
   exists message,
     createRemoveTrackedRepository id hardDelete db
       = (Throw (Error message None), db)
     /\ message = "Tracked repository with ID " +:+ String_of_number id
                  +:+ " not found"
     /\ includes (String_of_number id) message = true)
  /\
  (id ∉ P.id <$> tracked_projects db ->
   exists message,
     createRemoveTrackedProject id hardDelete db
       = (Throw (Error message None), db)
     /\ message = "Tracked project with ID " +:+ String_of_number id
                  +:+ " not found"
     /\ includes (String_of_number id) message = true).
Proof.
  intros _.
  split; intros Hno; eexists; (split; [|split; [reflexivity|apply includes_app]]).
  - cbv [createRemoveTrackedRepository]; async.
    rewrite select_where_none; [done|].
    intros r Hr E. apply Hno. rewrite <- E. by apply list_elem_of_fmap_2.
  - cbv [createRemoveTrackedProject]; async.
    rewrite select_where_none; [done|].
    intros r Hr E. apply Hno. rewrite <- E. by apply list_elem_of_fmap_2.
Qed.

Lemma remove_tracked_not_found_witness :
  let db := {| tracked_repositories :=
                 [{| R.id := 1; R.owner := "deco-cx"; R.name := "deco";
                     R.isActive := 1; R.createdAt := 1000 |}];
               tracked_projects :=
                 [{| P.id := 1; P.projectId := "PVT_kwDOBj_xvs4A_o2I";
                     P.title := "Platform";
                     P.organizationLogin := "deco-cx";
                     P.isActive := 1; P.createdAt := 2000 |}] |} in
  Z.abs 7 <= 2 ^ 53
  /\ (7 ∉ R.id <$> tracked_repositories db)
  /\ (7 ∉ P.id <$> tracked_projects db)
  /\ (exists message,
        createRemoveTrackedRepository 7 false db
          = (Throw (Error message None), db)
        /\ message = "Tracked repository with ID 7 not found"
        /\ includes "7" message = true)
  /\ (exists message,
        createRemoveTrackedProject 7 true db
          = (Throw (Error message None), db)
        /\ message = "Tracked project with ID 7 not found"
        /\ includes "7" message = true).
Proof.
  intros db.
  assert (Z.abs 7 <= 2 ^ 53) as Hsafe by (vm_compute; discriminate).
  assert (7 ∉ R.id <$> tracked_repositories db) as Hrepo
    by (apply (bool_decide_unpack _); vm_compute; exact I).
  assert (7 ∉ P.id <$> tracked_projects db) as Hproj
    by (apply (bool_decide_unpack _); vm_compute; exact I).
  split; [exact Hsafe|]. split; [exact Hrepo|]. split; [exact Hproj|]. split.
  - exact (proj1 (remove_tracked_not_found db 7 false Hsafe) Hrepo).
  - exact (proj2 (remove_tracked_not_found db 7 true Hsafe) Hproj).
Defined.

Lemma limit_select_nonempty {Row} (c : Row -> Prop) `{forall r, Decision (c r)}
  (t : list Row) (r : Row) :
  r ∈ t -> c r -> length (limit 1 (select_where c t)) <> 0%nat.
Proof.
  intros Hin Hc.
  destruct (select_where_some c t r Hin Hc) as (r' & rest & -> & _).
  done.
Qed.

(** C6: a soft remove keeps every row in place, sets [isActive] to 0 on the
    rows with that id and changes no other field of any row; a hard remove
    leaves exactly the rows with another id; both return [success = true]
    and the id they were given.  The same for tracked projects. *)
Theorem remove_tracked_soft_and_hard (db : Database) (id : Z) :
  (id ∈ R.id <$> tracked_repositories db ->
   ((createRemoveTrackedRepository id false db).1
      = Return {| success := true; deletedId := id |}
    /\ tracked_projects (createRemoveTrackedRepository id false db).2
       = tracked_projects db
    /\ length (tracked_repositories (createRemoveTrackedRepository id false db).2)
       = length (tracked_repositories db)
    /\ forall i r, tracked_repositories db !! i = Some r ->
         exists r',
           tracked_repositories (createRemoveTrackedRepository id false db).2
             !! i = Some r'
           /\ R.isActive r' = (if decide (R.id r = id) then 0 else R.isActive r)
           /\ R.id r' = R.id r /\ R.owner r' = R.owner r
           /\ R.name r' = R.name r /\ R.createdAt r' = R.createdAt r)
   /\
   ((createRemoveTrackedRepository id true db).1
      = Return {| success := true; deletedId := id |}
    /\ tracked_projects (createRemoveTrackedRepository id true db).2
       = tracked_projects db
    /\ forall r, r ∈ tracked_repositories (createRemoveTrackedRepository id true db).2
         <-> r ∈ tracked_repositories db /\ R.id r <> id))
  /\
  (id ∈ P.id <$> tracked_projects db ->
   ((createRemoveTrackedProject id false db).1
      = Return {| success := true; deletedId := id |}
    /\ tracked_repositories (createRemoveTrackedProject id false db).2
       = tracked_repositories db
    /\ length (tracked_projects (createRemoveTrackedProject id false db).2)
       = length (tracked_projects db)
    /\ forall i p, tracked_projects db !! i = Some p ->
         exists p',
           tracked_projects (createRemoveTrackedProject id false db).2
             !! i = Some p'
           /\ P.isActive p' = (if decide (P.id p = id) then 0 else P.isActive p)
           /\ P.id p' = P.id p /\ P.projectId p' = P.projectId p
           /\ P.title p' = P.title p
           /\ P.organizationLogin p' = P.organizationLogin p
           /\ P.createdAt p' = P.createdAt p)
   /\
   ((createRemoveTrackedProject id true db).1
      = Return {| success := true; deletedId := id |}
    /\ tracked_repositories (createRemoveTrackedProject id true db).2
       = tracked_repositories db
    /\ forall p, p ∈ tracked_projects (createRemoveTrackedProject id true db).2
         <-> p ∈ tracked_projects db /\ P.id p <> id)).
Proof.
  split; intros Hin; apply list_elem_of_fmap in Hin as (r0 & Hid & Hr0).
  - assert (length (limit 1 (select_where (fun r => R.id r = id)
                              (tracked_repositories db))) <> 0%nat) as Hlen
      by (by apply (limit_select_nonempty _ _ r0)).
    split.
    + cbv [createRemoveTrackedRepository update_repositories]; async.
      destruct (decide _) as [E|_]; [by destruct Hlen|]. simpl.
      split_and!; [done..|apply update_where_length|].
      intros i r Hi. rewrite update_where_lookup, Hi. simpl.
      eexists. split; [reflexivity|].
      by destruct (decide (R.id r = id)).
    + cbv [createRemoveTrackedRepository delete_repositories]; async.
      destruct (decide _) as [E|_]; [by destruct Hlen|]. simpl.
      split_and!; [done..|]. intros r. by rewrite delete_where_elem_of.
  - assert (length (limit 1 (select_where (fun p => P.id p = id)
                              (tracked_projects db))) <> 0%nat) as Hlen
      by (by apply (limit_select_nonempty _ _ r0)).
    split.
    + cbv [createRemoveTrackedProject update_projects]; async.
      destruct (decide _) as [E|_]; [by destruct Hlen|]. simpl.
      split_and!; [done..|apply update_where_length|].
      intros i r Hi. rewrite update_where_lookup, Hi. simpl.
      eexists. split; [reflexivity|].
      by destruct (decide (P.id r = id)).
    + cbv [createRemoveTrackedProject delete_projects]; async.
      destruct (decide _) as [E|_]; [by destruct Hlen|]. simpl.
      split_and!; [done..|]. intros r. by rewrite delete_where_elem_of.
Qed.

Lemma remove_tracked_soft_and_hard_witness :
  let repo := {| R.id := 2; R.owner := "deco-cx"; R.name := "chat";
                 R.isActive := 1; R.createdAt := 2000 |} in
  let project := {| P.id := 2; P.projectId := "PVT_kwDOBj_xvs4A_o2I";
                    P.title := "Platform"; P.organizationLogin := "deco-cx";
                    P.isActive := 1; P.createdAt := 3000 |} in
  let db := {| tracked_repositories := [repo];
               tracked_projects := [project] |} in
  (2 ∈ R.id <$> tracked_repositories db)
  /\ (2 ∈ P.id <$> tracked_projects db)
  /\ (createRemoveTrackedRepository 2 false db).1
     = Return {| success := true; deletedId := 2 |}
  /\ (exists r',
        tracked_repositories (createRemoveTrackedRepository 2 false db).2
          !! 0%nat = Some r'
        /\ R.isActive r' = 0
        /\ R.id r' = 2 /\ R.owner r' = "deco-cx" /\ R.name r' = "chat"
        /\ R.createdAt r' = 2000)
  /\ (forall r, r ∈ tracked_repositories (createRemoveTrackedRepository 2 true db).2
        <-> r ∈ tracked_repositories db /\ R.id r <> 2)
  /\ (exists p',
        tracked_projects (createRemoveTrackedProject 2 false db).2
          !! 0%nat = Some p'
        /\ P.isActive p' = 0
        /\ P.id p' = 2 /\ P.projectId p' = "PVT_kwDOBj_xvs4A_o2I"
        /\ P.title p' = "Platform" /\ P.organizationLogin p' = "deco-cx"
        /\ P.createdAt p' = 3000)
  /\ (forall p, p ∈ tracked_projects (createRemoveTrackedProject 2 true db).2
        <-> p ∈ tracked_projects db /\ P.id p <> 2).
Proof.
  intros repo project db.
  assert (2 ∈ R.id <$> tracked_repositories db) as Hrepo
    by (apply (bool_decide_unpack _); vm_compute; exact I).
  assert (2 ∈ P.id <$> tracked_projects db) as Hproj
    by (apply (bool_decide_unpack _); vm_compute; exact I).
  destruct (remove_tracked_soft_and_hard db 2) as [HR HP].
  destruct (HR Hrepo) as [(Hret & _ & _ & Hsoft) (_ & _ & Hhard)].
  destruct (HP Hproj) as [(_ & _ & _ & Hsoft') (_ & _ & Hhard')].
  split; [exact Hrepo|]. split; [exact Hproj|]. split; [exact Hret|].
  split; [exact (Hsoft 0%nat repo eq_refl)|]. split; [exact Hhard|].
  split; [exact (Hsoft' 0%nat project eq_refl)|exact Hhard'].
Defined.

Lemma update_where_col {Row K} (col : Row -> K) (s : Row -> Row)
  (c : Row -> Prop) `{forall r, Decision (c r)} (t : list Row) :
  (forall r, col (s r) = col r) -> col <$> update_where s c t = col <$> t.
Proof.
  intros Hs. unfold update_where. rewrite <- list_fmap_compose.
  apply list_fmap_ext. intros i r _. simpl. by destruct (decide (c r)).
Qed.

Lemma frame_refl db : frame db db.
Proof. split; intros i r Hi; exists r; by repeat split. Qed.

Lemma frame_update_repositories db s c `{forall r, Decision (c r)} :
  (forall r, R_frame r (s r)) ->
  frame db (with_repositories (update_where s c (tracked_repositories db)) db).
Proof.
  intros Hs. split; simpl; intros i r Hi.
  - rewrite update_where_lookup, Hi. simpl. eexists; split; [done|].
    destruct (decide (c r)); [apply Hs|by repeat split].
  - exists r. by repeat split.
Qed.

Lemma frame_update_projects db s c `{forall r, Decision (c r)} :
  (forall p, P_frame p (s p)) ->
  frame db (with_projects (update_where s c (tracked_projects db)) db).
Proof.
  intros Hs. split; simpl; intros i r Hi.
  - exists r. by repeat split.
  - rewrite update_where_lookup, Hi. simpl. eexists; split; [done|].
    destruct (decide (c r)); [apply Hs|by repeat split].
Qed.

Lemma frame_insert_repository db row :
  frame db (with_repositories (tracked_repositories db ++ [row]) db).
Proof.
  split; simpl; intros i r Hi; exists r; (split; [|by repeat split]); [|done].
  by apply lookup_app_l_Some.
Qed.

Lemma frame_insert_project db row :
  frame db (with_projects (tracked_projects db ++ [row]) db).
Proof.
  split; simpl; intros i r Hi; exists r; (split; [|by repeat split]); [done|].
  by apply lookup_app_l_Some.
Qed.

(** C10: a duplicate add and a soft remove keep every row that was there in
    its place with its id, owner, name, organizationLogin, projectId and
    createdAt.  The title of a project can change on ADD_TRACKED_PROJECT
    only: a soft remove of a project keeps every title, and the two
    repository tools leave the table of projects as it was, as the two
    project tools leave the table of repositories. *)
Theorem tracking_frame (db : Database) :
  (forall owner name now,
     frame db (createAddTrackedRepository owner name now db).2
     /\ tracked_projects (createAddTrackedRepository owner name now db).2
        = tracked_projects db)
  /\ (forall projectId title organizationLogin now,
     frame db
       (createAddTrackedProject projectId title organizationLogin now db).2
     /\ tracked_repositories
          (createAddTrackedProject projectId title organizationLogin now db).2
        = tracked_repositories db)
  /\ (forall id,
     frame db (createRemoveTrackedRepository id false db).2
     /\ tracked_projects (createRemoveTrackedRepository id false db).2
        = tracked_projects db)
  /\ (forall id,
     frame db (createRemoveTrackedProject id false db).2
     /\ tracked_repositories (createRemoveTrackedProject id false db).2
        = tracked_repositories db
     /\ (forall i p, tracked_projects db !! i = Some p ->
           exists p',
             tracked_projects (createRemoveTrackedProject id false db).2 !! i
               = Some p'
             /\ P.title p' = P.title p)).
Proof.
  split_and!.
  - intros owner name now.
    cbv [createAddTrackedRepository update_repositories insert_repository];
      async.
    destruct (find _ _) as [m|].
    + destruct (decide _); [|split; [apply frame_refl|done]].
      destruct (update_returning _ _ _); simpl;
        (split; [by apply frame_update_repositories|done]).
    + split; [apply frame_insert_repository|done].
  - intros projectId title organizationLogin now.
    cbv [createAddTrackedProject update_projects insert_project]; async.
    destruct (limit _ _) as [|project ?].
    + destruct (decide _); (split; [|done]);
        [apply frame_refl|apply frame_insert_project].
    + destruct (decide _); destruct (update_returning _ _ _); simpl;
        (split; [by apply frame_update_projects|done]).
  - intros id. cbv [createRemoveTrackedRepository update_repositories]; async.
    destruct (decide _); [split; [apply frame_refl|done]|]. simpl.
    split; [by apply frame_update_repositories|done].
  - intros id. cbv [createRemoveTrackedProject update_projects]; async.
    destruct (decide _) as [E|E].
    + split_and!; [apply frame_refl|done|]. intros i p Hi. by exists p.
    + simpl. split_and!; [by apply frame_update_projects|done|].
      intros i p Hi. rewrite update_where_lookup, Hi. simpl.
      eexists. split; [reflexivity|]. by destruct (decide (P.id p = id)).
Qed.

Lemma update_returning_unique {Row K} `{EqDecision K} (col : Row -> K)
  (s : Row -> Row) (t : list Row) (r : Row) :
  NoDup (col <$> t) -> r ∈ t ->
  update_returning s (fun r' => col r' = col r) t = [s r].
Proof.
  intros Hnd Hin. unfold update_returning.
  change (filter (fun r' => col r' = col r) t)
    with (select_where (fun r' => col r' = col r) t).
  by rewrite select_where_unique.
Qed.

(** ADD_TRACKED_PROJECT keeps both keys, whatever it is called with. *)
Lemma add_tracked_project_keys db projectId title organizationLogin now :
  projects_keys db ->
  projects_keys
    (createAddTrackedProject projectId title organizationLogin now db).2.
Proof.
  intros [Hid Hpid].
  cbv [createAddTrackedProject update_projects insert_project]; async.
  destruct (limit _ _) as [|project ?].
  - destruct (decide _) as [Hin|Hnin]; [done|]. simpl.
    split; simpl; rewrite fmap_app; apply NoDup_app; (split; [done|]);
      (split; [|apply NoDup_singleton]); simpl.
    + intros x Hx Hx'. apply list_elem_of_singleton in Hx'. subst x.
      by apply nextRowid_fresh in Hx.
    + intros x Hx Hx'. apply list_elem_of_singleton in Hx'. by subst x.
  - destruct (decide _); destruct (update_returning _ _ _); simpl;
      split; simpl; by rewrite update_where_col.
Qed.

(** What ADD_TRACKED_PROJECT does to a project that is already tracked. *)
Lemma add_tracked_project_existing_eq db title organizationLogin now p :
  projects_keys db -> p ∈ tracked_projects db ->
  let s := if decide (P.isActive p = 0)
           then fun q => P_set_title title (P_set_isActive 1 q)
           else P_set_title title in
  createAddTrackedProject (P.projectId p) title organizationLogin now db
  = (Return (project_of (s p)),
     with_projects
       (update_where s (fun q => P.id q = P.id p) (tracked_projects db)) db).
Proof.
  intros [Hid Hpid] Hin.
  cbv [createAddTrackedProject update_projects insert_project]; async.
  rewrite (select_where_unique P.projectId _ p Hpid Hin).
  cbn [limit take].
  destruct (decide (P.isActive p = 0)) as [E|E];
    by rewrite (update_returning_unique P.id _ _ p Hid Hin).
Qed.

(** C8: adding a project whose node id is already tracked inserts nothing;
    the row comes back with the title of the call and active, and the
    projectId column stays free of duplicates. *)
Theorem add_tracked_project_existing (db : Database)
  (projectId title organizationLogin : string) (now : Date) (p : P.Row) :
  projects_keys db ->
  p ∈ tracked_projects db ->
  P.projectId p = projectId ->
  let p' := P_set_title title
              (if decide (P.isActive p = 0) then P_set_isActive 1 p else p) in
  let out := createAddTrackedProject projectId title organizationLogin now db in
  out.1 = Return (project_of p')
  /\ Project.title (project_of p') = title
  /\ (P.isActive p = 0 -> Project.isActive (project_of p') = true)
  /\ tracked_repositories out.2 = tracked_repositories db
  /\ length (tracked_projects out.2) = length (tracked_projects db)
  /\ (forall i q, tracked_projects db !! i = Some q ->
        tracked_projects out.2 !! i
        = Some (if decide (P.id q = P.id p) then p' else q))
  /\ NoDup (P.projectId <$> tracked_projects out.2).
Proof.
  intros Hkeys Hin <- p' out.
  pose proof (add_tracked_project_keys db (P.projectId p) title
                organizationLogin now Hkeys) as [_ Hafter].
  subst out. rewrite add_tracked_project_existing_eq in * by done.
  subst p'. simpl.
  split_and!; [| |intros E; by rewrite decide_True by done| | | |done];
    try done.
  - by destruct (decide (P.isActive p = 0)).
  - apply update_where_length.
  - intros i q Hq. rewrite update_where_lookup, Hq. simpl.
    destruct (decide (P.id q = P.id p)) as [Eq|Eq]; [|done].
    assert (q = p) as ->; [|by destruct (decide (P.isActive p = 0))].
    destruct Hkeys as [Hid _].
    apply list_elem_of_lookup_2 in Hq.
    apply list_elem_of_lookup_1 in Hq as [j Hj], Hin as [k Hk].
    assert (j = k) as ->; [|congruence].
    eapply NoDup_lookup; [exact Hid| |];
      rewrite list_lookup_fmap; [rewrite Hj|rewrite Hk]; simpl; by f_equal.
Qed.

Lemma add_tracked_project_existing_witness :
  let project := {| P.id := 1; P.projectId := "PVT_kwDOBj_xvs4A_o2I";
                    P.title := "Platform"; P.organizationLogin := "deco-cx";
                    P.isActive := 0; P.createdAt := 3000 |} in
  let db := {| tracked_repositories := []; tracked_projects := [project] |} in
  let out := createAddTrackedProject "PVT_kwDOBj_xvs4A_o2I" "Platform 2026"
               "deco-cx" 9000 db in
  projects_keys db
  /\ project ∈ tracked_projects db
  /\ out.1 = Return {| Project.id := 1;
                       Project.projectId := "PVT_kwDOBj_xvs4A_o2I";
                       Project.title := "Platform 2026";
                       Project.organizationLogin := "deco-cx";
                       Project.isActive := true;
                       Project.createdAt := toISOString 3000 |}
  /\ length (tracked_projects out.2) = 1%nat
  /\ NoDup (P.projectId <$> tracked_projects out.2).
Proof.
  intros project db out.
  assert (projects_keys db) as Hkeys
    by (split; apply (bool_decide_unpack _); vm_compute; exact I).
  assert (project ∈ tracked_projects db) as Hin by (left).
  destruct (add_tracked_project_existing db "PVT_kwDOBj_xvs4A_o2I"
              "Platform 2026" "deco-cx" 9000 project Hkeys Hin eq_refl)
    as (Hret & _ & _ & _ & Hlen & _ & Hnd).
  split; [exact Hkeys|]. split; [exact Hin|]. split; [exact Hret|].
  split; [exact Hlen|exact Hnd].
Defined.

(** The lookup of ADD_TRACKED_REPOSITORY sees one row only, the first of the
    owner: when that row has another name a row is inserted, whatever else
    the table holds. *)
Lemma add_tracked_repository_inserts db owner name now first rest :
  select_where (fun r => R.owner r = owner) (tracked_repositories db)
    = first :: rest ->
  R.name first <> name ->
  tracked_repositories (createAddTrackedRepository owner name now db).2
  = (tracked_repositories db
     ++ [{| R.id := nextRowid (R.id <$> tracked_repositories db);
            R.owner := owner; R.name := name;
            R.isActive := 1;
            R.createdAt := mapFromDriverValue (mapToDriverValue now) |}])%list.
Proof.
  intros Hsel Hname.
  cbv [createAddTrackedRepository insert_repository]; async.
  rewrite Hsel. cbn [limit take]. unfold find. simpl.
  by rewrite decide_False by done.
Qed.

(** When the first row of the owner is the repository asked for, nothing is
    inserted: the row is returned, reactivated if it was inactive. *)
Lemma add_tracked_repository_first_match db owner name now first rest :
  NoDup (R.id <$> tracked_repositories db) ->
  select_where (fun r => R.owner r = owner) (tracked_repositories db)
    = first :: rest ->
  R.name first = name ->
  let s := if decide (R.isActive first = 0) then R_set_isActive 1
           else fun r => r in
  (createAddTrackedRepository owner name now db).1
    = Return (repository_of (s first))
  /\ length (tracked_repositories
               (createAddTrackedRepository owner name now db).2)
     = length (tracked_repositories db).
Proof.
  intros Hid Hsel Hname.
  assert (first ∈ tracked_repositories db) as Hin.
  { assert (first ∈ select_where (fun r => R.owner r = owner)
                      (tracked_repositories db)) as Hf
      by (rewrite Hsel; left).
    unfold select_where in Hf. by apply list_elem_of_filter in Hf as [_ ?]. }
  cbv [createAddTrackedRepository update_repositories]; async.
  rewrite Hsel. cbn [limit take]. unfold find. simpl.
  rewrite decide_True by done. simpl.
  destruct (decide (R.isActive first = 0)) as [E|E]; simpl; [|done].
  rewrite (update_returning_unique R.id _ _ first Hid Hin). simpl.
  split; [done|apply update_where_length].
Qed.

(** C1, at a table with two repositories of one owner: adding the second
    one again inserts a third row with the same owner and name. *)
Theorem add_tracked_repository_duplicates :
  let deco := {| R.id := 1; R.owner := "deco-cx"; R.name := "deco";
                 R.isActive := 1; R.createdAt := 1000 |} in
  let chat := {| R.id := 2; R.owner := "deco-cx"; R.name := "chat";
                 R.isActive := 1; R.createdAt := 2000 |} in
  let db := {| tracked_repositories := [deco; chat];
               tracked_projects := [] |} in
  createAddTrackedRepository "deco-cx" "chat" 3000 db
  = (Return {| Repository.id := 3; Repository.owner := "deco-cx";
               Repository.name := "chat"; Repository.isActive := true;
               Repository.createdAt := toISOString 3000 |},
     {| tracked_repositories :=
          [deco; chat;
           {| R.id := 3; R.owner := "deco-cx"; R.name := "chat";
              R.isActive := 1; R.createdAt := 3000 |}];
        tracked_projects := [] |}).
Proof. reflexivity. Qed.


(** ** [parseInt] reads back the decimal numeral of an integer *)

Lemma digitValue_pretty_N_char (m : N) :
  (m < 10)%N -> digitValue (pretty_N_char m) = Some (Z.of_N m).
Proof.
  intros Hm.
  assert (m = 0 \/ m = 1 \/ m = 2 \/ m = 3 \/ m = 4 \/ m = 5 \/ m = 6
          \/ m = 7 \/ m = 8 \/ m = 9)%N as Hcases by lia.
  repeat (destruct Hcases as [->|Hcases]; [reflexivity|]). by subst.
Qed.

Lemma digit_not_space_or_sign (c : ascii) (d : Z) :
  digitValue c = Some d ->
  isWhiteSpace c = false /\ c <> "-"%char /\ c <> "+"%char.
Proof.
  intros Hd. split_and!.
  - unfold digitValue in Hd. unfold isWhiteSpace.
    destruct (_ && _)%bool eqn:E; [|done].
    apply andb_true_iff in E as [E1 E2].
    apply Z.leb_le in E1, E2.
    repeat (apply orb_false_iff; split); apply Nat.eqb_neq; lia.
  - intros ->. discriminate.
  - intros ->. discriminate.
Qed.

Lemma digitPrefix_pretty_N_go (x : N) (s : string) :
  exists ds,
    digitPrefix (pretty_N_go x s) = (ds ++ digitPrefix s)%list
    /\ (forall acc, foldl (fun a d => a * 10 + d) acc ds
                    = acc * 10 ^ Z.of_nat (length ds) + Z.of_N x)
    /\ ((0 < x)%N -> ds <> []).
Proof.
  revert s. induction (N.lt_wf_0 x) as [x _ IH]; intros s.
  destruct (decide (x = 0)%N) as [->|Hx].
  - exists []. rewrite pretty_N_go_0. split_and!; [done| |lia].
    intros acc. simpl. lia.
  - rewrite pretty_N_go_step by lia.
    destruct (IH (x `div` 10)%N ltac:(apply N.div_lt; lia)
                (String (pretty_N_char (x `mod` 10)) s))
      as (ds & Hds & Hval & _).
    exists (ds ++ [Z.of_N (x `mod` 10)])%list. split_and!.
    + rewrite Hds. cbn [digitPrefix].
      rewrite digitValue_pretty_N_char by (apply N.mod_lt; lia).
      by rewrite <- app_assoc.
    + intros acc. rewrite foldl_app. simpl. rewrite Hval.
      rewrite length_app. simpl.
      rewrite Nat2Z.inj_add, Z.pow_add_r by lia.
      change (10 ^ Z.of_nat 1) with 10.
      pose proof (N.div_mod x 10 ltac:(lia)) as Hdm.
      assert (Z.of_N x = 10 * Z.of_N (x `div` 10) + Z.of_N (x `mod` 10))
        as -> by lia.
      ring.
    + intros _. by destruct ds.
Qed.

Lemma pretty_N_go_head (x : N) (s : string) :
  (0 < x)%N ->
  exists m rest, (m < 10)%N /\ pretty_N_go x s = String (pretty_N_char m) rest.
Proof.
  revert s. induction (N.lt_wf_0 x) as [x _ IH]; intros s Hx.
  rewrite pretty_N_go_step by done.
  destruct (decide (x `div` 10 = 0)%N) as [E|E].
  - rewrite E, pretty_N_go_0. exists (x `mod` 10)%N, s.
    split; [apply N.mod_lt; lia|done].
  - apply IH; [apply N.div_lt; lia|by apply N.neq_0_lt_0].
Qed.

Lemma parseInt_digits (s : string) (c : ascii) (rest : string) (d : Z) :
  s = String c rest -> digitValue c = Some d ->
  parseInt s = match digitPrefix s with
               | [] => NaN
               | ds => Num (1 * digitsToInteger ds)
               end.
Proof.
  intros -> Hd. destruct (digit_not_space_or_sign c d Hd) as (Hws & Hm & Hp).
  unfold parseInt. cbn [trimStart]. rewrite Hws.
  destruct c as [[] [] [] [] [] [] [] []]; try done.
Qed.

Lemma parseInt_pretty_N (x : N) : parseInt (pretty x) = Num (Z.of_N x).
Proof.
  unfold pretty, pretty_N. destruct (decide (x = 0)%N) as [->|Hx]; [done|].
  destruct (pretty_N_go_head x "" ltac:(lia)) as (m & rest & Hm & Hhead).
  rewrite (parseInt_digits _ _ _ _ Hhead (digitValue_pretty_N_char m Hm)).
  destruct (digitPrefix_pretty_N_go x "") as (ds & Hds & Hval & Hne).
  rewrite Hds. cbn [digitPrefix]. rewrite app_nil_r.
  destruct ds as [|d ds]; [by destruct Hne; [lia|]|].
  unfold digitsToInteger. rewrite Hval. f_equal. lia.
Qed.

(** [parseInt] of the decimal numeral of an integer is that integer. *)
Lemma parseInt_String_of_number (z : Z) :
  parseInt (String_of_number z) = Num z.
Proof.
  unfold String_of_number, pretty, pretty_Z. destruct z as [|p|p].
  - done.
  - apply (parseInt_pretty_N (Npos p)).
  - pose proof (parseInt_pretty_N (Npos p)) as Hp.
    change (pretty p) with (pretty (Npos p)).
    unfold pretty, pretty_N in *. rewrite decide_False in * by done.
    destruct (pretty_N_go_head (Npos p) "" ltac:(lia))
      as (m & rest & Hm & Hhead).
    destruct (digit_not_space_or_sign _ _ (digitValue_pretty_N_char m Hm))
      as (Hws & Hminus & Hplus).
    rewrite Hhead in *.
    change ("-" +:+ String (pretty_N_char m) rest)
      with (String "-" (String (pretty_N_char m) rest)).
    unfold parseInt in *. cbn [trimStart] in *. rewrite Hws in Hp.
    change (isWhiteSpace "-") with false. cbv iota.
    destruct (pretty_N_char m) as [[] [] [] [] [] [] [] []] eqn:Ec;
      try done;
      destruct (digitPrefix _) as [|d ds]; try done;
      injection Hp as Hp; f_equal; lia.
Qed.

Lemma String_of_number_nonempty (z : Z) : String_of_number z <> "".
Proof.
  intros E. pose proof (parseInt_String_of_number z) as H.
  by rewrite E in H.
Qed.

(** ** The request helper *)

Lemma fetch_answer {B} (server : Server B) request sent response :
  server sent request = Some response ->
  fetch server request sent = (Return response, (sent ++ [request])%list).
Proof. intros E. unfold fetch. by rewrite E. Qed.

Lemma ok_iff {B} (response : Response B) :
  ok response = true <-> 200 <= status response <= 299.
Proof. unfold ok. rewrite andb_true_iff, !Z.leb_le. tauto. Qed.

Lemma rateLimitError_absent :
  rateLimitError None
  = Error "Rate limit exceeded. Retry after null seconds." (Some (Num 60)).
Proof. reflexivity. Qed.

Lemma rateLimitError_numeral (n : Z) :
  rateLimitError (Some (String_of_number n))
  = Error ("Rate limit exceeded. Retry after " +:+ String_of_number n
           +:+ " seconds.") (Some (Num n)).
Proof.
  unfold rateLimitError. cbn [truthy_str String_of_nullable].
  rewrite parseInt_String_of_number.
  destruct (String.eqb _ "") eqn:E; [|done].
  apply String.eqb_eq in E. by apply String_of_number_nonempty in E.
Qed.

(** C2: on a 429 both request functions throw the rate-limit error; its
    [retryAfter] is 60 without a Retry-After header and the integer the header
    spells when there is one (an integer a JavaScript number holds
    exactly). *)
Theorem rate_limit_retry_after (token : string)
  (graphql : Server GraphQLResponse) (rest : Server Json)
  (sent : list Request) :
  (forall query variables response,
     graphql sent (graphqlRequest token query variables) = Some response ->
     status response = 429 ->
     (headers_get response "Retry-After" = None ->
      (graphqlQuery token graphql query variables sent).1
      = Throw (Error "Rate limit exceeded. Retry after null seconds."
                 (Some (Num 60))))
     /\ (forall n, Z.abs n <= 2 ^ 53 ->
         headers_get response "Retry-After" = Some (String_of_number n) ->
         (graphqlQuery token graphql query variables sent).1
         = Throw (Error ("Rate limit exceeded. Retry after "
                         +:+ String_of_number n +:+ " seconds.")
                    (Some (Num n)))))
  /\
  (forall endpoint options response,
     rest sent (restRequestInit token endpoint options) = Some response ->
     status response = 429 ->
     (headers_get response "Retry-After" = None ->
      (restRequest token rest endpoint options sent).1
      = Throw (Error "Rate limit exceeded. Retry after null seconds."
                 (Some (Num 60))))
     /\ (forall n, Z.abs n <= 2 ^ 53 ->
         headers_get response "Retry-After" = Some (String_of_number n) ->
         (restRequest token rest endpoint options sent).1
         = Throw (Error ("Rate limit exceeded. Retry after "
                         +:+ String_of_number n +:+ " seconds.")
                    (Some (Num n))))).
Proof.
  split; intros until response; intros Hresp Hstatus;
    (split; [intros Hhdr|intros n _ Hhdr]);
    cbv [graphqlQuery restRequest bind throw]; rewrite (fetch_answer _ _ _ _ Hresp);
    rewrite Hstatus; cbn [Z.eqb Pos.eqb fst]; rewrite Hhdr;
    by rewrite ?rateLimitError_absent, ?rateLimitError_numeral.
Qed.

Lemma rate_limit_retry_after_witness :
  let response (B : Type) : Response B :=
    {| status := 429; statusText := "Too Many Requests";
       headers_get := fun name =>
         if String.eqb name "Retry-After" then Some "120" else None;
       json := None |} in
  let graphql : Server GraphQLResponse := fun _ _ => Some (response _) in
  let rest : Server Json := fun _ _ => Some (response _) in
  let options := {| init_method := None; init_headers := None;
                    init_body := None |} in
  Z.abs 120 <= 2 ^ 53
  /\ (graphqlQuery "ghp_token" graphql "query { viewer { login } }" None []).1
     = Throw (Error "Rate limit exceeded. Retry after 120 seconds."
                (Some (Num 120)))
  /\ (restRequest "ghp_token" rest "/user" options []).1
     = Throw (Error "Rate limit exceeded. Retry after 120 seconds."
                (Some (Num 120))).
Proof.
  intros response graphql rest options.
  assert (Z.abs 120 <= 2 ^ 53) as Hrange by lia.
  destruct (rate_limit_retry_after "ghp_token" graphql rest []) as [HG HR].
  split; [exact Hrange|]. split.
  - exact (proj2 (HG "query { viewer { login } }" None (response _)
                    eq_refl eq_refl) 120 Hrange eq_refl).
  - exact (proj2 (HR "/user" options (response _) eq_refl eq_refl)
             120 Hrange eq_refl).
Defined.

Example retry_after_empty_header :
  rateLimitError (Some "")
  = Error "Rate limit exceeded. Retry after  seconds." (Some (Num 60)).
Proof. reflexivity. Qed.

Example retry_after_http_date :
  rateLimitError (Some "Wed, 21 Oct 2015 07:28:00 GMT")
  = Error "Rate limit exceeded. Retry after Wed, 21 Oct 2015 07:28:00 GMT seconds."
      (Some NaN).
Proof. reflexivity. Qed.

Lemma ok_false {B} (response : Response B) :
  ~ (200 <= status response <= 299) -> ok response = false.
Proof. intros H. apply not_true_is_false. by rewrite ok_iff. Qed.

(** A response that is neither 2xx nor 429 makes [graphqlQuery] throw a
    plain error that carries the status code and the status text, and nothing
    of the body; [restRequest] appends the message of a JSON body that has a
    non-empty one. *)
Lemma request_failed_error (token : string)
  (graphql : Server GraphQLResponse) (rest : Server Json)
  (sent : list Request) :
  (forall query variables response,
     graphql sent (graphqlRequest token query variables) = Some response ->
     status response <> 429 ->
     ~ (200 <= status response <= 299) ->
     graphqlQuery token graphql query variables sent
     = (Throw (Error ("GitHub API request failed: "
                      +:+ String_of_number (status response) +:+ " "
                      +:+ statusText response) None),
        (sent ++ [graphqlRequest token query variables])%list))
  /\
  (forall endpoint options response,
     rest sent (restRequestInit token endpoint options) = Some response ->
     status response <> 429 ->
     ~ (200 <= status response <= 299) ->
     let failed := "GitHub REST API request failed: "
                   +:+ String_of_number (status response) +:+ " "
                   +:+ statusText response in
     (forall entries m,
        json response = Some (JObj entries) ->
        entries_get "message" entries = Some (JStr m) -> m <> "" ->
        (restRequest token rest endpoint options sent).1
        = Throw (Error (failed +:+ " - " +:+ m) None))
     /\ (json response = None ->
         (restRequest token rest endpoint options sent).1
         = Throw (Error failed None))).
Proof.
  split; intros until response; intros Hresp H429 Hok.
  - cbv [graphqlQuery bind throw]. rewrite (fetch_answer _ _ _ _ Hresp).
    apply Z.eqb_neq in H429. rewrite H429. by rewrite (ok_false _ Hok).
  - apply Z.eqb_neq in H429. intros failed. split.
    + intros entries m Hjson Hm Hne.
      cbv [restRequest bind throw try_catch response_json get_prop ret].
      rewrite (fetch_answer _ _ _ _ Hresp), H429, (ok_false _ Hok), Hjson, Hm.
      cbn [truthy String_of_json]. apply String.eqb_neq in Hne.
      by rewrite Hne.
    + intros Hjson.
      cbv [restRequest bind throw try_catch response_json get_prop ret].
      by rewrite (fetch_answer _ _ _ _ Hresp), H429, (ok_false _ Hok), Hjson.
Qed.

Example request_failed_error_404 :
  let graphql : Server GraphQLResponse := fun _ _ =>
    Some {| status := 404; statusText := "Not Found";
            headers_get := fun _ => None; json := None |} in
  let response : Response Json :=
    {| status := 404; statusText := "Not Found";
       headers_get := fun _ => None;
       json := Some (JObj [("message", JStr "No such repository")]) |} in
  let rest : Server Json := fun _ _ => Some response in
  let options := {| init_method := None; init_headers := None;
                    init_body := None |} in
  404 <> 429 /\ ~ (200 <= 404 <= 299)
  /\ (graphqlQuery "ghp_token" graphql "query { viewer { login } }" None []).1
     = Throw (Error "GitHub API request failed: 404 Not Found" None)
  /\ (restRequest "ghp_token" rest "/repos/deco-cx/none" options []).1
     = Throw (Error
         "GitHub REST API request failed: 404 Not Found - No such repository"
         None).
Proof.
  intros graphql response rest options.
  assert (404 <> 429) as H429 by lia.
  assert (~ (200 <= 404 <= 299)) as Hok by lia.
  assert ("No such repository" <> "") as Hne by discriminate.
  destruct (request_failed_error "ghp_token" graphql rest []) as [HG HR].
  split; [exact H429|]. split; [exact Hok|]. split.
  - exact (f_equal fst (HG "query { viewer { login } }" None _ eq_refl
                          H429 Hok)).
  - exact (proj1 (HR "/repos/deco-cx/none" options response eq_refl H429 Hok)
             _ "No such repository" eq_refl eq_refl Hne).
Defined.

(** C4, at a 401 whose JSON body has a message field: the error
    [graphqlQuery] throws carries the status code and not the message, which
    [restRequest] would have appended. *)
Theorem graphql_error_drops_body_message :
  let response :=
    {| status := 401; statusText := "Unauthorized";
       headers_get := fun _ => None;
       json := Some {| data := None; errors := None;
                       other := [("message", JStr "Bad credentials")] |} |} in
  exists message,
    (graphqlQuery "ghp_token" (fun _ _ => Some response)
       "query { viewer { login } }" None []).1
    = Throw (Error message None)
    /\ includes "401" message = true
    /\ includes "Bad credentials" message = false.
Proof. eexists. split; [reflexivity|]. split; reflexivity. Qed.

(** C5, as the code has it: a 2xx response whose body parses fails on a
    non-empty [errors] array and on a [data] that is absent or falsy, and
    otherwise returns [data]. *)
Theorem graphql_success_payload (token : string)
  (graphql : Server GraphQLResponse) (query : string)
  (variables : option Props) (sent : list Request)
  (response : Response GraphQLResponse) (result : GraphQLResponse) :
  graphql sent (graphqlRequest token query variables) = Some response ->
  200 <= status response <= 299 ->
  json response = Some result ->
  let out := (graphqlQuery token graphql query variables sent).1 in
  (forall e es, errors result = Some (e :: es) ->
     out = Throw (Error ("GraphQL errors: "
                         +:+ join ", " (message <$> e :: es)) None))
  /\ (errors result = None \/ errors result = Some [] ->
      (data result = None ->
         out = Throw (Error "GraphQL response missing data" None))
      /\ (forall d, data result = Some d -> truthy d = false ->
         out = Throw (Error "GraphQL response missing data" None))
      /\ (forall d, data result = Some d -> truthy d = true ->
         out = Return d)).
Proof.
  intros Hresp Hok Hjson out. subst out.
  assert ((status response =? 429)%Z = false) as H429 by (apply Z.eqb_neq; lia).
  apply ok_iff in Hok.
  cbv [graphqlQuery bind throw response_json ret].
  rewrite (fetch_answer _ _ _ _ Hresp), H429, Hok, Hjson. cbn [negb].
  split.
  - intros e es ->. done.
  - intros Herr.
    assert (match errors result with
            | Some (e :: es) => False | _ => True end) as Hnone
      by (by destruct Herr as [-> | ->]).
    destruct (errors result) as [[|e es]|]; try done;
      (split_and!; [by intros -> | intros d -> -> | intros d -> ->]; done).
Qed.

Lemma graphql_success_payload_witness :
  let viewer := JObj [("viewer", JObj [("login", JStr "octocat")])] in
  let result := {| data := Some viewer; errors := Some []; other := [] |} in
  let response := {| status := 200; statusText := "OK";
                     headers_get := fun _ => None; json := Some result |} in
  let graphql : Server GraphQLResponse := fun _ _ => Some response in
  200 <= 200 <= 299
  /\ (graphqlQuery "ghp_token" graphql "query { viewer { login } }" None []).1
     = Return viewer.
Proof.
  intros viewer result response graphql.
  assert (200 <= 200 <= 299) as Hok by lia.
  split; [exact Hok|].
  exact (proj2 (proj2 (proj2 (graphql_success_payload "ghp_token" graphql
           "query { viewer { login } }" None [] response result
           eq_refl Hok eq_refl) (or_intror eq_refl))) viewer eq_refl eq_refl).
Defined.

(** C5 as stated fails: with [data] present but [null], or 0, and no errors,
    the call throws instead of returning the payload. *)
Lemma graphql_falsy_data_rejected :
  let respond (d : Json) : Server GraphQLResponse :=
    fun _ _ => Some {| status := 200; statusText := "OK";
                       headers_get := fun _ => None;
                       json := Some {| data := Some d; errors := None;
                                       other := [] |} |} in
  (graphqlQuery "ghp_token" (respond JNull)
     "query { viewer { login } }" None []).1
  = Throw (Error "GraphQL response missing data" None)
  /\ (graphqlQuery "ghp_token" (respond (JNum 0))
        "query { viewer { login } }" None []).1
     = Throw (Error "GraphQL response missing data" None).
Proof. split; reflexivity. Qed.

(** ** The tool handlers *)

Lemma quiet_ret {S A} (a : A) : quiet (ret (S:=S) a).
Proof. done. Qed.
Lemma quiet_throw {S A} e : quiet (throw (S:=S) (A:=A) e).
Proof. done. Qed.
Lemma quiet_bind {S A B} (m : Async S A) (k : A -> Async S B) :
  quiet m -> (forall a, quiet (k a)) -> quiet (bind m k).
Proof.
  intros Hm Hk s. unfold bind. specialize (Hm s).
  destruct (m s) as [[a|e] s']; simpl in *; subst; [apply Hk|done].
Qed.
Lemma quiet_get_prop {S} v k : quiet (get_prop (S:=S) v k).
Proof. by destruct v as [[]|]. Qed.
Lemma quiet_get_path {S} v ks : quiet (get_path (S:=S) v ks).
Proof.
  revert v. induction ks as [|k ks IH]; intros v; [done|].
  simpl. apply quiet_bind; [apply quiet_get_prop|done].
Qed.
Lemma quiet_mapM {S A B} (f : A -> Async S B) l :
  (forall x, quiet (f x)) -> quiet (mapM f l).
Proof.
  intros Hf. induction l as [|x l IH]; [done|]. simpl.
  apply quiet_bind; [done|]. intros y.
  apply quiet_bind; [done|]. intros ys. apply quiet_ret.
Qed.
Lemma quiet_array_map {S} nodes (f : Json -> Async S Json) :
  (forall x, quiet (f x)) -> quiet (array_map nodes f).
Proof.
  intros Hf. destruct nodes as [[]|]; try done. simpl.
  apply quiet_bind; [by apply quiet_mapM|]. intros; apply quiet_ret.
Qed.

Create HintDb quiet.
#[local] Hint Resolve quiet_ret quiet_throw quiet_get_prop quiet_get_path
  quiet_mapM quiet_array_map : quiet.
#[local] Hint Extern 1 (quiet (bind _ _)) => apply quiet_bind : quiet.
#[local] Hint Extern 1 (quiet (flatten_issue _)) => unfold flatten_issue : quiet.
#[local] Hint Extern 1 (quiet (project_item _)) => unfold project_item : quiet.

(** What follows a request does not send: the world after
    [await x <- m ;; k x] is the world after [m]. *)
Lemma bind_quiet_world {S A B} (m : Async S A) (k : A -> Async S B) s :
  (forall a, quiet (k a)) -> (bind m k s).2 = (m s).2.
Proof.
  intros Hk. unfold bind. destruct (m s) as [[a|e] s']; [apply Hk|done].
Qed.

Lemma graphqlQuery_world token graphql query variables sent :
  (graphqlQuery token graphql query variables sent).2
  = (sent ++ [graphqlRequest token query variables])%list.
Proof.
  cbv [graphqlQuery bind fetch throw response_json ret].
  destruct (graphql sent _) as [response|]; [|done].
  destruct (_ =? _)%Z; [done|]. destruct (negb _); [done|].
  destruct (json response) as [result|]; [|done].
  destruct (errors result) as [[|e es]|]; try done;
    destruct (data result) as [d|]; try done; by destruct (truthy d).
Qed.

Lemma withGitHubToken_token {S A} env st token (k : State -> string -> Async S A) :
  DECO_REQUEST_CONTEXT env ≫= state = Some st ->
  githubToken st = Some token -> token <> "" ->
  withGitHubToken env k = k st token.
Proof.
  intros Hst Htok Hne. unfold withGitHubToken. rewrite Hst, Htok.
  cbn [truthy_str]. apply String.eqb_neq in Hne. by rewrite Hne.
Qed.

Lemma withGitHubToken_no_token {S A} env (k : State -> string -> Async S A) s :
  token_of env = None \/ token_of env = Some "" ->
  withGitHubToken env k s = (Throw (Error NO_TOKEN_MESSAGE None), s).
Proof.
  unfold token_of, withGitHubToken.
  destruct (DECO_REQUEST_CONTEXT env ≫= state) as [st|]; simpl; [|done].
  destruct (githubToken st) as [token|]; [|done].
  intros [?|[= ->]]; done.
Qed.

(** C9: without a token every GitHub-facing tool is rejected with the
    configuration message, and no request has been sent. *)
Theorem tool_without_token_rejected (env : Env)
  (graphql : Server GraphQLResponse) (call : ToolCall) (sent : list Request) :
  token_of env = None \/ token_of env = Some "" ->
  execute env graphql call sent = (Throw (Error NO_TOKEN_MESSAGE None), sent).
Proof.
  intros Hno. destruct call; by apply withGitHubToken_no_token.
Qed.

Lemma tool_without_token_rejected_witness :
  let env := {| DECO_REQUEST_CONTEXT := None |} in
  let call := GET_ISSUE "deco-cx" "deco" 42 in
  (token_of env = None \/ token_of env = Some "")
  /\ execute env (fun _ _ => None) call []
     = (Throw (Error NO_TOKEN_MESSAGE None), []).
Proof.
  intros env call.
  assert (token_of env = None \/ token_of env = Some "") as Hno
    by (left; reflexivity).
  split; [exact Hno|].
  exact (tool_without_token_rejected env (fun _ _ => None) call [] Hno).
Defined.

Lemma pageSize_cases (first : Z) :
  (100 < first -> pageSize first = 100)
  /\ (first <= 100 -> first <> 0 -> pageSize first = first)
  /\ (first = 0 -> pageSize first = 20).
Proof.
  unfold pageSize. split_and!.
  - intros H. rewrite (proj2 (Z.eqb_neq first 0)) by lia. lia.
  - intros H H0. rewrite (proj2 (Z.eqb_neq first 0)) by lia. lia.
  - intros ->. done.
Qed.

Lemma paginated_sends env graphql st token sent call first :
  DECO_REQUEST_CONTEXT env ≫= state = Some st ->
  githubToken st = Some token -> token <> "" ->
  paginated st call first ->
  sends_page_size env graphql sent call (pageSize first).
Proof.
  intros Hst Htok Hne Hpag. unfold sends_page_size.
  destruct Hpag as [owner repo state labels assignee first
                   |owner repo issueNumber first
                   |organizationLogin first Horg
                   |projectId first]; simpl.
  - unfold createListIssues. rewrite (withGitHubToken_token _ _ _ _ Hst Htok Hne).
    rewrite bind_quiet_world by auto 20 with quiet.
    rewrite graphqlQuery_world. eexists; split; [done|].
    by destruct state, labels.
  - unfold createListIssueComments.
    rewrite (withGitHubToken_token _ _ _ _ Hst Htok Hne).
    rewrite bind_quiet_world by auto 20 with quiet.
    rewrite graphqlQuery_world. eexists; split; done.
  - unfold createListGitHubProjects.
    rewrite (withGitHubToken_token _ _ _ _ Hst Htok Hne).
    cbv zeta. rewrite Horg. cbn [negb].
    destruct (or_str _ _) as [orgLogin|]; [|done].
    rewrite bind_quiet_world by auto 20 with quiet.
    rewrite graphqlQuery_world. eexists; split; done.
  - unfold createListProjectItems.
    rewrite (withGitHubToken_token _ _ _ _ Hst Htok Hne).
    rewrite bind_quiet_world by auto 20 with quiet.
    rewrite graphqlQuery_world. eexists; split; done.
Qed.

(** C3, as the code has it: a paginated tool sends 100 for every [first]
    above 100 and [first] itself for every other [first] but 0, for which
    it sends the default 20. *)
Theorem page_size_clamped (env : Env) (graphql : Server GraphQLResponse)
  (st : State) (token : string) (sent : list Request)
  (call : ToolCall) (first : Z) :
  DECO_REQUEST_CONTEXT env ≫= state = Some st ->
  githubToken st = Some token -> token <> "" ->
  paginated st call first ->
  (100 < first -> sends_page_size env graphql sent call 100)
  /\ (first <= 100 -> first <> 0 ->
      sends_page_size env graphql sent call first)
  /\ (first = 0 -> sends_page_size env graphql sent call 20).
Proof.
  intros Hst Htok Hne Hpag.
  pose proof (paginated_sends env graphql st token sent call first
                Hst Htok Hne Hpag) as Hsends.
  destruct (pageSize_cases first) as (Hhi & Hmid & Hzero).
  split_and!; intros; [rewrite <- Hhi|rewrite <- Hmid|rewrite <- Hzero]; done.
Qed.

Lemma page_size_clamped_witness :
  let st := {| githubToken := Some "ghp_token";
               defaultOrganization := None |} in
  let env := {| DECO_REQUEST_CONTEXT := Some {| state := Some st |} |} in
  let call := LIST_PROJECT_ITEMS "PVT_kwDOBj_xvs4A_o2I" 250 in
  paginated st call 250
  /\ 100 < 250
  /\ sends_page_size env (fun _ _ => None) [] call 100.
Proof.
  intros st env call.
  assert (paginated st call 250) as Hpag by constructor.
  assert (100 < 250) as Hbig by lia.
  assert ("ghp_token" <> "") as Hne by discriminate.
  split; [exact Hpag|]. split; [exact Hbig|].
  exact (proj1 (page_size_clamped env (fun _ _ => None) st "ghp_token" []
                  call 250 eq_refl eq_refl Hne Hpag) Hbig).
Defined.

(** C3 as stated fails at [first = 0], which is at most 100 and is not
    passed through: LIST_ISSUES asks GitHub for 20 issues. *)
Lemma page_size_zero_not_passed_through :
  let env := {| DECO_REQUEST_CONTEXT :=
                  Some {| state := Some {| githubToken := Some "ghp_token";
                                           defaultOrganization := None |} |} |} in
  variable "first"
    <$> (execute env (fun _ _ => None)
           (LIST_ISSUES "deco-cx" "deco" None None None 0) []).2
  = [Some (JNum 20)].
Proof. reflexivity. Qed.


(** * Further properties *)

Lemma sample_db_inv : tracking_inv sample_db.
Proof.
  unfold tracking_inv, projects_keys, flag.
  split_and!; apply (bool_decide_unpack _); vm_compute; exact I.
Defined.

Lemma sample_env_token :
  DECO_REQUEST_CONTEXT sample_env ≫= state = Some sample_state
  /\ githubToken sample_state = Some "ghp_token" /\ "ghp_token" <> "".
Proof.
  split; [reflexivity|]. split; [reflexivity|discriminate].
Defined.

(** ** More on the tracking tools *)

Lemma update_where_Forall {Row} (Q : Row -> Prop) (s : Row -> Row)
  (c : Row -> Prop) `{forall r, Decision (c r)} (t : list Row) :
  (forall r, Q r -> Q (s r)) -> Forall Q t -> Forall Q (update_where s c t).
Proof.
  intros Hs Ht. unfold update_where. apply Forall_fmap.
  eapply Forall_impl; [exact Ht|]. intros r Hr. simpl.
  destruct (decide (c r)); [by apply Hs|done].
Qed.

Lemma delete_where_NoDup {Row K} (col : Row -> K) (c : Row -> Prop)
  `{forall r, Decision (c r)} (t : list Row) :
  NoDup (col <$> t) -> NoDup (col <$> delete_where c t).
Proof.
  intros Hnd. apply (sublist_NoDup _ (col <$> t) Hnd).
  apply fmap_sublist. unfold delete_where. apply sublist_filter.
Qed.

Lemma delete_where_Forall {Row} (Q : Row -> Prop) (c : Row -> Prop)
  `{forall r, Decision (c r)} (t : list Row) :
  Forall Q t -> Forall Q (delete_where c t).
Proof.
  rewrite !Forall_forall. intros Ht r Hr.
  apply delete_where_elem_of in Hr as [Hr _]. by apply Ht.
Qed.

Lemma update_where_same {Row} (s : Row -> Row) (c : Row -> Prop)
  `{forall r, Decision (c r)} (t : list Row) :
  (forall r, r ∈ t -> c r -> s r = r) -> update_where s c t = t.
Proof.
  intros Hs. unfold update_where. rewrite <- (list_fmap_id t) at 2.
  apply list_fmap_ext. intros i r Hi. simpl.
  destruct (decide (c r)); [|done].
  apply Hs; [|done]. by eapply list_elem_of_lookup_2.
Qed.

Lemma NoDup_fmap_eq {Row K} (col : Row -> K) (t : list Row) (r r' : Row) :
  NoDup (col <$> t) -> r ∈ t -> r' ∈ t -> col r = col r' -> r = r'.
Proof.
  intros Hnd Hr Hr' E.
  apply list_elem_of_lookup_1 in Hr as [i Hi], Hr' as [j Hj].
  assert (i = j) as ->; [|congruence].
  eapply NoDup_lookup; [exact Hnd| |];
    rewrite list_lookup_fmap; [rewrite Hi|rewrite Hj]; simpl; by f_equal.
Qed.

Lemma with_repositories_same db : with_repositories (tracked_repositories db) db = db.
Proof. by destruct db. Qed.
Lemma with_projects_same db : with_projects (tracked_projects db) db = db.
Proof. by destruct db. Qed.

Lemma select_first_elem {Row} (c : Row -> Prop) `{forall r, Decision (c r)}
  (t : list Row) first rest :
  select_where c t = first :: rest -> first ∈ t /\ c first.
Proof.
  intros E. assert (first ∈ select_where c t) as Hf by (rewrite E; left).
  unfold select_where in Hf. apply list_elem_of_filter in Hf. tauto.
Qed.

(** Every call of ADD_TRACKED_REPOSITORY returns a row of the table it
    leaves, and that row has the owner and the name of the call and is
    active. *)
Lemma add_tracked_repository_row db owner name now :
  tracking_inv db ->
  exists row,
    (createAddTrackedRepository owner name now db).1
      = Return (repository_of row)
    /\ row ∈ tracked_repositories (createAddTrackedRepository owner name now db).2
    /\ R.owner row = owner /\ R.name row = name /\ R.isActive row = 1.
Proof.
  intros (Hid & Hflag & _).
  destruct (select_where (fun r => R.owner r = owner) (tracked_repositories db))
    as [|first rest] eqn:Hsel.
  - cbv [createAddTrackedRepository insert_repository]; async.
    rewrite Hsel. simpl. eexists. split; [done|]. simpl.
    split; [|done]. apply elem_of_app. right. left.
  - destruct (select_first_elem _ _ _ _ Hsel) as [Hin Hown].
    destruct (decide (R.name first = name)) as [Hname|Hname].
    + cbv [createAddTrackedRepository update_repositories]; async.
      rewrite Hsel. cbn [limit take]. unfold find. simpl.
      rewrite decide_True by done. simpl.
      destruct (decide (R.isActive first = 0)) as [E|E]; simpl.
      * rewrite (update_returning_unique R.id _ _ first Hid Hin). simpl.
        eexists. split; [done|]. split; [|done].
        apply list_elem_of_lookup_1 in Hin as [i Hi].
        apply (list_elem_of_lookup_2 _ i).
        rewrite update_where_lookup, Hi. simpl. by rewrite decide_True.
      * exists first. split; [done|]. split; [done|].
        split; [done|]. split; [done|].
        rewrite Forall_forall in Hflag. destruct (Hflag first Hin); done.
    + cbv [createAddTrackedRepository insert_repository]; async.
      rewrite Hsel. cbn [limit take]. unfold find. simpl.
      rewrite decide_False by done. simpl. eexists. split; [done|]. simpl.
      split; [|done]. apply elem_of_app. right. left.
Qed.

(** The same for ADD_TRACKED_PROJECT, which therefore never runs into the
    unique index. *)
Lemma add_tracked_project_row db projectId title organizationLogin now :
  tracking_inv db ->
  exists row,
    (createAddTrackedProject projectId title organizationLogin now db).1
      = Return (project_of row)
    /\ row ∈ tracked_projects
               (createAddTrackedProject projectId title organizationLogin now db).2
    /\ P.projectId row = projectId /\ P.title row = title
    /\ P.isActive row = 1.
Proof.
  intros (_ & _ & Hkeys & Hflag).
  destruct (decide (projectId ∈ P.projectId <$> tracked_projects db))
    as [Hin|Hnin].
  - apply list_elem_of_fmap in Hin as (p & -> & Hp).
    rewrite add_tracked_project_existing_eq by done. simpl.
    eexists. split; [done|]. split.
    + apply list_elem_of_lookup_1 in Hp as [i Hi].
      apply (list_elem_of_lookup_2 _ i).
      rewrite update_where_lookup, Hi. simpl. by rewrite decide_True.
    + rewrite Forall_forall in Hflag.
      destruct (decide (P.isActive p = 0)); simpl; [done|].
      destruct (Hflag p Hp); done.
  - cbv [createAddTrackedProject insert_project]; async.
    rewrite select_where_none.
    2:{ intros r Hr E. apply Hnin. rewrite <- E. by apply list_elem_of_fmap_2. }
    rewrite decide_False by done. simpl. eexists. split; [done|]. simpl.
    split; [|done]. apply elem_of_app. right. left.
Qed.

(** X1: a call of ADD_TRACKED_REPOSITORY always returns, the repository it
    returns has the owner and name asked for and is active, and the active
    listing taken afterwards shows it. *)
Theorem add_tracked_repository_listed (db : Database) (owner name : string)
  (now : Date) :
  tracking_inv db ->
  exists r listed,
    (createAddTrackedRepository owner name now db).1 = Return r
    /\ Repository.owner r = owner /\ Repository.name r = name
    /\ Repository.isActive r = true
    /\ (createListTrackedRepositories true
          (createAddTrackedRepository owner name now db).2).1 = Return listed
    /\ r ∈ listed.
Proof.
  intros Hinv.
  destruct (add_tracked_repository_row db owner name now Hinv)
    as (row & Hret & Hin & Hown & Hname & Hact).
  exists (repository_of row). eexists. split; [exact Hret|].
  split; [exact Hown|]. split; [exact Hname|].
  split; [simpl; by rewrite Hact|]. split; [reflexivity|].
  apply list_elem_of_fmap_2. unfold select_where.
  apply list_elem_of_filter. by split.
Qed.

Lemma add_tracked_repository_listed_witness :
  tracking_inv sample_db
  /\ exists r listed,
       (createAddTrackedRepository "deco-cx" "deco" 3000 sample_db).1
         = Return r
       /\ Repository.owner r = "deco-cx" /\ Repository.name r = "deco"
       /\ Repository.isActive r = true
       /\ (createListTrackedRepositories true
             (createAddTrackedRepository "deco-cx" "deco" 3000 sample_db).2).1
          = Return listed
       /\ r ∈ listed.
Proof.
  split; [exact sample_db_inv|].
  exact (add_tracked_repository_listed sample_db "deco-cx" "deco" 3000
           sample_db_inv).
Defined.

(** X2: a call of ADD_TRACKED_PROJECT always returns (the unique index on
    project_id is never hit), the project it returns has the node id and the
    title asked for and is active, and the active listing taken afterwards
    shows it. *)
Theorem add_tracked_project_listed (db : Database)
  (projectId title organizationLogin : string) (now : Date) :
  tracking_inv db ->
  exists p listed,
    (createAddTrackedProject projectId title organizationLogin now db).1
      = Return p
    /\ Project.projectId p = projectId /\ Project.title p = title
    /\ Project.isActive p = true
    /\ (createListTrackedProjects true
          (createAddTrackedProject projectId title organizationLogin now db).2).1
       = Return listed
    /\ p ∈ listed.
Proof.
  intros Hinv.
  destruct (add_tracked_project_row db projectId title organizationLogin now
              Hinv) as (row & Hret & Hin & Hpid & Htitle & Hact).
  exists (project_of row). eexists. split; [exact Hret|].
  split; [exact Hpid|]. split; [exact Htitle|].
  split; [simpl; by rewrite Hact|]. split; [reflexivity|].
  apply list_elem_of_fmap_2. unfold select_where.
  apply list_elem_of_filter. by split.
Qed.

Lemma add_tracked_project_listed_witness :
  tracking_inv sample_db
  /\ exists p listed,
       (createAddTrackedProject "PVT_new" "Roadmap" "deco-cx" 3000
          sample_db).1 = Return p
       /\ Project.projectId p = "PVT_new" /\ Project.title p = "Roadmap"
       /\ Project.isActive p = true
       /\ (createListTrackedProjects true
             (createAddTrackedProject "PVT_new" "Roadmap" "deco-cx" 3000
                sample_db).2).1 = Return listed
       /\ p ∈ listed.
Proof.
  split; [exact sample_db_inv|].
  exact (add_tracked_project_listed sample_db "PVT_new" "Roadmap" "deco-cx"
           3000 sample_db_inv).
Defined.

Lemma P_set_title_same p : P_set_title (P.title p) p = p.
Proof. by destruct p. Qed.

(** X3: ADD_TRACKED_PROJECT is idempotent: a second call with the same node
    id and title, at any later time and with any organization login, returns
    what the first call returned and leaves the database as the first call
    left it. *)
Theorem add_tracked_project_idempotent (db : Database)
  (projectId title organizationLogin organizationLogin' : string)
  (now now' : Date) :
  tracking_inv db ->
  let once := createAddTrackedProject projectId title organizationLogin now db in
  createAddTrackedProject projectId title organizationLogin' now' once.2 = once.
Proof.
  intros Hinv once.
  destruct (add_tracked_project_row db projectId title organizationLogin now
              Hinv) as (row & Hret & Hin & Hpid & Htitle & Hact).
  fold once in Hret, Hin.
  assert (projects_keys once.2) as Hkeys.
  { apply add_tracked_project_keys. apply Hinv. }
  rewrite <- Hpid.
  rewrite (add_tracked_project_existing_eq once.2 title organizationLogin'
             now' row Hkeys Hin).
  rewrite decide_False by lia.
  rewrite <- Htitle, P_set_title_same.
  rewrite update_where_same.
  - rewrite with_projects_same. destruct once as [res db1]. simpl in *.
    by rewrite Hret.
  - intros r Hr E.
    assert (r = row) as -> by (eapply (NoDup_fmap_eq P.id); [apply Hkeys|..]; done).
    apply P_set_title_same.
Qed.

Lemma add_tracked_project_idempotent_witness :
  tracking_inv sample_db
  /\ createAddTrackedProject "PVT_new" "Roadmap" "another-org" 9000
       (createAddTrackedProject "PVT_new" "Roadmap" "deco-cx" 3000
          sample_db).2
     = createAddTrackedProject "PVT_new" "Roadmap" "deco-cx" 3000 sample_db.
Proof.
  split; [exact sample_db_inv|].
  exact (add_tracked_project_idempotent sample_db "PVT_new" "Roadmap"
           "deco-cx" "another-org" 3000 9000 sample_db_inv).
Defined.

Lemma flag_0 : flag 0. Proof. by left. Qed.
Lemma flag_1 : flag 1. Proof. by right. Qed.

Lemma NoDup_snoc_fresh {K} (l : list K) (x : K) :
  NoDup l -> x ∉ l -> NoDup (l ++ [x]).
Proof.
  intros Hl Hx. apply NoDup_app. split; [done|].
  split; [|apply NoDup_singleton].
  intros y Hy Hy'. apply list_elem_of_singleton in Hy'. by subst.
Qed.

Lemma add_tracked_repository_inv db owner name now :
  tracking_inv db ->
  tracking_inv (createAddTrackedRepository owner name now db).2.
Proof.
  intros Hinv. pose proof Hinv as (Hid & Hflag & Hkeys & Hpflag).
  cbv [createAddTrackedRepository update_repositories insert_repository];
    async.
  destruct (find _ _) as [m|].
  - destruct (decide _); [|exact Hinv].
    assert (tracking_inv
              (with_repositories
                 (update_where (R_set_isActive 1)
                    (fun r => R.id r = R.id m) (tracked_repositories db)) db))
      as Hupd; [|by destruct (update_returning _ _ _)].
    split_and!; simpl; [|apply update_where_Forall|..]; try done.
    + by rewrite update_where_col.
    + intros; apply flag_1.
  - simpl. split_and!; simpl; [|apply Forall_app_2; [done|]|done..].
    + rewrite fmap_app. apply NoDup_snoc_fresh; [done|apply nextRowid_fresh].
    + apply Forall_singleton, flag_1.
Qed.

Lemma add_tracked_project_inv db projectId title organizationLogin now :
  tracking_inv db ->
  tracking_inv
    (createAddTrackedProject projectId title organizationLogin now db).2.
Proof.
  intros (Hid & Hflag & Hkeys & Hpflag).
  pose proof (add_tracked_project_keys db projectId title organizationLogin
                now Hkeys) as Hkeys'.
  split_and!; [| |exact Hkeys'|];
    cbv [createAddTrackedProject update_projects insert_project]; async;
    destruct (limit _ _) as [|project ?].
  - by destruct (decide _).
  - by destruct (decide _); destruct (update_returning _ _ _).
  - by destruct (decide _).
  - by destruct (decide _); destruct (update_returning _ _ _).
  - destruct (decide _); [done|]. simpl.
    apply Forall_app_2; [done|]. apply Forall_singleton, flag_1.
  - destruct (decide _); destruct (update_returning _ _ _); simpl;
      apply update_where_Forall; try done; intros q Hq; simpl;
      first [apply flag_1 | exact Hq].
Qed.

Lemma remove_tracked_repository_inv db id hardDelete :
  tracking_inv db ->
  tracking_inv (createRemoveTrackedRepository id hardDelete db).2.
Proof.
  intros Hinv. pose proof Hinv as (Hid & Hflag & Hkeys & Hpflag).
  cbv [createRemoveTrackedRepository update_repositories delete_repositories];
    async.
  destruct (decide _); [exact Hinv|].
  destruct hardDelete; simpl; split_and!; simpl; try done.
  - by apply delete_where_NoDup.
  - by apply delete_where_Forall.
  - by rewrite update_where_col.
  - apply update_where_Forall; [|done]. intros; apply flag_0.
Qed.

Lemma remove_tracked_project_inv db id hardDelete :
  tracking_inv db ->
  tracking_inv (createRemoveTrackedProject id hardDelete db).2.
Proof.
  intros Hinv. pose proof Hinv as (Hid & Hflag & [Hpid Hppid] & Hpflag).
  cbv [createRemoveTrackedProject update_projects delete_projects]; async.
  destruct (decide _); [exact Hinv|].
  destruct hardDelete; simpl; split_and!; simpl; try done.
  - split; simpl; by apply delete_where_NoDup.
  - by apply delete_where_Forall.
  - split; simpl; by rewrite update_where_col.
  - apply update_where_Forall; [|done]. intros; apply flag_0.
Qed.

(** X4: every tracking tool that writes keeps the tables well formed: ids
    stay distinct in both tables, project node ids stay distinct, and every
    [isActive] stays 0 or 1. *)
Theorem tracking_inv_preserved (db : Database) :
  tracking_inv db ->
  (forall owner name now,
     tracking_inv (createAddTrackedRepository owner name now db).2)
  /\ (forall projectId title organizationLogin now,
     tracking_inv
       (createAddTrackedProject projectId title organizationLogin now db).2)
  /\ (forall id hardDelete,
     tracking_inv (createRemoveTrackedRepository id hardDelete db).2)
  /\ (forall id hardDelete,
     tracking_inv (createRemoveTrackedProject id hardDelete db).2).
Proof.
  intros Hinv. split_and!; intros.
  - by apply add_tracked_repository_inv.
  - by apply add_tracked_project_inv.
  - by apply remove_tracked_repository_inv.
  - by apply remove_tracked_project_inv.
Qed.

Lemma tracking_inv_preserved_witness :
  tracking_inv sample_db
  /\ tracking_inv (createAddTrackedRepository "deco-cx" "chat" 3000
                     sample_db).2
  /\ tracking_inv (createRemoveTrackedProject 1 true sample_db).2.
Proof.
  split; [exact sample_db_inv|].
  destruct (tracking_inv_preserved sample_db sample_db_inv)
    as (Hadd & _ & _ & Hremove).
  split; [exact (Hadd "deco-cx" "chat" 3000)|exact (Hremove 1 true)].
Defined.

Lemma remove_tracked_repository_eq db id hardDelete :
  id ∈ R.id <$> tracked_repositories db ->
  createRemoveTrackedRepository id hardDelete db
  = (Return {| success := true; deletedId := id |},
     with_repositories
       (if hardDelete
        then delete_where (fun r => R.id r = id) (tracked_repositories db)
        else update_where (R_set_isActive 0) (fun r => R.id r = id)
               (tracked_repositories db)) db).
Proof.
  intros Hin. apply list_elem_of_fmap in Hin as (r0 & Hid & Hr0).
  cbv [createRemoveTrackedRepository update_repositories delete_repositories];
    async.
  destruct (decide _) as [E|_]; [|by destruct hardDelete].
  by destruct (limit_select_nonempty (fun r => R.id r = id) _ r0 Hr0).
Qed.

Lemma remove_tracked_project_eq db id hardDelete :
  id ∈ P.id <$> tracked_projects db ->
  createRemoveTrackedProject id hardDelete db
  = (Return {| success := true; deletedId := id |},
     with_projects
       (if hardDelete
        then delete_where (fun p => P.id p = id) (tracked_projects db)
        else update_where (P_set_isActive 0) (fun p => P.id p = id)
               (tracked_projects db)) db).
Proof.
  intros Hin. apply list_elem_of_fmap in Hin as (r0 & Hid & Hr0).
  cbv [createRemoveTrackedProject update_projects delete_projects]; async.
  destruct (decide _) as [E|_]; [|by destruct hardDelete].
  by destruct (limit_select_nonempty (fun p => P.id p = id) _ r0 Hr0).
Qed.

(** X5: after a soft remove the id is gone from the active listing and still
    in the full listing, as inactive; after a hard remove it is in no
    listing.  For repositories and for projects. *)
Theorem remove_then_list (db : Database) (id : Z) :
  (id ∈ R.id <$> tracked_repositories db ->
   (exists active all,
      (createListTrackedRepositories true
         (createRemoveTrackedRepository id false db).2).1 = Return active
      /\ (id ∉ Repository.id <$> active)
      /\ (createListTrackedRepositories false
            (createRemoveTrackedRepository id false db).2).1 = Return all
      /\ (exists r, r ∈ all /\ Repository.id r = id
                    /\ Repository.isActive r = false))
   /\ (exists all,
      (createListTrackedRepositories false
         (createRemoveTrackedRepository id true db).2).1 = Return all
      /\ id ∉ Repository.id <$> all))
  /\
  (id ∈ P.id <$> tracked_projects db ->
   (exists active all,
      (createListTrackedProjects true
         (createRemoveTrackedProject id false db).2).1 = Return active
      /\ (id ∉ Project.id <$> active)
      /\ (createListTrackedProjects false
            (createRemoveTrackedProject id false db).2).1 = Return all
      /\ (exists p, p ∈ all /\ Project.id p = id
                    /\ Project.isActive p = false))
   /\ (exists all,
      (createListTrackedProjects false
         (createRemoveTrackedProject id true db).2).1 = Return all
      /\ id ∉ Project.id <$> all)).
Proof.
  split; intros Hin.
  - rewrite !remove_tracked_repository_eq by done.
    apply list_elem_of_fmap in Hin as (r0 & -> & Hr0).
    split.
    + do 2 eexists. split; [reflexivity|]. split; [|split; [reflexivity|]].
      * simpl. intros Hx.
        apply list_elem_of_fmap in Hx as (x & Hidx & Hx).
        apply list_elem_of_fmap in Hx as (row & -> & Hrow).
        unfold select_where in Hrow.
        apply list_elem_of_filter in Hrow as [Hact Hrow].
        unfold update_where in Hrow.
        apply list_elem_of_fmap in Hrow as (row0 & -> & _).
        simpl in Hidx.
        destruct (decide (R.id row0 = R.id r0)); simpl in *; [done|].
        congruence.
      * exists (repository_of (R_set_isActive 0 r0)). split; [|done].
        simpl. apply list_elem_of_fmap_2.
        apply list_elem_of_lookup_1 in Hr0 as [i Hi].
        apply (list_elem_of_lookup_2 _ i).
        rewrite update_where_lookup, Hi. simpl. by rewrite decide_True.
    + eexists. split; [reflexivity|]. simpl. intros Hx.
      apply list_elem_of_fmap in Hx as (x & Hidx & Hx).
      apply list_elem_of_fmap in Hx as (row & -> & Hrow).
      apply delete_where_elem_of in Hrow as [_ Hne]. by apply Hne.
  - rewrite !remove_tracked_project_eq by done.
    apply list_elem_of_fmap in Hin as (r0 & -> & Hr0).
    split.
    + do 2 eexists. split; [reflexivity|]. split; [|split; [reflexivity|]].
      * simpl. intros Hx.
        apply list_elem_of_fmap in Hx as (x & Hidx & Hx).
        apply list_elem_of_fmap in Hx as (row & -> & Hrow).
        unfold select_where in Hrow.
        apply list_elem_of_filter in Hrow as [Hact Hrow].
        unfold update_where in Hrow.
        apply list_elem_of_fmap in Hrow as (row0 & -> & _).
        simpl in Hidx.
        destruct (decide (P.id row0 = P.id r0)); simpl in *; [done|].
        congruence.
      * exists (project_of (P_set_isActive 0 r0)). split; [|done].
        simpl. apply list_elem_of_fmap_2.
        apply list_elem_of_lookup_1 in Hr0 as [i Hi].
        apply (list_elem_of_lookup_2 _ i).
        rewrite update_where_lookup, Hi. simpl. by rewrite decide_True.
    + eexists. split; [reflexivity|]. simpl. intros Hx.
      apply list_elem_of_fmap in Hx as (x & Hidx & Hx).
      apply list_elem_of_fmap in Hx as (row & -> & Hrow).
      apply delete_where_elem_of in Hrow as [_ Hne]. by apply Hne.
Qed.

Lemma remove_then_list_witness :
  (2 ∈ R.id <$> tracked_repositories sample_db)
  /\ (1 ∈ P.id <$> tracked_projects sample_db)
  /\ (exists all,
        (createListTrackedRepositories false
           (createRemoveTrackedRepository 2 true sample_db).2).1 = Return all
        /\ 2 ∉ Repository.id <$> all)
  /\ (exists all,
        (createListTrackedProjects false
           (createRemoveTrackedProject 1 true sample_db).2).1 = Return all
        /\ 1 ∉ Project.id <$> all).
Proof.
  assert (2 ∈ R.id <$> tracked_repositories sample_db) as Hrepo
    by (apply (bool_decide_unpack _); vm_compute; exact I).
  assert (1 ∈ P.id <$> tracked_projects sample_db) as Hproj
    by (apply (bool_decide_unpack _); vm_compute; exact I).
  split; [exact Hrepo|]. split; [exact Hproj|]. split.
  - exact (proj2 (proj1 (remove_then_list sample_db 2) Hrepo)).
  - exact (proj2 (proj2 (remove_then_list sample_db 1) Hproj)).
Defined.

Lemma not_elem_of_delete_where_ids {Row} (col : Row -> Z) (t : list Row) id :
  id ∉ col <$> delete_where (fun r => col r = id) t.
Proof.
  intros Hx. apply list_elem_of_fmap in Hx as (row & Hid & Hrow).
  apply delete_where_elem_of in Hrow as [_ Hne]. by apply Hne.
Qed.

(** X6: removing the same id again: after a hard remove the second call is
    rejected as not found, whichever way it is asked; after a soft remove a
    second soft remove succeeds and changes nothing.  For an id up to 2^53
    in magnitude, where a JavaScript number holds the integer and prints its
    numeral. *)
Theorem remove_twice (db : Database) (id : Z) :
  Z.abs id <= 2 ^ 53 ->
  (id ∈ R.id <$> tracked_repositories db ->
   (forall hardDelete,
      createRemoveTrackedRepository id hardDelete
        (createRemoveTrackedRepository id true db).2
      = (Throw (Error ("Tracked repository with ID " +:+ String_of_number id
                       +:+ " not found") None),
         (createRemoveTrackedRepository id true db).2))
   /\ createRemoveTrackedRepository id false
        (createRemoveTrackedRepository id false db).2
      = createRemoveTrackedRepository id false db)
  /\
  (id ∈ P.id <$> tracked_projects db ->
   (forall hardDelete,
      createRemoveTrackedProject id hardDelete
        (createRemoveTrackedProject id true db).2
      = (Throw (Error ("Tracked project with ID " +:+ String_of_number id
                       +:+ " not found") None),
         (createRemoveTrackedProject id true db).2))
   /\ createRemoveTrackedProject id false
        (createRemoveTrackedProject id false db).2
      = createRemoveTrackedProject id false db).
Proof.
  intros _. split; intros Hin.
  - split.
    + intros hardDelete. rewrite (remove_tracked_repository_eq db id true Hin).
      cbv [createRemoveTrackedRepository]; async.
      rewrite select_where_none; [done|].
      intros r Hr E. apply (not_elem_of_delete_where_ids R.id
                              (tracked_repositories db) id).
      rewrite <- E at 1. by apply list_elem_of_fmap_2.
    + rewrite (remove_tracked_repository_eq db id false Hin).
      rewrite remove_tracked_repository_eq.
      2:{ simpl. by rewrite update_where_col. }
      simpl. f_equal. unfold with_repositories. simpl. f_equal.
      apply update_where_same. intros r Hr Hc.
      unfold update_where in Hr.
      apply list_elem_of_fmap in Hr as (r0 & -> & _).
      by destruct (decide (R.id r0 = id)).
  - split.
    + intros hardDelete. rewrite (remove_tracked_project_eq db id true Hin).
      cbv [createRemoveTrackedProject]; async.
      rewrite select_where_none; [done|].
      intros r Hr E. apply (not_elem_of_delete_where_ids P.id
                              (tracked_projects db) id).
      rewrite <- E at 1. by apply list_elem_of_fmap_2.
    + rewrite (remove_tracked_project_eq db id false Hin).
      rewrite remove_tracked_project_eq.
      2:{ simpl. by rewrite update_where_col. }
      simpl. f_equal. unfold with_projects. simpl. f_equal.
      apply update_where_same. intros r Hr Hc.
      unfold update_where in Hr.
      apply list_elem_of_fmap in Hr as (r0 & -> & _).
      by destruct (decide (P.id r0 = id)).
Qed.

Lemma remove_twice_witness :
  Z.abs 2 <= 2 ^ 53
  /\ (2 ∈ R.id <$> tracked_repositories sample_db)
  /\ (1 ∈ P.id <$> tracked_projects sample_db)
  /\ createRemoveTrackedRepository 2 false
       (createRemoveTrackedRepository 2 true sample_db).2
     = (Throw (Error "Tracked repository with ID 2 not found" None),
        (createRemoveTrackedRepository 2 true sample_db).2)
  /\ createRemoveTrackedProject 1 false
       (createRemoveTrackedProject 1 false sample_db).2
     = createRemoveTrackedProject 1 false sample_db.
Proof.
  assert (Z.abs 2 <= 2 ^ 53) as Hsafe by (vm_compute; discriminate).
  assert (Z.abs 1 <= 2 ^ 53) as Hsafe' by (vm_compute; discriminate).
  assert (2 ∈ R.id <$> tracked_repositories sample_db) as Hrepo
    by (apply (bool_decide_unpack _); vm_compute; exact I).
  assert (1 ∈ P.id <$> tracked_projects sample_db) as Hproj
    by (apply (bool_decide_unpack _); vm_compute; exact I).
  split; [exact Hsafe|]. split; [exact Hrepo|]. split; [exact Hproj|]. split.
  - exact (proj1 (proj1 (remove_twice sample_db 2 Hsafe) Hrepo) false).
  - exact (proj2 (proj2 (remove_twice sample_db 1 Hsafe') Hproj)).
Defined.

(** X7: a soft remove is undone by the next add: adding the node id of a
    project that was deactivated brings the same row back (same id, same
    organization, same creation time) as active, with the title of the call,
    and touches no other row. *)
Theorem soft_remove_then_add_project_restores (db : Database) (p : P.Row)
  (title organizationLogin : string) (now : Date) :
  projects_keys db ->
  p ∈ tracked_projects db ->
  let restored := P_set_title title (P_set_isActive 1 p) in
  let out := createAddTrackedProject (P.projectId p) title organizationLogin
               now (createRemoveTrackedProject (P.id p) false db).2 in
  out.1 = Return (project_of restored)
  /\ Project.id (project_of restored) = P.id p
  /\ Project.isActive (project_of restored) = true
  /\ (forall i q, tracked_projects db !! i = Some q ->
        tracked_projects out.2 !! i
        = Some (if decide (P.id q = P.id p) then restored else q)).
Proof.
  intros Hkeys Hin restored out. subst out.
  rewrite remove_tracked_project_eq by (by apply list_elem_of_fmap_2).
  cbn [snd]. set (removed := with_projects _ db).
  assert (projects_keys removed) as Hkeys'.
  { destruct Hkeys. split; subst removed; simpl; by rewrite update_where_col. }
  assert (P_set_isActive 0 p ∈ tracked_projects removed) as Hin'.
  { subst removed. simpl.
    apply list_elem_of_lookup_1 in Hin as [i Hi].
    apply (list_elem_of_lookup_2 _ i).
    rewrite update_where_lookup, Hi. simpl. by rewrite decide_True. }
  pose proof (add_tracked_project_existing_eq removed title organizationLogin
                now (P_set_isActive 0 p) Hkeys' Hin') as Heq.
  simpl in Heq. rewrite Heq. clear Heq. simpl.
  split_and!; [done..|].
  intros i q Hq. subst removed. simpl.
  rewrite !update_where_lookup, Hq. simpl.
  destruct (decide (P.id q = P.id p)) as [E|E]; simpl.
  - rewrite decide_True by done.
    assert (q = p) as ->; [|done].
    apply list_elem_of_lookup_2 in Hq.
    eapply (NoDup_fmap_eq P.id); [apply Hkeys|..]; done.
  - by rewrite decide_False.
Qed.

Lemma soft_remove_then_add_project_restores_witness :
  let p := {| P.id := 1; P.projectId := "PVT_kwDOBj_xvs4A_o2I";
              P.title := "Platform"; P.organizationLogin := "deco-cx";
              P.isActive := 0; P.createdAt := 3000 |} in
  projects_keys sample_db
  /\ p ∈ tracked_projects sample_db
  /\ (createAddTrackedProject "PVT_kwDOBj_xvs4A_o2I" "Platform 2026"
        "deco-cx" 9000 (createRemoveTrackedProject 1 false sample_db).2).1
     = Return {| Project.id := 1;
                 Project.projectId := "PVT_kwDOBj_xvs4A_o2I";
                 Project.title := "Platform 2026";
                 Project.organizationLogin := "deco-cx";
                 Project.isActive := true;
                 Project.createdAt := toISOString 3000 |}.
Proof.
  intros p.
  assert (projects_keys sample_db) as Hkeys by apply sample_db_inv.
  assert (p ∈ tracked_projects sample_db) as Hin by left.
  split; [exact Hkeys|]. split; [exact Hin|].
  exact (proj1 (soft_remove_then_add_project_restores sample_db p
                  "Platform 2026" "deco-cx" 9000 Hkeys Hin)).
Defined.

Lemma nextRowid_above (ids : list Z) : Forall (fun i => i < nextRowid ids) ids.
Proof.
  destruct ids as [|i rest]; [constructor|]. unfold nextRowid.
  assert (i <= foldr Z.max i rest
          /\ Forall (fun j => j <= foldr Z.max i rest) rest) as [Hi Hrest].
  { induction rest as [|j rest [IHi IHrest]]; simpl; [split; [lia|constructor]|].
    split; [lia|]. constructor; [lia|].
    eapply Forall_impl; [exact IHrest|]. simpl. intros; lia. }
  constructor; [lia|]. eapply Forall_impl; [exact Hrest|]. simpl. intros; lia.
Qed.

(** X8: a first add creates: a repository whose owner and name no row has,
    and a project whose node id no row has, is appended as a new active row
    and returned; its id is [nextRowid], above every id in use, its
    [createdAt] is the time of the call cut to the whole second, and nothing
    else changes.  For tables whose ids are below 2^53 in magnitude. *)
Theorem add_tracked_new (db : Database) :
  (forall owner name now,
     Forall (fun i => Z.abs i < 2 ^ 53) (R.id <$> tracked_repositories db) ->
     (forall r, r ∈ tracked_repositories db ->
                ~ (R.owner r = owner /\ R.name r = name)) ->
     let row := {| R.id := nextRowid (R.id <$> tracked_repositories db);
                   R.owner := owner; R.name := name;
                   R.isActive := 1; R.createdAt := now / 1000 * 1000 |} in
     createAddTrackedRepository owner name now db
     = (Return (repository_of row),
        with_repositories (tracked_repositories db ++ [row]) db)
     /\ Forall (fun i => i < R.id row) (R.id <$> tracked_repositories db)
     /\ Z.abs (R.id row) <= 2 ^ 53)
  /\
  (forall projectId title organizationLogin now,
     Forall (fun i => Z.abs i < 2 ^ 53) (P.id <$> tracked_projects db) ->
     projectId ∉ P.projectId <$> tracked_projects db ->
     let row := {| P.id := nextRowid (P.id <$> tracked_projects db);
                   P.projectId := projectId; P.title := title;
                   P.organizationLogin := organizationLogin;
                   P.isActive := 1; P.createdAt := now / 1000 * 1000 |} in
     createAddTrackedProject projectId title organizationLogin now db
     = (Return (project_of row),
        with_projects (tracked_projects db ++ [row]) db)
     /\ Forall (fun i => i < P.id row) (P.id <$> tracked_projects db)
     /\ Z.abs (P.id row) <= 2 ^ 53).
Proof.
  assert (forall ids, Forall (fun i => Z.abs i < 2 ^ 53) ids ->
            Z.abs (nextRowid ids) <= 2 ^ 53) as Hsafe.
  { intros [|i rest] Hids; [vm_compute; discriminate|]. unfold nextRowid.
    assert (Z.abs (foldr Z.max i rest) < 2 ^ 53); [|lia].
    apply Forall_cons in Hids as [Hi Hrest].
    induction Hrest as [|j rest Hj _ IH]; simpl; lia. }
  split.
  - intros owner name now Hids Hnone row.
    split; [|split; [apply nextRowid_above|by apply Hsafe]].
    cbv [createAddTrackedRepository insert_repository]; async.
    destruct (select_where (fun r => R.owner r = owner)
                (tracked_repositories db)) as [|first rest] eqn:Hsel.
    + done.
    + destruct (select_first_elem _ _ _ _ Hsel) as [Hin Hown].
      cbn [limit take]. unfold find. simpl.
      rewrite decide_False; [done|].
      intros Hname. by apply (Hnone first Hin).
  - intros projectId title organizationLogin now Hids Hnin row.
    split; [|split; [apply nextRowid_above|by apply Hsafe]].
    cbv [createAddTrackedProject insert_project]; async.
    rewrite select_where_none.
    2:{ intros r Hr E. apply Hnin. rewrite <- E. by apply list_elem_of_fmap_2. }
    by rewrite decide_False.
Qed.

Lemma add_tracked_new_witness :
  Forall (fun i => Z.abs i < 2 ^ 53) (R.id <$> tracked_repositories sample_db)
  /\ Forall (fun i => Z.abs i < 2 ^ 53) (P.id <$> tracked_projects sample_db)
  /\ (forall r, r ∈ tracked_repositories sample_db ->
                ~ (R.owner r = "deco-cx" /\ R.name r = "admin"))
  /\ ("PVT_new" ∉ P.projectId <$> tracked_projects sample_db)
  /\ (createAddTrackedRepository "deco-cx" "admin" 3500 sample_db).1
     = Return {| Repository.id := 3; Repository.owner := "deco-cx";
                 Repository.name := "admin"; Repository.isActive := true;
                 Repository.createdAt := toISOString 3000 |}
  /\ (createAddTrackedProject "PVT_new" "Roadmap" "deco-cx" 3500 sample_db).1
     = Return {| Project.id := 2; Project.projectId := "PVT_new";
                 Project.title := "Roadmap";
                 Project.organizationLogin := "deco-cx";
                 Project.isActive := true;
                 Project.createdAt := toISOString 3000 |}.
Proof.
  assert (Forall (fun i => Z.abs i < 2 ^ 53)
            (R.id <$> tracked_repositories sample_db)) as HidsR
    by (repeat constructor).
  assert (Forall (fun i => Z.abs i < 2 ^ 53)
            (P.id <$> tracked_projects sample_db)) as HidsP
    by (repeat constructor).
  assert (forall r, r ∈ tracked_repositories sample_db ->
                    ~ (R.owner r = "deco-cx" /\ R.name r = "admin")) as Hnone.
  { intros r Hr [_ Hname].
    apply elem_of_cons in Hr as [->|Hr]; [discriminate Hname|].
    apply elem_of_cons in Hr as [->|Hr]; [discriminate Hname|].
    by apply elem_of_nil in Hr. }
  assert ("PVT_new" ∉ P.projectId <$> tracked_projects sample_db) as Hnin
    by (apply (bool_decide_unpack _); vm_compute; exact I).
  destruct (add_tracked_new sample_db) as [HR HP].
  split; [exact HidsR|]. split; [exact HidsP|].
  split; [exact Hnone|]. split; [exact Hnin|]. split.
  - exact (f_equal fst (proj1 (HR "deco-cx" "admin" 3500 HidsR Hnone))).
  - exact (f_equal fst
             (proj1 (HP "PVT_new" "Roadmap" "deco-cx" 3500 HidsP Hnin))).
Defined.

(** ** More on the request helper *)

Lemma restRequest_world token rest endpoint options sent :
  (restRequest token rest endpoint options sent).2
  = (sent ++ [restRequestInit token endpoint options])%list.
Proof.
  cbv [restRequest bind fetch throw response_json ret try_catch get_prop].
  destruct (rest sent _) as [response|]; [|done].
  destruct (_ =? _)%Z; [done|]. destruct (negb _).
  - destruct (json response) as [[]|]; try done.
    + destruct (entries_get _ _) as [m|]; [|done]. by destruct (truthy m).
  - destruct (_ =? _)%Z; [done|]. by destruct (json response).
Qed.

(** X9: one call, one request: whatever the server answers, and also when
    no answer arrives, [graphqlQuery] and [restRequest] send exactly one
    request and never a second one; the GraphQL request is a POST to the
    GraphQL endpoint that carries the token as a bearer credential. *)
Theorem client_sends_one_request (token : string)
  (graphql : Server GraphQLResponse) (rest : Server Json)
  (sent : list Request) :
  (forall query variables,
     exists request,
       (graphqlQuery token graphql query variables sent).2
         = (sent ++ [request])%list
       /\ url request = "https://api.github.com/graphql"
       /\ method request = Some "POST"
       /\ lookup_first "Authorization" (headers request)
          = Some ("Bearer " +:+ token))
  /\ (forall endpoint options,
     exists request,
       (restRequest token rest endpoint options sent).2
         = (sent ++ [request])%list
       /\ method request = init_method options
       /\ body request = init_body options).
Proof.
  split.
  - intros query variables. eexists. split; [apply graphqlQuery_world|done].
  - intros endpoint options. eexists. split; [apply restRequest_world|done].
Qed.

Lemma lookup_first_assign {V} (a : list (string * V)) (k k' : string) (v : V) :
  lookup_first k (assign a k' v)
  = if String.eqb k' k then Some v else lookup_first k a.
Proof.
  induction a as [|[k0 v0] a IH]; simpl; [done|].
  destruct (String.eqb k0 k') eqn:E0; simpl.
  - apply String.eqb_eq in E0 as ->. by destruct (String.eqb k' k).
  - destruct (String.eqb k0 k) eqn:E1; [|done].
    apply String.eqb_eq in E1 as ->. by rewrite String.eqb_sym, E0.
Qed.

Lemma lookup_first_spread {V} (a b : list (string * V)) (k : string) :
  lookup_first k (spread a b)
  = match lookup_last k b with
    | Some v => Some v
    | None => lookup_first k a
    end.
Proof.
  unfold spread. revert a. induction b as [|[k' v'] b IH]; intros a; [done|].
  simpl. rewrite IH. destruct (lookup_last k b); [done|].
  rewrite lookup_first_assign. by destruct (String.eqb k' k).
Qed.





(** X11: a REST call that succeeds: a 204 returns the empty object without
    reading the body; any other 2xx returns the parsed body, and fails with a
    SyntaxError when the body is not JSON. *)
Theorem rest_success (token : string) (rest : Server Json)
  (endpoint : string) (options : RequestInit) (sent : list Request)
  (response : Response Json) :
  rest sent (restRequestInit token endpoint options) = Some response ->
  200 <= status response <= 299 ->
  (status response = 204 ->
     (restRequest token rest endpoint options sent).1 = Return (JObj []))
  /\ (status response <> 204 ->
      forall v, json response = Some v ->
        (restRequest token rest endpoint options sent).1 = Return v)
  /\ (status response <> 204 -> json response = None ->
      (restRequest token rest endpoint options sent).1 = Throw SyntaxError).
Proof.
  intros Hresp Hok.
  assert ((status response =? 429)%Z = false) as H429 by (apply Z.eqb_neq; lia).
  apply ok_iff in Hok.
  cbv [restRequest bind throw response_json ret].
  rewrite (fetch_answer _ _ _ _ Hresp), H429, Hok. cbn [negb].
  split_and!.
  - intros ->. done.
  - intros H204 v ->. apply Z.eqb_neq in H204. by rewrite H204.
  - intros H204 ->. apply Z.eqb_neq in H204. by rewrite H204.
Qed.

Lemma rest_success_witness :
  let options := {| init_method := Some "DELETE"; init_headers := None;
                    init_body := None |} in
  200 <= 204 <= 299
  /\ (restRequest "ghp_token" (refuses 204 "No Content")
        "/repos/deco-cx/deco/subscription" options []).1 = Return (JObj []).
Proof.
  intros options.
  assert (200 <= 204 <= 299) as Hok by lia.
  split; [exact Hok|].
  exact (proj1 (rest_success "ghp_token" (refuses 204 "No Content")
                  "/repos/deco-cx/deco/subscription" options []
                  _ eq_refl Hok) eq_refl).
Defined.

Lemma prefix_refl (s : string) : String.prefix s s = true.
Proof.
  induction s as [|c s IH]; [done|]. simpl.
  destruct (ascii_dec c c); [done|congruence].
Qed.

(** X12: a REST call that fails: for every response that is neither 2xx nor
    429, whatever its body (not JSON, [null], an array, an object with or
    without a message), the call throws a plain [Error] whose message starts
    with the status line; a failure to read the body never escapes. *)
Theorem rest_error_shape (token : string) (rest : Server Json)
  (endpoint : string) (options : RequestInit) (sent : list Request)
  (response : Response Json) :
  rest sent (restRequestInit token endpoint options) = Some response ->
  status response <> 429 ->
  ~ (200 <= status response <= 299) ->
  exists message,
    (restRequest token rest endpoint options sent).1
      = Throw (Error message None)
    /\ String.prefix
         ("GitHub REST API request failed: "
          +:+ String_of_number (status response) +:+ " "
          +:+ statusText response) message = true.
Proof.
  intros Hresp H429 Hok. apply Z.eqb_neq in H429.
  cbv [restRequest bind throw try_catch response_json get_prop ret].
  rewrite (fetch_answer _ _ _ _ Hresp), H429, (ok_false _ Hok).
  set (failed := "GitHub REST API request failed: " +:+ _).
  assert (String.prefix failed failed = true) as Hself
    by apply prefix_refl.
  destruct (json response) as [[| | | | |entries]|]; simpl;
    try (eexists; split; [reflexivity|exact Hself]).
  destruct (entries_get "message" entries) as [m|];
    [|eexists; split; [reflexivity|exact Hself]].
  destruct (truthy m); eexists; (split; [reflexivity|]);
    [apply prefix_app_self|exact Hself].
Qed.

Lemma rest_error_shape_witness :
  let options := {| init_method := None; init_headers := None;
                    init_body := None |} in
  let rest : Server Json := fun _ _ =>
    Some {| status := 502; statusText := "Bad Gateway";
            headers_get := fun _ => None; json := Some JNull |} in
  502 <> 429 /\ ~ (200 <= 502 <= 299)
  /\ exists message,
       (restRequest "ghp_token" rest "/user" options []).1
         = Throw (Error message None)
       /\ String.prefix
            ("GitHub REST API request failed: " +:+ String_of_number 502
             +:+ " " +:+ "Bad Gateway") message = true.
Proof.
  intros options rest.
  assert (502 <> 429) as H429 by lia.
  assert (~ (200 <= 502 <= 299)) as Hok by lia.
  split; [exact H429|]. split; [exact Hok|].
  exact (rest_error_shape "ghp_token" rest "/user" options [] _ eq_refl
           H429 Hok).
Defined.

(** X13: the node-id helpers: they pass on whatever [graphqlQuery] throws;
    from a payload they return [repository.id] (or [repository.issue.id]),
    which is undefined when the object has no id; and when the payload has no
    repository, or a null one, they throw a TypeError. *)
Theorem node_id_helpers (token : string) (graphql : Server GraphQLResponse)
  (owner repo : string) (issueNumber : Z) (sent sent' : list Request) :
  let repoVars := Some [("owner", Some (JStr owner));
                        ("repo", Some (JStr repo))] in
  let issueVars := Some [("owner", Some (JStr owner));
                         ("repo", Some (JStr repo));
                         ("issueNumber", Some (JNum issueNumber))] in
  (forall e,
     graphqlQuery token graphql Queries.GetRepositoryId repoVars sent
       = (Throw e, sent') ->
     getRepositoryNodeId token graphql owner repo sent = (Throw e, sent'))
  /\ (forall payload,
     graphqlQuery token graphql Queries.GetRepositoryId repoVars sent
       = (Return (JObj payload), sent') ->
     (forall repository,
        entries_get "repository" payload = Some (JObj repository) ->
        getRepositoryNodeId token graphql owner repo sent
        = (Return (entries_get "id" repository), sent'))
     /\ (entries_get "repository" payload = None
         \/ entries_get "repository" payload = Some JNull ->
         getRepositoryNodeId token graphql owner repo sent
         = (Throw TypeError, sent')))
  /\ (forall e,
     graphqlQuery token graphql Queries.GetIssueId issueVars sent
       = (Throw e, sent') ->
     getIssueNodeId token graphql owner repo issueNumber sent
     = (Throw e, sent'))
  /\ (forall payload repository,
     graphqlQuery token graphql Queries.GetIssueId issueVars sent
       = (Return (JObj payload), sent') ->
     entries_get "repository" payload = Some (JObj repository) ->
     (forall issue,
        entries_get "issue" repository = Some (JObj issue) ->
        getIssueNodeId token graphql owner repo issueNumber sent
        = (Return (entries_get "id" issue), sent'))
     /\ (entries_get "issue" repository = None
         \/ entries_get "issue" repository = Some JNull ->
         getIssueNodeId token graphql owner repo issueNumber sent
         = (Throw TypeError, sent'))).
Proof.
  intros repoVars issueVars. split_and!.
  - intros e He. unfold getRepositoryNodeId, bind. fold repoVars.
    by rewrite He.
  - intros payload Hq. split.
    + intros repository Hrepo. unfold getRepositoryNodeId, bind.
      fold repoVars. rewrite Hq. simpl. unfold bind, get_prop, ret.
      by rewrite Hrepo.
    + intros Hnone. unfold getRepositoryNodeId, bind.
      fold repoVars. rewrite Hq. simpl. unfold bind, get_prop, ret.
      by destruct Hnone as [-> | ->].
  - intros e He. unfold getIssueNodeId, bind. fold issueVars. by rewrite He.
  - intros payload repository Hq Hrepo. split.
    + intros issue Hissue. unfold getIssueNodeId, bind.
      fold issueVars. rewrite Hq. simpl. unfold bind, get_prop, ret.
      by rewrite Hrepo, Hissue.
    + intros Hnone. unfold getIssueNodeId, bind.
      fold issueVars. rewrite Hq. simpl. unfold bind, get_prop, ret.
      rewrite Hrepo. by destruct Hnone as [-> | ->].
Qed.

Lemma node_id_helpers_witness :
  let payload := [("repository", JObj [("id", JStr "R_kgDOJ")])] in
  let missing := [("repository", JNull)] in
  getRepositoryNodeId "ghp_token" (answers (JObj payload)) "deco-cx" "deco" []
    = (Return (Some (JStr "R_kgDOJ")),
       [graphqlRequest "ghp_token" Queries.GetRepositoryId
          (Some [("owner", Some (JStr "deco-cx"));
                 ("repo", Some (JStr "deco"))])])
  /\ getRepositoryNodeId "ghp_token" (answers (JObj missing)) "deco-cx"
       "none" []
     = (Throw TypeError,
        [graphqlRequest "ghp_token" Queries.GetRepositoryId
           (Some [("owner", Some (JStr "deco-cx"));
                  ("repo", Some (JStr "none"))])]).
Proof.
  intros payload missing. split.
  - exact (proj1 (proj1 (proj2 (node_id_helpers "ghp_token"
             (answers (JObj payload)) "deco-cx" "deco" 0 [] _))
             payload eq_refl) _ eq_refl).
  - exact (proj2 (proj1 (proj2 (node_id_helpers "ghp_token"
             (answers (JObj missing)) "deco-cx" "none" 0 [] _))
             missing eq_refl) (or_intror eq_refl)).
Defined.

(** *** A Retry-After header that goes on after its number *)

Lemma pretty_N_go_app (x : N) (s1 s2 : string) :
  pretty_N_go x (s1 +:+ s2) = pretty_N_go x s1 +:+ s2.
Proof.
  revert s1. induction (N.lt_wf_0 x) as [x _ IH]; intros s1.
  destruct (decide (x = 0)%N) as [->|Hx]; [by rewrite !pretty_N_go_0|].
  rewrite (pretty_N_go_step x (s1 +:+ s2)), (pretty_N_go_step x s1) by lia.
  exact (IH (x `div` 10)%N ltac:(apply N.div_lt; lia)
           (String (pretty_N_char (x `mod` 10)) s1)).
Qed.

Lemma digitPrefix_no_leading_digit (s : string) :
  no_leading_digit s -> digitPrefix s = [].
Proof. destruct s as [|c s]; [done|]. simpl. by intros ->. Qed.

Lemma parseInt_numeral_then_text (n : Z) (rest : string) :
  0 <= n -> no_leading_digit rest ->
  parseInt (String_of_number n +:+ rest) = Num n.
Proof.
  intros Hn Hrest. unfold String_of_number, pretty, pretty_Z.
  destruct n as [|p|p]; [| |lia].
  - change ("0" +:+ rest) with (String "0" rest).
    unfold parseInt. cbn [trimStart]. simpl.
    by rewrite (digitPrefix_no_leading_digit _ Hrest).
  - change (pretty p) with (pretty (Npos p)).
    unfold pretty, pretty_N. rewrite decide_False by done.
    rewrite <- pretty_N_go_app.
    change ("" +:+ rest) with rest.
    destruct (pretty_N_go_head (Npos p) rest ltac:(lia))
      as (m & tail & Hm & Hhead).
    rewrite (parseInt_digits _ _ _ _ Hhead (digitValue_pretty_N_char m Hm)).
    destruct (digitPrefix_pretty_N_go (Npos p) rest) as (ds & Hds & Hval & Hne).
    rewrite Hds, (digitPrefix_no_leading_digit _ Hrest), app_nil_r.
    destruct ds as [|d ds]; [exfalso; by apply Hne|].
    unfold digitsToInteger. rewrite Hval. f_equal; lia.
Qed.

(** X14: a Retry-After header that goes on after its number, as
    ["120, 60"] (the header sent twice) or ["30.5"], gives the number it
    starts with: [parseInt] stops at the first character that is not a
    digit.  On both request functions. *)
Theorem retry_after_leading_number (token : string)
  (graphql : Server GraphQLResponse) (rest : Server Json)
  (sent : list Request) (n : Z) (text : string) :
  0 <= n <= 2 ^ 53 ->
  no_leading_digit text ->
  (forall query variables response,
     graphql sent (graphqlRequest token query variables) = Some response ->
     status response = 429 ->
     headers_get response "Retry-After" = Some (String_of_number n +:+ text) ->
     exists message,
       (graphqlQuery token graphql query variables sent).1
       = Throw (Error message (Some (Num n))))
  /\ (forall endpoint options response,
     rest sent (restRequestInit token endpoint options) = Some response ->
     status response = 429 ->
     headers_get response "Retry-After" = Some (String_of_number n +:+ text) ->
     exists message,
       (restRequest token rest endpoint options sent).1
       = Throw (Error message (Some (Num n)))).
Proof.
  intros Hn Htext.
  assert (rateLimitError (Some (String_of_number n +:+ text))
          = Error ("Rate limit exceeded. Retry after "
                   +:+ (String_of_number n +:+ text) +:+ " seconds.")
              (Some (Num n))) as Hrate.
  { unfold rateLimitError. cbn [truthy_str String_of_nullable].
    rewrite parseInt_numeral_then_text by (done || lia).
    destruct (String.eqb _ "") eqn:E; [|done].
    apply String.eqb_eq in E.
    pose proof (parseInt_numeral_then_text n text ltac:(lia) Htext) as Hp.
    by rewrite E in Hp. }
  split; intros until response; intros Hresp Hstatus Hhdr; eexists;
    cbv [graphqlQuery restRequest bind throw];
    rewrite (fetch_answer _ _ _ _ Hresp), Hstatus;
    cbn [Z.eqb Pos.eqb fst]; rewrite Hhdr, Hrate; reflexivity.
Qed.

Lemma retry_after_leading_number_witness :
  let response (B : Type) : Response B :=
    {| status := 429; statusText := "Too Many Requests";
       headers_get := fun name =>
         if String.eqb name "Retry-After" then Some "120, 60" else None;
       json := None |} in
  0 <= 120 <= 2 ^ 53 /\ no_leading_digit ", 60"
  /\ exists message,
       (graphqlQuery "ghp_token" (fun _ _ => Some (response _))
          "query { viewer { login } }" None []).1
       = Throw (Error message (Some (Num 120))).
Proof.
  intros response.
  assert (0 <= 120 <= 2 ^ 53) as Hrange by lia.
  assert (no_leading_digit ", 60") as Htext by reflexivity.
  split; [exact Hrange|]. split; [exact Htext|].
  exact (proj1 (retry_after_leading_number "ghp_token"
                  (fun _ _ => Some (response _)) (fun _ _ => None) []
                  120 ", 60" Hrange Htext)
           "query { viewer { login } }" None (response _)
           eq_refl eq_refl eq_refl).
Defined.

(** ** More on the tool handlers *)

Lemma sends_quiet {A} Q (m : Async (list Request) A) n :
  quiet m -> sends n Q m.
Proof.
  intros Hq sent. exists []. rewrite Hq, app_nil_r.
  split; [done|]. split; [simpl; lia|constructor].
Qed.

Lemma sends_mono {A} Q (m : Async (list Request) A) n n' :
  (n <= n')%nat -> sends n Q m -> sends n' Q m.
Proof.
  intros Hle Hm sent. destruct (Hm sent) as (new & ? & ? & ?).
  exists new. split; [done|]. split; [lia|done].
Qed.

Lemma sends_bind {A B} Q (m : Async (list Request) A)
  (k : A -> Async (list Request) B) n n' :
  sends n Q m -> (forall a, sends n' Q (k a)) -> sends (n + n') Q (bind m k).
Proof.
  intros Hm Hk sent. destruct (Hm sent) as (new & Hw & Hlen & HQ).
  unfold bind. destruct (m sent) as [[a|e] s'] eqn:E; simpl in *; subst s'.
  - destruct (Hk a (sent ++ new)%list) as (new' & Hw' & Hlen' & HQ').
    exists (new ++ new')%list. rewrite Hw', app_assoc.
    split; [done|]. split; [rewrite length_app; lia|by apply Forall_app_2].
  - exists new. split; [done|]. split; [lia|done].
Qed.

Lemma sends_graphqlQuery token graphql query variables :
  sends 1 (tool_request token) (graphqlQuery token graphql query variables).
Proof.
  intros sent. eexists. split; [apply graphqlQuery_world|].
  split; [done|]. apply Forall_singleton. by repeat split.
Qed.

(** One query and what is made of its payload. *)
Lemma sends_query_then {B} token graphql query variables
  (k : Json -> Async (list Request) B) :
  (forall a, quiet (k a)) ->
  sends 1 (tool_request token)
    (bind (graphqlQuery token graphql query variables) k).
Proof.
  intros Hk. apply (sends_bind _ _ _ 1 0); [apply sends_graphqlQuery|].
  intros a. by apply sends_quiet.
Qed.

Lemma sends_getRepositoryNodeId token graphql owner repo :
  sends 1 (tool_request token) (getRepositoryNodeId token graphql owner repo).
Proof. apply sends_query_then. intros a. auto with quiet. Qed.

Lemma sends_getIssueNodeId token graphql owner repo issueNumber :
  sends 1 (tool_request token)
    (getIssueNodeId token graphql owner repo issueNumber).
Proof. apply sends_query_then. intros a. auto with quiet. Qed.

Lemma withGitHubToken_cases {A} env (k : State -> string -> Async (list Request) A) :
  (exists st token,
     token_of env = Some token /\ token <> ""
     /\ DECO_REQUEST_CONTEXT env ≫= state = Some st
     /\ githubToken st = Some token
     /\ withGitHubToken env k = k st token)
  \/ ((token_of env = None \/ token_of env = Some "")
      /\ withGitHubToken env k = throw (Error NO_TOKEN_MESSAGE None)).
Proof.
  unfold token_of, withGitHubToken.
  destruct (DECO_REQUEST_CONTEXT env ≫= state) as [st|]; simpl;
    [|right; by split; [left|]].
  destruct (githubToken st) as [token|] eqn:Htok; [|right; by split; [left|]].
  destruct (String.eqb token "") eqn:E; simpl.
  - apply String.eqb_eq in E as ->. right. by split; [right|].
  - apply String.eqb_neq in E. left. by exists st, token.
Qed.

Lemma sends_impl {A} (Q Q' : Request -> Prop) (m : Async (list Request) A) n :
  (forall r, Q r -> Q' r) -> sends n Q m -> sends n Q' m.
Proof.
  intros HQ Hm sent. destruct (Hm sent) as (new & ? & ? & ?).
  exists new. split; [done|]. split; [done|]. by eapply Forall_impl.
Qed.

Lemma sends_withGitHubToken {A} env n
  (k : State -> string -> Async (list Request) A) :
  (forall st token, sends n (tool_request token) (k st token)) ->
  sends n (fun request => exists token,
             token_of env = Some token /\ tool_request token request)
    (withGitHubToken env k).
Proof.
  intros Hk.
  destruct (withGitHubToken_cases env k)
    as [(st & token & Htok & _ & _ & _ & ->)|[_ ->]].
  - eapply sends_impl; [|apply Hk]. intros r Hr. by exists token.
  - by apply sends_quiet.
Qed.

Ltac one_request :=
  apply (sends_mono _ _ 1); [lia|];
  apply sends_query_then; intros; auto 20 with quiet.
Ltac lookup_then_request :=
  apply (sends_bind _ _ _ 1 1);
  [first [apply sends_getIssueNodeId | apply sends_getRepositoryNodeId]
  |intros; apply sends_query_then; intros; auto 20 with quiet].

(** X15: every request one of the eleven issue tools or seven project tools
    sends is a POST to the GraphQL endpoint that carries the token of the
    request context, and no call of them sends more than two requests. *)
Theorem tools_requests (env : Env) (graphql : Server GraphQLResponse)
  (call : ToolCall) :
  (forall query variables, call <> USER_OPERATION query variables) ->
  sends 2 (fun request => exists token,
             token_of env = Some token /\ tool_request token request)
    (execute env graphql call).
Proof.
  intros Hcall. destruct call; try (by edestruct Hcall); clear Hcall; simpl;
    unfold createListIssues, createGetIssue, createCreateIssue,
      createUpdateIssue, createCloseIssue, createAddIssueComment,
      createListIssueComments, createAddLabelsToIssue,
      createRemoveLabelsFromIssue, createAssignIssue, createUnassignIssue,
      createListGitHubProjects, createGetProjectDetails, createCreateProject,
      createUpdateProject, createDeleteProject, createListProjectItems,
      createAddItemToProject, userTool;
    apply sends_withGitHubToken; intros st token; cbv zeta;
    try (destruct (negb _); [by apply sends_quiet|]);
    first [solve [lookup_then_request] | solve [one_request] | idtac].
  - (* CREATE_PROJECT *)
    apply (sends_bind _ _ _ 1 1); [apply sends_graphqlQuery|]. intros orgResult.
    apply (sends_bind _ _ _ 0 1); [apply sends_quiet; auto with quiet|].
    intros ownerId. apply sends_query_then. intros; auto 20 with quiet.
Qed.

Lemma tools_requests_witness :
  let call := ADD_ISSUE_COMMENT "deco-cx" "deco" 42 "Fixed in #43" in
  (forall query variables, call <> USER_OPERATION query variables)
  /\ sends 2 (fun request => exists token,
                token_of sample_env = Some token
                /\ tool_request token request)
       (execute sample_env (refuses 404 "Not Found") call).
Proof.
  intros call.
  assert (forall query variables, call <> USER_OPERATION query variables)
    as Hcall by discriminate.
  split; [exact Hcall|].
  exact (tools_requests sample_env (refuses 404 "Not Found") call Hcall).
Defined.

Lemma variable_graphqlRequest token query (variables : Props) k :
  variable k (graphqlRequest token query (Some variables))
  = entries_get k (defined variables).
Proof. reflexivity. Qed.

Lemma entries_get_absent k (es : list (string * Json)) :
  k ∉ es.*1 -> entries_get k es = None.
Proof.
  induction es as [|[k' v] es IH]; [done|]. simpl.
  intros Hk. apply not_elem_of_cons in Hk as [Hne Hk].
  rewrite IH by done. apply String.eqb_neq in Hne.
  by rewrite String.eqb_sym, Hne.
Qed.

Lemma defined_cons_Some k v (ps : Props) :
  defined ((k, Some v) :: ps) = (k, v) :: defined ps.
Proof. reflexivity. Qed.
Lemma defined_cons_None k (ps : Props) :
  defined ((k, None) :: ps) = defined ps.
Proof. reflexivity. Qed.

Lemma defined_keys (ps : Props) k : k ∈ (defined ps).*1 -> k ∈ ps.*1.
Proof.
  induction ps as [|[k' [v|]] ps IH]; [done|..].
  - rewrite defined_cons_Some. simpl. rewrite !elem_of_cons.
    intros [->|H]; [by left|right; by apply IH].
  - rewrite defined_cons_None. simpl. intros H. right. by apply IH.
Qed.

(** Reading a key of an object literal with distinct keys, some of whose
    values may be undefined. *)
Lemma entries_get_defined (ps : Props) k :
  NoDup ps.*1 -> entries_get k (defined ps) = lookup_first k ps ≫= id.
Proof.
  induction ps as [|[k' v] ps IH]; [done|].
  intros Hnd. apply NoDup_cons in Hnd as [Hk' Hnd].
  specialize (IH Hnd). cbn [lookup_first].
  destruct (String.eqb k' k) eqn:E.
  - apply String.eqb_eq in E as ->.
    assert (entries_get k (defined ps) = None) as Hnone.
    { apply entries_get_absent. intros H. by apply Hk', defined_keys. }
    destruct v as [v|].
    + rewrite defined_cons_Some. cbn [entries_get].
      by rewrite Hnone, String.eqb_refl.
    + by rewrite defined_cons_None.
  - destruct v as [v|].
    + rewrite defined_cons_Some. cbn [entries_get]. rewrite IH, E.
      by destruct (lookup_first k ps ≫= id).
    + by rewrite defined_cons_None.
Qed.

Ltac distinct_keys := apply (bool_decide_unpack _); vm_compute; exact I.

(** X16: the tools that look a node id up first (CREATE_ISSUE, UPDATE_ISSUE,
    CLOSE_ISSUE, ADD_ISSUE_COMMENT, the label and the assignee tools): when
    the lookup throws, the tool throws the same and sends no mutation; when
    the lookup returns, exactly one more request is sent, and its id variable
    is what the lookup returned (no variable at all when the lookup returned
    undefined). *)
Theorem two_step_tools (env : Env) (graphql : Server GraphQLResponse)
  (st : State) (token : string) (call : ToolCall)
  (lookup : Async (list Request) (option Json)) (var : string)
  (sent sent1 : list Request) :
  DECO_REQUEST_CONTEXT env ≫= state = Some st ->
  githubToken st = Some token -> token <> "" ->
  two_step token graphql call lookup var ->
  (forall e, lookup sent = (Throw e, sent1) ->
     execute env graphql call sent = (Throw e, sent1))
  /\ (forall id, lookup sent = (Return id, sent1) ->
      exists request,
        (execute env graphql call sent).2 = (sent1 ++ [request])%list
        /\ variable var request = id).
Proof.
  intros Hst Htok Hne Hcall.
  destruct Hcall; simpl;
    unfold createCreateIssue, createUpdateIssue, createCloseIssue,
      createAddIssueComment, createAddLabelsToIssue,
      createRemoveLabelsFromIssue, createAssignIssue, createUnassignIssue;
    rewrite (withGitHubToken_token _ _ _ _ Hst Htok Hne);
    (split; [intros e Hl; unfold bind at 1; by rewrite Hl|]);
    intros id Hl; unfold bind at 1; rewrite Hl;
    rewrite bind_quiet_world by (intros; auto 20 with quiet);
    rewrite graphqlQuery_world; eexists; (split; [reflexivity|]);
    rewrite variable_graphqlRequest, entries_get_defined by distinct_keys;
    by destruct id.
Qed.

Lemma two_step_tools_witness :
  let graphql : Server GraphQLResponse := refuses 404 "Not Found" in
  let call := CLOSE_ISSUE "deco-cx" "deco" 42 (Some COMPLETED) in
  two_step "ghp_token" graphql call
    (getIssueNodeId "ghp_token" graphql "deco-cx" "deco" 42) "issueId"
  /\ execute sample_env graphql call []
     = (Throw (Error "GitHub API request failed: 404 Not Found" None),
        [graphqlRequest "ghp_token" Queries.GetIssueId
           (Some [("owner", Some (JStr "deco-cx"));
                  ("repo", Some (JStr "deco"));
                  ("issueNumber", Some (JNum 42))])]).
Proof.
  intros graphql call.
  assert (two_step "ghp_token" graphql call
            (getIssueNodeId "ghp_token" graphql "deco-cx" "deco" 42)
            "issueId") as Hstep by constructor.
  destruct sample_env_token as (Hst & Htok & Hne).
  split; [exact Hstep|].
  exact (proj1 (two_step_tools sample_env graphql sample_state "ghp_token"
                  call _ "issueId" [] _ Hst Htok Hne Hstep) _ eq_refl).
Defined.

Lemma bind_first_request {A B} (m : Async (list Request) A)
  (k : A -> Async (list Request) B) request sent n Q :
  (m sent).2 = (sent ++ [request])%list ->
  (forall a, sends n Q (k a)) ->
  exists later, (bind m k sent).2 = (sent ++ request :: later)%list.
Proof.
  intros Hm Hk. unfold bind.
  destruct (m sent) as [[a|e] s1]; simpl in *; subst s1.
  - destruct (Hk a (sent ++ [request])%list) as (new & -> & _).
    exists new. by rewrite <- app_assoc.
  - by exists [].
Qed.

Lemma bind_first_variable {A B} (m : Async (list Request) A)
  (k : A -> Async (list Request) B) request sent n Q key v :
  (m sent).2 = (sent ++ [request])%list ->
  (forall a, sends n Q (k a)) ->
  variable key request = v ->
  exists request later,
    (bind m k sent).2 = (sent ++ request :: later)%list
    /\ variable key request = v.
Proof.
  intros Hm Hk Hv.
  destruct (bind_first_request m k request sent n Q Hm Hk) as [later Hl].
  by exists request, later.
Qed.

(** X17: the organization of LIST_GITHUB_PROJECTS and CREATE_PROJECT: a
    login given in the call is the one sent, an empty login falls back to
    the default organization of the state, and with neither the call is
    rejected with the organization message before anything is sent. *)
Theorem organization_login (env : Env) (graphql : Server GraphQLResponse)
  (st : State) (token : string) (sent : list Request)
  (organizationLogin title : string) (description : option string)
  (first : Z) :
  DECO_REQUEST_CONTEXT env ≫= state = Some st ->
  githubToken st = Some token -> token <> "" ->
  let list_projects := LIST_GITHUB_PROJECTS organizationLogin first in
  let create_project := CREATE_PROJECT organizationLogin title description in
  let asks_for (call : ToolCall) (login : string) :=
    exists request later,
      (execute env graphql call sent).2 = (sent ++ request :: later)%list
      /\ variable "login" request = Some (JStr login) in
  (organizationLogin <> "" ->
     asks_for list_projects organizationLogin
     /\ asks_for create_project organizationLogin)
  /\ (forall default,
     organizationLogin = "" -> defaultOrganization st = Some default ->
     default <> "" ->
     asks_for list_projects default /\ asks_for create_project default)
  /\ (organizationLogin = "" ->
      defaultOrganization st = None \/ defaultOrganization st = Some "" ->
      execute env graphql list_projects sent
        = (Throw (Error NO_ORGANIZATION_MESSAGE None), sent)
      /\ execute env graphql create_project sent
        = (Throw (Error NO_ORGANIZATION_MESSAGE None), sent)).
Proof.
  intros Hst Htok Hne list_projects create_project asks_for.
  assert (forall login,
            or_str (Some organizationLogin) (defaultOrganization st)
              = Some login -> login <> "" ->
            asks_for list_projects login /\ asks_for create_project login)
    as Hasks.
  { intros login Hor Hlogin. apply String.eqb_neq in Hlogin.
    subst asks_for list_projects create_project. simpl.
    unfold createListGitHubProjects, createCreateProject.
    rewrite !(withGitHubToken_token _ _ _ _ Hst Htok Hne). cbv zeta.
    rewrite Hor. cbn [truthy_str]. rewrite Hlogin. cbn [negb]. split.
    - eapply (bind_first_variable _ _ _ _ 0 (fun _ => True));
        [apply graphqlQuery_world| |reflexivity].
      intros a. apply sends_quiet. auto 20 with quiet.
    - eapply (bind_first_variable _ _ _ _ 1 (fun _ => True));
        [apply graphqlQuery_world| |reflexivity].
      intros orgResult.
      apply (sends_bind (fun _ => True) _ _ 0 1);
        [apply sends_quiet; auto with quiet|].
      intros ownerId. eapply sends_impl; [|apply sends_query_then].
      + done.
      + intros; auto 20 with quiet. }
  split_and!.
  - intros Horg. apply Hasks; [|done].
    unfold or_str. cbn [truthy_str]. apply String.eqb_neq in Horg.
    by rewrite Horg.
  - intros default -> Hdef Hdefault. apply Hasks; [|done]. by rewrite Hdef.
  - intros -> Hnone. subst list_projects create_project. simpl.
    unfold createListGitHubProjects, createCreateProject.
    rewrite !(withGitHubToken_token _ _ _ _ Hst Htok Hne). cbv zeta.
    by destruct Hnone as [-> | ->].
Qed.

Lemma organization_login_witness :
  (execute sample_env (refuses 404 "Not Found")
     (LIST_GITHUB_PROJECTS "" 20) []
   = (Throw (Error NO_ORGANIZATION_MESSAGE None), []))
  /\ exists request later,
       (execute sample_env (refuses 404 "Not Found")
          (CREATE_PROJECT "deco-cx" "Roadmap" None) []).2
       = ([] ++ request :: later)%list
       /\ variable "login" request = Some (JStr "deco-cx").
Proof.
  destruct sample_env_token as (Hst & Htok & Hne).
  assert ("deco-cx" <> "") as Horg by discriminate.
  split.
  - exact (proj1 (proj2 (proj2 (organization_login sample_env
             (refuses 404 "Not Found") sample_state "ghp_token" []
             "" "Roadmap" None 20 Hst Htok Hne)) eq_refl
             (or_introl eq_refl))).
  - exact (proj2 (proj1 (organization_login sample_env
             (refuses 404 "Not Found") sample_state "ghp_token" []
             "deco-cx" "Roadmap" None 20 Hst Htok Hne) Horg)).
Defined.

(** X18: two inputs that are declared and never used: the assignee filter
    of LIST_ISSUES and the description of CREATE_PROJECT change nothing of
    what the tool sends or returns. *)
Theorem unused_inputs (env : Env) (graphql : Server GraphQLResponse) :
  (forall owner repo state labels first assignee assignee',
     execute env graphql (LIST_ISSUES owner repo state labels assignee first)
     = execute env graphql
         (LIST_ISSUES owner repo state labels assignee' first))
  /\ (forall organizationLogin title description description',
     execute env graphql (CREATE_PROJECT organizationLogin title description)
     = execute env graphql
         (CREATE_PROJECT organizationLogin title description')).
Proof. split; reflexivity. Qed.


Lemma reads_ret {S A} (a : A) : reads (ret (S:=S) a).
Proof. intros s. left. by exists a. Qed.
Lemma reads_bind {S A B} (m : Async S A) (k : A -> Async S B) :
  reads m -> (forall a, reads (k a)) -> reads (bind m k).
Proof.
  intros Hm Hk s. unfold bind. destruct (Hm s) as [[a ->]| ->]; [apply Hk|].
  by right.
Qed.
Lemma reads_get_prop {S} v k : reads (get_prop (S:=S) v k).
Proof. intros s. destruct v as [[]|]; try (by right); left; by eexists. Qed.
Lemma reads_get_path {S} v ks : reads (get_path (S:=S) v ks).
Proof.
  revert v. induction ks as [|k ks IH]; intros v; [apply reads_ret|].
  simpl. apply reads_bind; [apply reads_get_prop|done].
Qed.
Lemma reads_project_item node : reads (project_item node).
Proof.
  unfold project_item.
  repeat (apply reads_bind; [apply reads_get_path|intros ?]).
  apply reads_ret.
Qed.

Lemma mapM_TypeError {S A B} (f : A -> Async S B) (l : list A) (x : A) s :
  (forall y, reads (f y)) -> x ∈ l -> f x s = (Throw TypeError, s) ->
  mapM f l s = (Throw TypeError, s).
Proof.
  intros Hf Hx Hthrow. induction l as [|y l IH]; [by apply elem_of_nil in Hx|].
  simpl. unfold bind at 1.
  apply elem_of_cons in Hx as [<-|Hx]; [by rewrite Hthrow|].
  destruct (Hf y s) as [[b ->]| ->]; [|done].
  unfold bind. by rewrite (IH Hx).
Qed.

Lemma project_item_lacks_content node s :
  lacks_content node -> project_item (Some node) s = (Throw TypeError, s).
Proof.
  intros [->|(entries & -> & Hcontent)]; [done|].
  unfold project_item, bind; simpl. unfold bind, get_prop, ret; simpl.
  by destruct Hcontent as [-> | ->].
Qed.

(** X19: LIST_PROJECT_ITEMS fails as a whole on one item without content:
    when the payload lists a node that is null, or whose content is missing
    or null, the tool throws a TypeError instead of returning the other
    items. *)
Theorem list_project_items_without_content (env : Env)
  (graphql : Server GraphQLResponse) (st : State) (token : string)
  (projectId : string) (first : Z) (sent sent1 : list Request)
  (payload node items : list (string * Json)) (nodes : list Json)
  (bad : Json) :
  DECO_REQUEST_CONTEXT env ≫= state = Some st ->
  githubToken st = Some token -> token <> "" ->
  graphqlQuery token graphql Queries.ListProjectItems
    (Some [("projectId", Some (JStr projectId));
           ("first", Some (JNum (pageSize first)))]) sent
    = (Return (JObj payload), sent1) ->
  entries_get "node" payload = Some (JObj node) ->
  entries_get "items" node = Some (JObj items) ->
  entries_get "nodes" items = Some (JArr nodes) ->
  bad ∈ nodes -> lacks_content bad ->
  execute env graphql (LIST_PROJECT_ITEMS projectId first) sent
  = (Throw TypeError, sent1).
Proof.
  intros Hst Htok Hne Hq Hnode Hitems Hnodes Hbad Hlacks. simpl.
  unfold createListProjectItems.
  rewrite (withGitHubToken_token _ _ _ _ Hst Htok Hne).
  unfold bind at 1. rewrite Hq.
  unfold bind at 1. simpl. unfold bind, get_prop, ret; simpl.
  rewrite Hnode, Hitems, Hnodes. unfold array_map, bind.
  rewrite (mapM_TypeError _ nodes bad sent1); [done| |done|].
  - intros y. apply reads_project_item.
  - by apply project_item_lacks_content.
Qed.

Lemma list_project_items_without_content_witness :
  let redacted := JObj [("id", JStr "PVTI_2"); ("content", JNull)] in
  let issue := JObj [("id", JStr "PVTI_1");
                     ("content", JObj [("__typename", JStr "Issue");
                                       ("title", JStr "Fix login")])] in
  let items := [("nodes", JArr [issue; redacted])] in
  let node := [("items", JObj items)] in
  let payload := [("node", JObj node)] in
  lacks_content redacted
  /\ execute sample_env (answers (JObj payload))
       (LIST_PROJECT_ITEMS "PVT_kwDOBj_xvs4A_o2I" 20) []
     = (Throw TypeError,
        [graphqlRequest "ghp_token" Queries.ListProjectItems
           (Some [("projectId", Some (JStr "PVT_kwDOBj_xvs4A_o2I"));
                  ("first", Some (JNum 20))])]).
Proof.
  intros redacted issue items node payload.
  assert (lacks_content redacted) as Hlacks.
  { right. eexists. split; [reflexivity|]. right. reflexivity. }
  assert (redacted ∈ [issue; redacted]) as Hin by (right; left).
  destruct sample_env_token as (Hst & Htok & Hne).
  split; [exact Hlacks|].
  exact (list_project_items_without_content sample_env
           (answers (JObj payload)) sample_state "ghp_token"
           "PVT_kwDOBj_xvs4A_o2I" 20 [] _ payload node items _ redacted
           Hst Htok Hne eq_refl eq_refl eq_refl eq_refl Hin Hlacks).
Defined.

Lemma entries_get_lookup_first k (es : list (string * Json)) :
  NoDup es.*1 -> entries_get k es = lookup_first k es.
Proof.
  induction es as [|[k' v] es IH]; [done|].
  intros Hnd. apply NoDup_cons in Hnd as [Hk' Hnd]. simpl.
  destruct (String.eqb k' k) eqn:E.
  - apply String.eqb_eq in E as ->. by rewrite entries_get_absent.
  - rewrite IH by done. by destruct (lookup_first k es).
Qed.

Lemma assign_keys {V} (a : list (string * V)) k v :
  (assign a k v).*1 = if decide (k ∈ a.*1) then a.*1 else (a.*1 ++ [k])%list.
Proof.
  induction a as [|[k' v'] a IH]; [done|]. cbn [assign].
  destruct (String.eqb k' k) eqn:E.
  - apply String.eqb_eq in E as ->. rewrite !fmap_cons. cbn [fst].
    by rewrite decide_True by left.
  - apply String.eqb_neq in E. rewrite !fmap_cons, IH. cbn [fst].
    destruct (decide (k ∈ a.*1)).
    + by rewrite decide_True by (by right).
    + rewrite decide_False; [done|].
      intros [?|?]%elem_of_cons; [by apply E|done].
Qed.

Lemma assign_NoDup {V} (a : list (string * V)) k v :
  NoDup a.*1 -> NoDup (assign a k v).*1.
Proof.
  intros Hnd. rewrite assign_keys. destruct (decide (k ∈ a.*1)); [done|].
  apply NoDup_app. split; [done|]. split; [|apply NoDup_singleton].
  intros x Hx Hx'. apply list_elem_of_singleton in Hx'. by subst.
Qed.

Lemma spread_NoDup {V} (a b : list (string * V)) :
  NoDup a.*1 -> NoDup (spread a b).*1.
Proof.
  unfold spread. revert a. induction b as [|[k v] b IH]; intros a Hnd; [done|].
  simpl. apply IH. by apply assign_NoDup.
Qed.

Lemma spread_entries_keys (es : list (string * Json)) :
  (spread_entries (Some (JObj es))).*1 = es.*1.
Proof.
  simpl. rewrite <- list_fmap_compose. by apply list_fmap_ext.
Qed.

Lemma lookup_first_spread_entries k (es : list (string * Json)) :
  lookup_first k (spread_entries (Some (JObj es))) ≫= id = lookup_first k es.
Proof.
  simpl. induction es as [|[k' v] es IH]; [done|]. simpl.
  by destruct (String.eqb k' k).
Qed.

(** X20: what LIST_ISSUES makes of an issue node: the connections [labels]
    and [assignees] are replaced by their [nodes] (dropped when they have
    none), and every other field of the issue comes out as it came in. *)
Theorem flatten_issue_fields (issue labels assignees : list (string * Json))
  (sent : list Request) :
  NoDup issue.*1 ->
  entries_get "labels" issue = Some (JObj labels) ->
  entries_get "assignees" issue = Some (JObj assignees) ->
  exists flat,
    flatten_issue (Some (JObj issue)) sent = (Return (JObj flat), sent)
    /\ entries_get "labels" flat = entries_get "nodes" labels
    /\ entries_get "assignees" flat = entries_get "nodes" assignees
    /\ (forall k, k <> "labels" -> k <> "assignees" ->
          entries_get k flat = entries_get k issue).
Proof.
  intros Hnd Hlabels Hassignees.
  unfold flatten_issue. cbn [get_path]. cbv [bind get_prop ret].
  rewrite Hlabels, Hassignees. unfold object. eexists. split; [reflexivity|].
  set (ps := spread _ _).
  assert (NoDup ps.*1) as Hps.
  { subst ps. apply spread_NoDup. by rewrite spread_entries_keys. }
  assert (forall k,
            entries_get k (defined ps)
            = match lookup_last k [("labels", entries_get "nodes" labels);
                                   ("assignees", entries_get "nodes" assignees)]
              with
              | Some v => v
              | None => entries_get k issue
              end) as Hget.
  { intros k. rewrite entries_get_defined by done. subst ps.
    rewrite lookup_first_spread.
    destruct (lookup_last k _) as [v|]; [done|].
    by rewrite lookup_first_spread_entries, entries_get_lookup_first. }
  split_and!.
  - by rewrite Hget.
  - by rewrite Hget.
  - intros k Hl Ha. rewrite Hget. cbn [lookup_last].
    apply not_eq_sym in Hl, Ha. apply String.eqb_neq in Hl, Ha.
    by rewrite Ha, Hl.
Qed.

Lemma flatten_issue_fields_witness :
  let labels := [("nodes", JArr [JObj [("name", JStr "bug")]])] in
  let assignees := [("nodes", JArr [])] in
  let issue := [("id", JStr "I_1"); ("title", JStr "Fix login");
                ("labels", JObj labels); ("assignees", JObj assignees)] in
  NoDup issue.*1
  /\ exists flat,
       flatten_issue (Some (JObj issue)) [] = (Return (JObj flat), [])
       /\ entries_get "labels" flat
          = Some (JArr [JObj [("name", JStr "bug")]])
       /\ entries_get "title" flat = Some (JStr "Fix login").
Proof.
  intros labels assignees issue.
  assert (NoDup issue.*1) as Hnd
    by (apply (bool_decide_unpack _); vm_compute; exact I).
  split; [exact Hnd|].
  destruct (flatten_issue_fields issue labels assignees [] Hnd eq_refl eq_refl)
    as (flat & Hflat & Hlabels & _ & Hrest).
  exists flat. split; [exact Hflat|]. split; [exact Hlabels|].
  exact (Hrest "title" ltac:(discriminate) ltac:(discriminate)).
Defined.
